(** * Palmer-penguins EDA plotting helpers: a shallow embedding

    The repository consists of six rendering functions
    ([categorical_analysis/cateogry.py] and [numerical_analysis/numerical.py]).
    Each one allocates a grid of panels with [plt.subplots], walks over its
    column selectors with [enumerate] and, panel by panel, hands a request to
    seaborn and then adjusts the panel through matplotlib.

    The embedding keeps that shape:
    - the table is a [DataFrame] (column names and rows of cells);
    - the figure under construction is explicit state, threaded through a
      small state-and-exception monad [M];
    - the value returned by [plt.subplots] is an [axs_value], with Python's
      indexing rules ([axs[i]], [axs[i, j]]) written out, including the
      squeezing of one-row, one-column and one-panel grids;
    - seaborn's own input validation is a parameter ([seaborn_check]) of the
      development: the renderers are verified for every behaviour of that
      layer.

    Numbers that are floats in Python (bar heights, positions, opacities) are
    exact rationals here; rounding errors of binary floating point are not
    modelled. *)

From Stdlib Require Import QArith ZArith String Ascii List Lia Lqa.
From Stdlib Require Import DecimalString Qround Qabs.
From stdpp Require Import base list strings sorting.

Local Open Scope string_scope.
Local Open Scope list_scope.

(** ** Exceptions and results *)

Inductive exn : Type :=
| ValueError (msg : string)
| TypeError (msg : string)
| IndexError (msg : string)
| KeyError (key : string)
| ChartingError (msg : string).

Inductive result (A : Type) : Type :=
| Ok (a : A)
| Raise (e : exn).
Arguments Ok {A} a.
Arguments Raise {A} e.

(** ** The data layer (pandas) *)

(** A cell holds a label or is missing (NaN).  The repository never looks
    inside numeric measurements (they go to seaborn untouched), so a numeric
    cell is carried in its textual form. *)
Definition cell : Type := option string.

Record DataFrame : Type := {
  df_columns : list string;
  df_rows : list (list cell)
}.

Fixpoint index_of (name : string) (names : list string) : option nat :=
  match names with
  | [] => None
  | n :: rest =>
      if String.eqb n name then Some 0
      else match index_of name rest with
           | Some k => Some (S k)
           | None => None
           end
  end.

Definition row_cell (p : nat) (r : list cell) : cell :=
  match r !! p with
  | Some c => c
  | None => None
  end.

(** [df[name]] *)
Definition df_getitem (df : DataFrame) (name : string) : result (list cell) :=
  match index_of name (df_columns df) with
  | Some p => Ok (map (row_cell p) (df_rows df))
  | None => Raise (KeyError name)
  end.

Definition cell_is (label : string) (c : cell) : bool :=
  match c with
  | Some s => String.eqb s label
  | None => false
  end.

(** [df[df[name] == label]]: the comparison is elementwise and a missing
    value compares unequal to every label. *)
Definition df_filter_eq (df : DataFrame) (name label : string)
  : result DataFrame :=
  match index_of name (df_columns df) with
  | Some p =>
      Ok {| df_columns := df_columns df;
            df_rows := filter (fun r => cell_is label (row_cell p r) = true)
                              (df_rows df) |}
  | None => Raise (KeyError name)
  end.

(** *** [Series.value_counts(normalize=True)], [* 100], [sort_index()] *)

Definition present (column : list cell) : list string :=
  omap id column.

Definition occurrences (label : string) (labels : list string) : nat :=
  length (filter (fun s => s = label) labels).

(** Distinct labels, in order of first appearance. *)
Fixpoint distinct (labels : list string) : list string :=
  match labels with
  | [] => []
  | s :: rest => s :: filter (fun t => t <> s) (distinct rest)
  end.

Definition ratio (n d : nat) : Q :=
  inject_Z (Z.of_nat n) / inject_Z (Z.of_nat d).

Definition count_ge (a b : string * nat) : Prop := (b.2 <= a.2)%nat.

Definition label_le (a b : string) : Prop := String.leb a b = true.

Definition index_le {V : Type} (a b : string * V) : Prop := label_le a.1 b.1.

Global Instance count_ge_dec a b : Decision (count_ge a b).
Proof. unfold count_ge. apply _. Defined.

Global Instance label_le_dec a b : Decision (label_le a b).
Proof. unfold label_le. apply _. Defined.

Global Instance index_le_dec {V} (a b : string * V) : Decision (index_le a b).
Proof. unfold index_le. apply _. Defined.

(** [value_counts()]: missing values are dropped, every distinct label is
    paired with its number of occurrences, most frequent first. *)
Definition value_counts (column : list cell) : list (string * nat) :=
  let labels := present column in
  merge_sort count_ge
    (map (fun s => (s, occurrences s labels)) (distinct labels)).

(** [value_counts(normalize=True)]: the counts divided by their sum, that is
    by the number of non-missing entries. *)
Definition value_counts_normalized (column : list cell) : list (string * Q) :=
  let total := length (present column) in
  map (fun e : string * nat => (e.1, ratio e.2 total)) (value_counts column).

Definition series_mul (k : Q) (s : list (string * Q)) : list (string * Q) :=
  map (fun e : string * Q => (e.1, (e.2 * k)%Q)) s.

Definition sort_index (s : list (string * Q)) : list (string * Q) :=
  merge_sort index_le s.

(** Lines 60-62 of [cateogry.py]. *)
Definition proportions (column : list cell) : list (string * Q) :=
  sort_index (series_mul 100 (value_counts_normalized column)).

(** ** Number formatting: [f"{height:.2f}"] *)

(** Nearest multiple of 1/100, ties to even, as a number of hundredths. *)
Definition round_2dp (q : Q) : Z :=
  let n := (Qnum q * 100)%Z in
  let d := Zpos (Qden q) in
  let lo := (n / d)%Z in
  let r := (n mod d)%Z in
  match (2 * r ?= d)%Z with
  | Lt => lo
  | Gt => (lo + 1)%Z
  | Eq => if Z.even lo then lo else (lo + 1)%Z
  end.

Definition digits (n : Z) : string :=
  NilZero.string_of_uint (N.to_uint (Z.to_N n)).

Definition two_digits (n : Z) : string :=
  if (n <? 10)%Z then "0" +:+ digits n else digits n.

Definition format_2f (q : Q) : string :=
  let h := round_2dp q in
  let a := Z.abs h in
  (if (h <? 0)%Z then "-" else "")
    +:+ digits (a / 100) +:+ "." +:+ two_digits (a mod 100).

(** ** The charting layer: requests, panels and figures *)

Inductive palette : Type :=
| PaletteName (name : string)
| PaletteColors (colors : list string)
| PaletteMap (colors : list (string * string)).

(** Keyword arguments of [sns.histplot]; [None] is "not passed". *)
Record hist_args : Type := {
  h_data : DataFrame;
  h_x : string;
  h_hue : option string;
  h_bins : Z;
  h_multiple : option string;
  h_palette : option palette;
  h_alpha : option Q;
  h_color : option string;
  h_kde : bool
}.

(** What a renderer hands over to seaborn. *)
Inductive plot_request : Type :=
| CountPlot (x : string) (data : DataFrame) (pal : option palette) (alpha : Q)
| BarPlot (data : list (string * Q)) (x y : string) (pal : option palette)
| ViolinPlot (split : bool) (data : DataFrame) (x y hue : string)
             (pal : option palette)
| BoxPlot (data : DataFrame) (x y hue : string) (pal : option palette)
| HistPlot (args : hist_args).

(** A line of a panel: a curve ([line_x = None]) or a vertical line at
    [line_x].  [line_color = None] means the colour cycle's choice. *)
Record Line : Type := {
  line_x : option Q;
  line_color : option string;
  line_style : string;
  line_width : Q;
  line_label : option string
}.

Record Patch : Type := {
  patch_x : Q;
  patch_width : Q;
  patch_height : Q
}.

Record Text : Type := {
  text_x : Q;
  text_y : Q;
  text_s : string;
  text_ha : string
}.

Record AxisLabel : Type := {
  label_text : string;
  label_pad : option Q;
  label_rotation : option Q
}.

Definition no_label : AxisLabel :=
  {| label_text := ""; label_pad := None; label_rotation := None |}.

(** [set_xlabel(s)] and friends: [None] gives the empty text. *)
Definition plain_label (s : option string) : AxisLabel :=
  {| label_text := default "" s; label_pad := None; label_rotation := None |}.

Record Axes : Type := {
  ax_plots : list plot_request;
  ax_patches : list Patch;
  ax_lines : list Line;
  ax_texts : list Text;
  ax_xticklabels : list string;
  ax_xtick_style : option (Q * string);
  ax_title : string;
  ax_xlabel : AxisLabel;
  ax_ylabel : AxisLabel;
  ax_ylim : option (Q * Q);
  ax_legend : option (list string)
}.

Definition blank_axes : Axes :=
  {| ax_plots := []; ax_patches := []; ax_lines := []; ax_texts := [];
     ax_xticklabels := []; ax_xtick_style := None; ax_title := "";
     ax_xlabel := no_label; ax_ylabel := no_label; ax_ylim := None;
     ax_legend := None |}.

Record Figure : Type := {
  fig_size : Q * Q;
  fig_grid : list (list Axes);
  fig_suptitle : option string;
  fig_top : option Q
}.

(** *** Field updates *)

Definition with_plots (v : list plot_request) (a : Axes) : Axes :=
  {| ax_plots := v; ax_patches := ax_patches a; ax_lines := ax_lines a;
     ax_texts := ax_texts a; ax_xticklabels := ax_xticklabels a;
     ax_xtick_style := ax_xtick_style a; ax_title := ax_title a;
     ax_xlabel := ax_xlabel a; ax_ylabel := ax_ylabel a;
     ax_ylim := ax_ylim a; ax_legend := ax_legend a |}.

Definition with_patches (v : list Patch) (a : Axes) : Axes :=
  {| ax_plots := ax_plots a; ax_patches := v; ax_lines := ax_lines a;
     ax_texts := ax_texts a; ax_xticklabels := ax_xticklabels a;
     ax_xtick_style := ax_xtick_style a; ax_title := ax_title a;
     ax_xlabel := ax_xlabel a; ax_ylabel := ax_ylabel a;
     ax_ylim := ax_ylim a; ax_legend := ax_legend a |}.

Definition with_lines (v : list Line) (a : Axes) : Axes :=
  {| ax_plots := ax_plots a; ax_patches := ax_patches a; ax_lines := v;
     ax_texts := ax_texts a; ax_xticklabels := ax_xticklabels a;
     ax_xtick_style := ax_xtick_style a; ax_title := ax_title a;
     ax_xlabel := ax_xlabel a; ax_ylabel := ax_ylabel a;
     ax_ylim := ax_ylim a; ax_legend := ax_legend a |}.

Definition with_texts (v : list Text) (a : Axes) : Axes :=
  {| ax_plots := ax_plots a; ax_patches := ax_patches a;
     ax_lines := ax_lines a; ax_texts := v;
     ax_xticklabels := ax_xticklabels a;
     ax_xtick_style := ax_xtick_style a; ax_title := ax_title a;
     ax_xlabel := ax_xlabel a; ax_ylabel := ax_ylabel a;
     ax_ylim := ax_ylim a; ax_legend := ax_legend a |}.

Definition with_xticklabels (v : list string) (a : Axes) : Axes :=
  {| ax_plots := ax_plots a; ax_patches := ax_patches a;
     ax_lines := ax_lines a; ax_texts := ax_texts a; ax_xticklabels := v;
     ax_xtick_style := ax_xtick_style a; ax_title := ax_title a;
     ax_xlabel := ax_xlabel a; ax_ylabel := ax_ylabel a;
     ax_ylim := ax_ylim a; ax_legend := ax_legend a |}.

Definition with_xtick_style (v : option (Q * string)) (a : Axes) : Axes :=
  {| ax_plots := ax_plots a; ax_patches := ax_patches a;
     ax_lines := ax_lines a; ax_texts := ax_texts a;
     ax_xticklabels := ax_xticklabels a; ax_xtick_style := v;
     ax_title := ax_title a; ax_xlabel := ax_xlabel a;
     ax_ylabel := ax_ylabel a; ax_ylim := ax_ylim a;
     ax_legend := ax_legend a |}.

Definition with_title (v : string) (a : Axes) : Axes :=
  {| ax_plots := ax_plots a; ax_patches := ax_patches a;
     ax_lines := ax_lines a; ax_texts := ax_texts a;
     ax_xticklabels := ax_xticklabels a;
     ax_xtick_style := ax_xtick_style a; ax_title := v;
     ax_xlabel := ax_xlabel a; ax_ylabel := ax_ylabel a;
     ax_ylim := ax_ylim a; ax_legend := ax_legend a |}.

Definition with_xlabel (v : AxisLabel) (a : Axes) : Axes :=
  {| ax_plots := ax_plots a; ax_patches := ax_patches a;
     ax_lines := ax_lines a; ax_texts := ax_texts a;
     ax_xticklabels := ax_xticklabels a;
     ax_xtick_style := ax_xtick_style a; ax_title := ax_title a;
     ax_xlabel := v; ax_ylabel := ax_ylabel a; ax_ylim := ax_ylim a;
     ax_legend := ax_legend a |}.

Definition with_ylabel (v : AxisLabel) (a : Axes) : Axes :=
  {| ax_plots := ax_plots a; ax_patches := ax_patches a;
     ax_lines := ax_lines a; ax_texts := ax_texts a;
     ax_xticklabels := ax_xticklabels a;
     ax_xtick_style := ax_xtick_style a; ax_title := ax_title a;
     ax_xlabel := ax_xlabel a; ax_ylabel := v; ax_ylim := ax_ylim a;
     ax_legend := ax_legend a |}.

Definition with_ylim (v : option (Q * Q)) (a : Axes) : Axes :=
  {| ax_plots := ax_plots a; ax_patches := ax_patches a;
     ax_lines := ax_lines a; ax_texts := ax_texts a;
     ax_xticklabels := ax_xticklabels a;
     ax_xtick_style := ax_xtick_style a; ax_title := ax_title a;
     ax_xlabel := ax_xlabel a; ax_ylabel := ax_ylabel a; ax_ylim := v;
     ax_legend := ax_legend a |}.

Definition with_legend (v : option (list string)) (a : Axes) : Axes :=
  {| ax_plots := ax_plots a; ax_patches := ax_patches a;
     ax_lines := ax_lines a; ax_texts := ax_texts a;
     ax_xticklabels := ax_xticklabels a;
     ax_xtick_style := ax_xtick_style a; ax_title := ax_title a;
     ax_xlabel := ax_xlabel a; ax_ylabel := ax_ylabel a;
     ax_ylim := ax_ylim a; ax_legend := v |}.

Definition with_grid (g : list (list Axes)) (f : Figure) : Figure :=
  {| fig_size := fig_size f; fig_grid := g;
     fig_suptitle := fig_suptitle f; fig_top := fig_top f |}.

Definition with_suptitle (t : option string) (f : Figure) : Figure :=
  {| fig_size := fig_size f; fig_grid := fig_grid f;
     fig_suptitle := t; fig_top := fig_top f |}.

Definition with_top (t : option Q) (f : Figure) : Figure :=
  {| fig_size := fig_size f; fig_grid := fig_grid f;
     fig_suptitle := fig_suptitle f; fig_top := t |}.

(** *** What an accepted seaborn request leaves on its panel *)

(** Bar [k] of a categorical plot is centred on [k] and 0.8 wide. *)
Definition bar (k : nat) (e : string * Q) : Patch :=
  {| patch_x := inject_Z (Z.of_nat k) - (2 # 5);
     patch_width := 4 # 5;
     patch_height := e.2 |}.

Definition kde_curve (color : option string) : Line :=
  {| line_x := None; line_color := color; line_style := "-";
     line_width := 3 # 2; line_label := None |}.

Definition hue_levels (df : DataFrame) (hue : string) : list string :=
  match df_getitem df hue with
  | Ok column => distinct (present column)
  | Raise _ => []
  end.

(** The density curves of a histogram: one without [hue], one per group
    with it, none when [kde] is off.  (seaborn leaves a curve out when the
    data are degenerate; that is not modelled.) *)
Definition kde_lines (h : hist_args) : list Line :=
  if h_kde h then
    match h_hue h with
    | None => [kde_curve (h_color h)]
    | Some hue => map (fun _ => kde_curve None) (hue_levels (h_data h) hue)
    end
  else [].

Definition draw (req : plot_request) (a : Axes) : Axes :=
  let a := with_plots (ax_plots a ++ [req]) a in
  match req with
  | CountPlot x _ _ _ =>
      with_ylabel (plain_label (Some "count"))
        (with_xlabel (plain_label (Some x)) a)
  | BarPlot data x y _ =>
      with_ylabel (plain_label (Some y))
        (with_xlabel (plain_label (Some x))
           (with_xticklabels (map fst data)
              (with_patches (ax_patches a ++ imap bar data) a)))
  | ViolinPlot _ _ x y _ _ | BoxPlot _ x y _ _ =>
      with_ylabel (plain_label (Some y))
        (with_xlabel (plain_label (Some x)) a)
  | HistPlot h =>
      with_ylabel (plain_label (Some "Count"))
        (with_xlabel (plain_label (Some (h_x h)))
           (with_lines (ax_lines a ++ kde_lines h) a))
  end.

(** ** What [plt.subplots] returns, and Python's indexing of it *)

#[warnings="-register-all"]
Inductive axs_value : Type :=
| AxesObj (r c : nat)
| AxesArray1 (cells : list (nat * nat))
| AxesArray2 (cells : list (list (nat * nat)))
| PyList (items : list axs_value).

Definition grid_cells (nrows ncols : nat) : list (list (nat * nat)) :=
  map (fun r => map (fun c => (r, c)) (seq 0 ncols)) (seq 0 nrows).

(** [squeeze=True], the default: a single panel comes back as the panel
    itself, a single row or column as a one-dimensional array. *)
Definition squeeze (nrows ncols : nat) : axs_value :=
  if (nrows =? 1)%nat && (ncols =? 1)%nat then AxesObj 0 0
  else if (nrows =? 1)%nat || (ncols =? 1)%nat
       then AxesArray1 (concat (grid_cells nrows ncols))
       else AxesArray2 (grid_cells nrows ncols).

Definition not_subscriptable : exn :=
  TypeError "'Axes' object is not subscriptable".

(** [v[i]] *)
Definition getitem (v : axs_value) (i : nat) : result axs_value :=
  match v with
  | AxesObj _ _ => Raise not_subscriptable
  | AxesArray1 cells =>
      match cells !! i with
      | Some (r, c) => Ok (AxesObj r c)
      | None => Raise (IndexError "index out of bounds")
      end
  | AxesArray2 cells =>
      match cells !! i with
      | Some row => Ok (AxesArray1 row)
      | None => Raise (IndexError "index out of bounds")
      end
  | PyList items =>
      match items !! i with
      | Some item => Ok item
      | None => Raise (IndexError "list index out of range")
      end
  end.

(** [v[i, j]] *)
Definition getitem2 (v : axs_value) (i j : nat) : result axs_value :=
  match v with
  | AxesObj _ _ => Raise not_subscriptable
  | AxesArray1 _ => Raise (IndexError "too many indices for array")
  | AxesArray2 cells =>
      match cells !! i with
      | Some row =>
          match row !! j with
          | Some (r, c) => Ok (AxesObj r c)
          | None => Raise (IndexError "index out of bounds")
          end
      | None => Raise (IndexError "index out of bounds")
      end
  | PyList _ =>
      Raise (TypeError "list indices must be integers or slices, not tuple")
  end.

(** ** The rendering monad: the figure as state, Python exceptions as errors *)

(** The state is the figure created by the call so far ([None] before
    [plt.subplots]).  An exception leaves the state as it was when raised. *)
Definition M (A : Type) : Type := option Figure -> result A * option Figure.

Definition ret {A} (a : A) : M A := fun s => (Ok a, s).

Definition raise {A} (e : exn) : M A := fun s => (Raise e, s).

Definition bind {A B} (m : M A) (k : A -> M B) : M B :=
  fun s =>
    match m s with
    | (Ok a, s') => k a s'
    | (Raise e, s') => (Raise e, s')
    end.

Definition lift {A} (r : result A) : M A :=
  match r with
  | Ok a => ret a
  | Raise e => raise e
  end.

Declare Scope render_scope.
Delimit Scope render_scope with render.
Notation "'let*' x ':=' m 'in' k" := (bind m (fun x => k))
  (at level 10, x name, m at level 100, k at level 200) : render_scope.
Notation "m ';;' k" := (bind m (fun _ => k))
  (at level 100, k at level 200, right associativity) : render_scope.
Local Open Scope render_scope.

(** A call starts without a figure. *)
Definition run {A} (m : M A) : result A * option Figure := m None.

(** [for i, x in enumerate(xs): body], counting from [start]. *)
Fixpoint for_enumerate {X} (start : nat) (xs : list X)
    (body : nat -> X -> M unit) : M unit :=
  match xs with
  | [] => ret tt
  | x :: rest => body start x ;; for_enumerate (S start) rest body
  end.

Fixpoint for_each {X} (xs : list X) (body : X -> M unit) : M unit :=
  match xs with
  | [] => ret tt
  | x :: rest => body x ;; for_each rest body
  end.

(** *** matplotlib *)

Definition new_figure (figsize : Q * Q) : Figure :=
  {| fig_size := figsize; fig_grid := []; fig_suptitle := None;
     fig_top := None |}.

(** [plt.subplots(nrows, ncols, figsize=...)]: pyplot first creates the
    figure, then lays out the grid, which refuses a dimension of zero. *)
Definition subplots (nrows ncols : nat) (figsize : Q * Q) : M axs_value :=
  fun _ =>
    let fig := new_figure figsize in
    if (nrows =? 0)%nat then
      (Raise (ValueError "Number of rows must be a positive integer, not 0"),
       Some fig)
    else if (ncols =? 0)%nat then
      (Raise (ValueError "Number of columns must be a positive integer, not 0"),
       Some fig)
    else
      (Ok (squeeze nrows ncols),
       Some (with_grid (replicate nrows (replicate ncols blank_axes)) fig)).

Definition alter_cell (r c : nat) (f : Axes -> Axes) (fig : Figure) : Figure :=
  with_grid (alter (alter f c) r (fig_grid fig)) fig.

Definition cell_at (fig : Figure) (r c : nat) : option Axes :=
  match fig_grid fig !! r with
  | Some row => row !! c
  | None => None
  end.

Definition no_attribute : exn :=
  TypeError "the object is not an Axes".

(** A method call [v.method(...)] that changes the panel [v]. *)
Definition on_axes (v : axs_value) (f : Axes -> Axes) : M unit :=
  match v with
  | AxesObj r c => fun s => (Ok tt, alter_cell r c f <$> s)
  | _ => raise no_attribute
  end.

(** Reading an attribute of the panel [v]. *)
Definition read_axes {A} (v : axs_value) (get : Axes -> A) : M A :=
  match v with
  | AxesObj r c =>
      fun s =>
        match s ≫= (fun fig => cell_at fig r c) with
        | Some a => (Ok (get a), s)
        | None => (Raise (IndexError "no such panel"), s)
        end
  | _ => raise no_attribute
  end.

Definition set_title (v : axs_value) (s : option string) : M unit :=
  on_axes v (with_title (default "" s)).

Definition set_xlabel (v : axs_value) (s : option string) : M unit :=
  on_axes v (with_xlabel (plain_label s)).

Definition set_ylabel (v : axs_value) (s : option string) : M unit :=
  on_axes v (with_ylabel (plain_label s)).

Definition set_ylabel_with (v : axs_value) (s : string) (labelpad rotation : Q)
  : M unit :=
  on_axes v (with_ylabel {| label_text := s; label_pad := Some labelpad;
                            label_rotation := Some rotation |}).

Definition set_ylim (v : axs_value) (lo hi : Q) : M unit :=
  on_axes v (with_ylim (Some (lo, hi))).

Definition add_text (t : Text) (a : Axes) : Axes :=
  with_texts (ax_texts a ++ [t]) a.

Definition text (v : axs_value) (x y : Q) (s ha : string) : M unit :=
  on_axes v (add_text {| text_x := x; text_y := y; text_s := s;
                         text_ha := ha |}).

(** [v.set_xticklabels(v.get_xticklabels(), rotation=..., ha=...)] *)
Definition restyle_xticklabels (v : axs_value) (rotation : Q) (ha : string)
  : M unit :=
  let* labels := read_axes v ax_xticklabels in
  on_axes v (fun a => with_xtick_style (Some (rotation, ha))
                        (with_xticklabels labels a)).

Definition add_line (l : Line) (a : Axes) : Axes :=
  with_lines (ax_lines a ++ [l]) a.

Definition axvline (v : axs_value) (x : Q) (color linestyle : string)
    (linewidth : Q) (label : string) : M unit :=
  on_axes v (add_line {| line_x := Some x; line_color := Some color;
                         line_style := linestyle; line_width := linewidth;
                         line_label := Some label |}).

Definition recolor (color : string) (l : Line) : Line :=
  {| line_x := line_x l; line_color := Some color;
     line_style := line_style l; line_width := line_width l;
     line_label := line_label l |}.

(** [v.lines[0].set_color(color)] *)
Definition set_first_line_color (v : axs_value) (color : string) : M unit :=
  let* lines := read_axes v ax_lines in
  match lines with
  | [] => raise (IndexError "list index out of range")
  | _ :: _ => on_axes v (fun a => with_lines (alter (recolor color) 0 (ax_lines a)) a)
  end.

(** [v.legend()]: one entry per labelled line. *)
Definition legend (v : axs_value) : M unit :=
  on_axes v (fun a => with_legend (Some (omap line_label (ax_lines a))) a).

Definition suptitle (t : string) : M unit :=
  fun s => (Ok tt, with_suptitle (Some t) <$> s).

Definition subplots_adjust_top (top : Q) : M unit :=
  fun s => (Ok tt, with_top (Some top) <$> s).

(** *** The statistics table ([df.describe()] of the caller) *)

Record StatsTable : Type := {
  stats_columns : list string;
  stats_index : list string;
  stats_values : list (list Q)
}.

(** [numerical_stats.loc[stat, col]] *)
Definition stats_loc (t : StatsTable) (stat col : string) : result Q :=
  match index_of stat (stats_index t), index_of col (stats_columns t) with
  | Some r, Some c =>
      match stats_values t !! r ≫= (fun row => row !! c) with
      | Some q => Ok q
      | None => Raise (KeyError col)
      end
  | None, _ => Raise (KeyError stat)
  | _, None => Raise (KeyError col)
  end.

(** ** The renderers *)

Section Renderers.

(** seaborn's verdict on a request: [None] when it draws, [Some msg] when it
    raises (an unknown column name, data it cannot handle, ...). *)
Variable seaborn_check : plot_request -> option string.

(** [sns.<kind>plot(..., ax=v)] *)
Definition seaborn (req : plot_request) (v : axs_value) : M unit :=
  match seaborn_check req with
  | Some msg => raise (ChartingError msg)
  | None => on_axes v (draw req)
  end.

(** *** [categorical_analysis/cateogry.py] *)

Definition plot_category_count (df : DataFrame)
    (category_columns : list string) (color_palette : option palette)
    (figsize : Q * Q) (alpha : Q) : M unit :=
  let* axs := subplots 1 (length category_columns) figsize in
  for_enumerate 0 category_columns (fun i category =>
    let* ax := lift (getitem axs i) in
    seaborn (CountPlot category df color_palette alpha) ax ;;
    let* ax := lift (getitem axs i) in
    set_title ax (Some (category +:+ " Count")) ;;
    let* ax := lift (getitem axs i) in
    set_xlabel ax (Some category) ;;
    let* ax := lift (getitem axs i) in
    set_ylabel ax (Some "Count")).

(** Lines 76-83: every bar gets its percentage written above it. *)
Definition annotate_bar (axs : axs_value) (i : nat) (p : Patch) : M unit :=
  let height := patch_height p in
  let* ax := lift (getitem axs i) in
  text ax (patch_x p + patch_width p / 2) (height + 1)
       (format_2f height +:+ "%") "center".

Definition annotate_bars (axs : axs_value) (i : nat) : M unit :=
  let* ax := lift (getitem axs i) in
  let* patches := read_axes ax ax_patches in
  for_each patches (annotate_bar axs i).

Definition plot_category_proportions (df : DataFrame)
    (category_columns : list string) (color_palette : option palette)
    (figsize : Q * Q) : M unit :=
  let num_subplots := length category_columns in
  let* axs := subplots 1 num_subplots figsize in
  let axs := if (num_subplots =? 1)%nat then PyList [axs] else axs in
  for_enumerate 0 category_columns (fun i category =>
    let* column := lift (df_getitem df category) in
    let proportions_df := proportions column in
    let* ax := lift (getitem axs i) in
    seaborn (BarPlot proportions_df "category" "proportion" color_palette) ax ;;
    annotate_bars axs i ;;
    let* ax := lift (getitem axs i) in
    set_title ax (Some ("Proportion of " +:+ category)) ;;
    let* ax := lift (getitem axs i) in
    set_xlabel ax (Some category) ;;
    let* ax := lift (getitem axs i) in
    set_ylabel ax (Some "Proportion (%)") ;;
    let* ax := lift (getitem axs i) in
    set_ylim ax 0 100 ;;
    let* ax := lift (getitem axs i) in
    restyle_xticklabels ax 45 "right").

Definition plot_type_error : exn :=
  ValueError "plot_type must be either 'violin' or 'box'".

Definition plot_categorical_vs_numeric (df : DataFrame)
    (category_columns numeric_columns : list string) (plot_type : string)
    (pal : option palette) : M unit :=
  let num_rows := length category_columns in
  let num_cols := length numeric_columns in
  let* axs := subplots num_rows num_cols (20, 15)%Q in
  for_enumerate 0 category_columns (fun i i_col =>
    for_enumerate 0 numeric_columns (fun j j_col =>
      (if String.eqb plot_type "violin" then
         let* ax := lift (getitem2 axs i j) in
         seaborn (ViolinPlot (if (i =? 2)%nat then true else false)
                             df "species" j_col i_col pal) ax
       else if String.eqb plot_type "box" then
         let* row := lift (getitem axs i) in
         let* ax := lift (getitem row j) in
         seaborn (BoxPlot df "species" j_col i_col pal) ax
       else raise plot_type_error) ;;
      let* row := lift (getitem axs i) in
      let* ax := lift (getitem row j) in
      set_title ax (if (i =? 0)%nat then Some j_col else None) ;;
      let* row := lift (getitem axs i) in
      let* ax := lift (getitem row j) in
      set_xlabel ax None ;;
      let* row := lift (getitem axs i) in
      let* ax := lift (getitem row j) in
      set_ylabel ax None)).

(** *** [numerical_analysis/numerical.py] *)

Definition plot_histograms (df : DataFrame) (numerical_stats : StatsTable)
    (color_palette : option palette) (figsize : Q * Q) (bins : Z) (alpha : Q)
    (color : string) (kde : bool) : M unit :=
  let* ax := subplots 1 (length (stats_columns numerical_stats)) figsize in
  for_enumerate 0 (stats_columns numerical_stats) (fun i col =>
    let* axi := lift (getitem ax i) in
    seaborn (HistPlot {| h_data := df; h_x := col; h_hue := None;
                         h_bins := bins; h_multiple := None;
                         h_palette := color_palette; h_alpha := Some alpha;
                         h_color := Some color; h_kde := kde |}) axi ;;
    let* axi := lift (getitem ax i) in
    set_first_line_color axi "#4c36f5" ;;
    let* axi := lift (getitem ax i) in
    let* q1 := lift (stats_loc numerical_stats "25%" col) in
    axvline axi q1 "#f26a02" "dashed" (5 # 2) "Q1" ;;
    let* axi := lift (getitem ax i) in
    let* q3 := lift (stats_loc numerical_stats "75%" col) in
    axvline axi q3 "#bd00b0" "dashed" (5 # 2) "Q3" ;;
    let* axi := lift (getitem ax i) in
    let* mean := lift (stats_loc numerical_stats "mean" col) in
    axvline axi mean "#f75c6b" "dashed" (5 # 2) "Mean" ;;
    let* axi := lift (getitem ax i) in
    legend axi).

Definition plot_distributions (df : DataFrame)
    (category_columns numeric_columns : list string) (pal : option palette)
  : M unit :=
  let num_rows := length category_columns in
  let num_cols := length numeric_columns in
  let* axs := subplots num_rows num_cols (20, 15)%Q in
  for_enumerate 0 category_columns (fun i i_col =>
    for_enumerate 0 numeric_columns (fun j j_col =>
      let* row := lift (getitem axs i) in
      let* ax := lift (getitem row j) in
      seaborn (HistPlot {| h_data := df; h_x := j_col; h_hue := Some i_col;
                           h_bins := 40;
                           h_multiple :=
                             Some (if (1 =? 2)%nat then "stack" else "dodge");
                           h_palette := pal; h_alpha := None;
                           h_color := None; h_kde := true |}) ax ;;
      let* row := lift (getitem axs i) in
      let* ax := lift (getitem row j) in
      set_title ax (if (i =? 0)%nat then Some j_col else None) ;;
      let* ax := lift (getitem2 axs i j) in
      set_xlabel ax None ;;
      let* ax := lift (getitem2 axs i j) in
      set_ylabel ax None)).

Definition plot_distribution_specie (df : DataFrame)
    (numeric_columns category_columns : list string) (species : string)
    (penguin_color : option palette) (bins : Z) : M unit :=
  let* species_data := lift (df_filter_eq df "species" species) in
  let num_rows := length numeric_columns in
  let num_cols := length category_columns in
  let* axs := subplots num_rows num_cols (15, 13)%Q in
  for_enumerate 0 numeric_columns (fun i i_col =>
    for_enumerate 0 category_columns (fun j j_col =>
      let* row := lift (getitem axs i) in
      let* ax := lift (getitem row j) in
      seaborn (HistPlot {| h_data := species_data; h_x := i_col;
                           h_hue := Some j_col; h_bins := bins;
                           h_multiple := Some "layer";
                           h_palette := penguin_color; h_alpha := None;
                           h_color := None; h_kde := true |}) ax ;;
      (if (j =? 0)%nat then
         let* row := lift (getitem axs i) in
         let* ax := lift (getitem row j) in
         let* label := match numeric_columns !! i with
                       | Some name => ret name
                       | None => raise (IndexError "list index out of range")
                       end in
         set_ylabel_with ax label 60 0
       else
         let* row := lift (getitem axs i) in
         let* ax := lift (getitem row j) in
         set_ylabel ax None) ;;
      let* row := lift (getitem axs i) in
      let* ax := lift (getitem row j) in
      set_xlabel ax None)) ;;
  suptitle (species +:+ " Species") ;;
  subplots_adjust_top (19 # 20).

End Renderers.

(** * Verification *)

(** ** The order on labels *)

Lemma ascii_compare_lt_trans (a b c : ascii) :
  Ascii.compare a b = Lt -> Ascii.compare b c = Lt -> Ascii.compare a c = Lt.
Proof. unfold Ascii.compare. rewrite !N.compare_lt_iff. lia. Qed.

Lemma string_compare_lt_trans (a b c : string) :
  String.compare a b = Lt -> String.compare b c = Lt ->
  String.compare a c = Lt.
Proof.
  revert b c.
  induction a as [|x a IH]; intros [|y b] [|z c]; simpl; try congruence.
  destruct (Ascii.compare x y) eqn:Hxy; try discriminate;
    destruct (Ascii.compare y z) eqn:Hyz; try discriminate; intros Hab Hbc.
  - apply Ascii.compare_eq_iff in Hxy, Hyz. subst.
    assert (Ascii.compare z z = Eq) as ->
      by (unfold Ascii.compare; apply N.compare_refl).
    eauto.
  - apply Ascii.compare_eq_iff in Hxy. subst. by rewrite Hyz.
  - apply Ascii.compare_eq_iff in Hyz. subst. by rewrite Hxy.
  - by rewrite (ascii_compare_lt_trans x y z).
Qed.

Global Instance label_le_total : Total label_le.
Proof. intros a b. apply String.leb_total. Qed.

Global Instance label_le_trans : Transitive label_le.
Proof.
  unfold label_le, String.leb. intros a b c Hab Hbc.
  destruct (String.compare a b) eqn:Eab; try discriminate;
    destruct (String.compare b c) eqn:Ebc; try discriminate.
  - apply String.compare_eq_iff in Eab. subst. by rewrite Ebc.
  - apply String.compare_eq_iff in Eab. subst. by rewrite Ebc.
  - apply String.compare_eq_iff in Ebc. subst. by rewrite Eab.
  - by rewrite (string_compare_lt_trans a b c).
Qed.

Global Instance label_le_antisym : AntiSymm (=) label_le.
Proof. intros a b. apply String.leb_antisym. Qed.

Global Instance count_ge_total : Total count_ge.
Proof. intros a b. unfold count_ge. lia. Qed.

Global Instance index_le_total {V} : Total (@index_le V).
Proof. intros a b. apply label_le_total. Qed.

Global Instance index_le_trans {V} : Transitive (@index_le V).
Proof. intros a b c. apply label_le_trans. Qed.

(** ** Counting labels *)

Lemma distinct_elem (labels : list string) (s : string) :
  s ∈ distinct labels <-> s ∈ labels.
Proof.
  induction labels as [|t labels IH]; simpl; [done|].
  rewrite !elem_of_cons, list_elem_of_filter, IH.
  destruct (decide (s = t)); tauto.
Qed.

Lemma distinct_NoDup (labels : list string) : NoDup (distinct labels).
Proof.
  induction labels as [|t labels IH]; simpl; constructor.
  - rewrite list_elem_of_filter. tauto.
  - by apply NoDup_filter.
Qed.




(** ** The percentage series of a column *)


(** The share of [label] among the non-missing entries, in percent. *)
Definition share (column : list cell) (label : string) : Q :=
  (ratio (occurrences label (present column)) (length (present column)) * 100)%Q.

Lemma proportions_Permutation (column : list cell) :
  proportions column
  ≡ₚ map (fun s => (s, share column s)) (distinct (present column)).
Proof.
  unfold proportions, sort_index, series_mul, value_counts_normalized,
    value_counts.
  rewrite merge_sort_Permutation.
  rewrite (merge_sort_Permutation count_ge).
  by rewrite !map_map.
Qed.

Lemma proportions_sorted (column : list cell) :
  StronglySorted index_le (proportions column).
Proof. apply (StronglySorted_merge_sort index_le). Qed.

Lemma proportions_labels (column : list cell) :
  map fst (proportions column) ≡ₚ distinct (present column).
Proof.
  rewrite proportions_Permutation, map_map. simpl. by rewrite map_id.
Qed.

Lemma proportions_entry (column : list cell) (label : string) (h : Q) :
  (label, h) ∈ proportions column ->
  label ∈ present column /\ h = share column label.
Proof.
  rewrite proportions_Permutation, list_elem_of_fmap.
  intros (s & [= -> ->] & Hs). by rewrite distinct_elem in Hs.
Qed.







(** ** Rounding to two decimals *)





(** ** Panels of a figure *)

Lemma cell_at_alter_cell_eq (fig : Figure) (r c : nat) (f : Axes -> Axes) :
  cell_at (alter_cell r c f fig) r c = f <$> cell_at fig r c.
Proof.
  unfold cell_at, alter_cell. simpl. rewrite list_lookup_alter_eq.
  destruct (fig_grid fig !! r) as [row|]; simpl; [|done].
  by rewrite list_lookup_alter_eq.
Qed.

Lemma cell_at_alter_cell_ne (fig : Figure) (r c r' c' : nat) (f : Axes -> Axes) :
  (r, c) <> (r', c') ->
  cell_at (alter_cell r c f fig) r' c' = cell_at fig r' c'.
Proof.
  intros Hne. unfold cell_at, alter_cell. simpl.
  destruct (decide (r = r')) as [->|Hr].
  - rewrite list_lookup_alter_eq.
    destruct (fig_grid fig !! r') as [row|]; simpl; [|done].
    rewrite list_lookup_alter_ne; [done|congruence].
  - by rewrite list_lookup_alter_ne.
Qed.

Lemma alter_cell_compose (fig : Figure) (r c : nat) (f g : Axes -> Axes) :
  alter_cell r c g (alter_cell r c f fig) = alter_cell r c (g ∘ f) fig.
Proof.
  unfold alter_cell, with_grid.
  cbn [fig_grid fig_size fig_suptitle fig_top]. f_equal.
  etrans; [apply list_alter_alter_eq|]. apply list_alter_ext; [|done].
  intros row _. apply list_alter_alter_eq.
Qed.

(** The figure has [R] rows of [C] panels. *)
Definition grid_shape (R C : nat) (fig : Figure) : Prop :=
  length (fig_grid fig) = R /\ Forall (fun row => length row = C) (fig_grid fig).

Lemma grid_shape_alter_cell R C fig r c f :
  grid_shape R C fig -> grid_shape R C (alter_cell r c f fig).
Proof.
  intros [HR HC]. split; simpl.
  - by rewrite length_alter.
  - rewrite Forall_lookup in HC |- *. intros i row.
    destruct (decide (r = i)) as [->|Hne].
    + rewrite list_lookup_alter_eq.
      destruct (fig_grid fig !! i) as [row0|] eqn:E; simpl; [|done].
      intros [= <-]. rewrite length_alter. eauto.
    + rewrite list_lookup_alter_ne by done. eauto.
Qed.

Lemma grid_shape_cell R C fig r c a :
  grid_shape R C fig -> cell_at fig r c = Some a -> (r < R /\ c < C)%nat.
Proof.
  intros [HR HC]. unfold cell_at.
  destruct (fig_grid fig !! r) as [row|] eqn:E; [|done].
  intros Hc. rewrite Forall_lookup in HC.
  pose proof (HC _ _ E). apply lookup_lt_Some in E, Hc. lia.
Qed.

Lemma grid_shape_blank (R C : nat) (fig : Figure) :
  grid_shape R C (with_grid (replicate R (replicate C blank_axes)) fig).
Proof.
  split; simpl.
  - by rewrite length_replicate.
  - apply Forall_replicate. by rewrite length_replicate.
Qed.

Lemma cell_at_blank (R C : nat) (fig : Figure) (r c : nat) :
  (r < R)%nat -> (c < C)%nat ->
  cell_at (with_grid (replicate R (replicate C blank_axes)) fig) r c
  = Some blank_axes.
Proof.
  intros Hr Hc. unfold cell_at. simpl.
  rewrite lookup_replicate_2 by done. by rewrite lookup_replicate_2.
Qed.

(** ** Loops *)

Lemma for_enumerate_ok {X} (I : nat -> option Figure -> Prop) (xs : list X)
    (body : nat -> X -> M unit) :
  forall k s s',
    I k s ->
    (forall i x t t', xs !! i = Some x -> I (k + i)%nat t ->
       body (k + i)%nat x t = (Ok tt, t') -> I (S (k + i)) t') ->
    for_enumerate k xs body s = (Ok tt, s') ->
    I (k + length xs)%nat s'.
Proof.
  induction xs as [|x xs IH]; intros k s s' HI Hstep Hrun; simpl in *.
  - injection Hrun as <-. by rewrite Nat.add_0_r.
  - unfold bind in Hrun.
    destruct (body k x s) as [[[]|e] t] eqn:E; [|done].
    rewrite <- Nat.add_succ_comm. apply (IH (S k) t s'); [| |done].
    + specialize (Hstep 0%nat x s t). rewrite Nat.add_0_r in Hstep. eauto.
    + intros i y u u' Hy HIu Hbody.
      specialize (Hstep (S i) y u u' Hy).
      rewrite <- !Nat.add_succ_comm in Hstep. eauto.
Qed.

Lemma for_enumerate_total {X} (I : nat -> option Figure -> Prop) (xs : list X)
    (body : nat -> X -> M unit) :
  forall k s,
    I k s ->
    (forall i x t, xs !! i = Some x -> I (k + i)%nat t ->
       exists t', body (k + i)%nat x t = (Ok tt, t') /\ I (S (k + i)) t') ->
    exists s', for_enumerate k xs body s = (Ok tt, s')
               /\ I (k + length xs)%nat s'.
Proof.
  induction xs as [|x xs IH]; intros k s HI Hstep; simpl.
  - exists s. by rewrite Nat.add_0_r.
  - destruct (Hstep 0%nat x s) as (t & Hbody & HIt);
      [done | by rewrite Nat.add_0_r |].
    rewrite Nat.add_0_r in Hbody, HIt.
    unfold bind. rewrite Hbody.
    rewrite <- Nat.add_succ_comm. apply IH; [done|].
    intros i y u Hy HIu. specialize (Hstep (S i) y u Hy).
    rewrite <- !Nat.add_succ_comm in Hstep. eauto.
Qed.

(** ** Indexing the panel handles *)

(** A handle that addresses an [R] x [C] grid both as [axs[i, j]] and as
    [axs[i][j]]. *)
Definition indexes_grid (axs : axs_value) (R C : nat) : Prop :=
  forall i j, (i < R)%nat -> (j < C)%nat ->
    getitem2 axs i j = Ok (AxesObj i j)
    /\ exists row, getitem axs i = Ok row /\ getitem row j = Ok (AxesObj i j).

(** A handle that addresses a row of [N] panels as [axs[i]]. *)
Definition indexes_row (axs : axs_value) (N : nat) : Prop :=
  forall i, (i < N)%nat -> getitem axs i = Ok (AxesObj 0 i).

Lemma grid_cells_lookup (R C i : nat) :
  (i < R)%nat ->
  grid_cells R C !! i = Some (map (fun c => (i, c)) (seq 0 C)).
Proof.
  intros Hi. unfold grid_cells. rewrite list_lookup_fmap.
  by rewrite lookup_seq_lt.
Qed.

Lemma row_cells_lookup (C i j : nat) :
  (j < C)%nat -> map (fun c => (i, c)) (seq 0 C) !! j = Some (i, j).
Proof. intros Hj. rewrite list_lookup_fmap. by rewrite lookup_seq_lt. Qed.

Lemma squeeze_regular (R C : nat) :
  (2 <= R)%nat -> (2 <= C)%nat -> squeeze R C = AxesArray2 (grid_cells R C).
Proof.
  intros HR HC. unfold squeeze.
  destruct R as [|[|R]], C as [|[|C]]; (lia || done).
Qed.

Lemma squeeze_indexes_grid (R C : nat) :
  (2 <= R)%nat -> (2 <= C)%nat -> indexes_grid (squeeze R C) R C.
Proof.
  intros HR HC i j Hi Hj. rewrite squeeze_regular by done.
  cbn [getitem2 getitem].
  rewrite grid_cells_lookup by done. cbn [getitem].
  rewrite row_cells_lookup by done.
  split; [done|]. eexists; split; [done|]. cbn [getitem].
  by rewrite row_cells_lookup.
Qed.

Lemma squeeze_indexes_row (N : nat) :
  (2 <= N)%nat -> indexes_row (squeeze 1 N) N.
Proof.
  intros HN i Hi. unfold squeeze.
  destruct N as [|[|N]]; [lia..|]. cbn [Nat.eqb andb orb].
  change (grid_cells 1 (S (S N)))
    with [map (fun c => (0%nat, c)) (seq 0 (S (S N)))].
  cbn [concat]. rewrite app_nil_r.
  cbn [getitem]. by rewrite row_cells_lookup.
Qed.

Lemma wrapped_indexes_row (N : nat) :
  (1 <= N)%nat ->
  indexes_row (if (N =? 1)%nat then PyList [squeeze 1 N] else squeeze 1 N) N.
Proof.
  intros HN. destruct (N =? 1)%nat eqn:E.
  - apply Nat.eqb_eq in E. subst. intros [|i] Hi; [done|lia].
  - apply Nat.eqb_neq in E. apply squeeze_indexes_row. lia.
Qed.

(** In a squeezed grid (one row or one column) neither [axs[i, j]] nor
    [axs[i][j]] yields a panel. *)
Lemma squeeze_irregular (R C : nat) :
  (R < 2 \/ C < 2)%nat ->
  forall i j,
    (exists e, getitem2 (squeeze R C) i j = Raise e)
    /\ (forall row, getitem (squeeze R C) i = Ok row ->
          exists e, getitem row j = Raise e).
Proof.
  intros Hirr i j. unfold squeeze.
  destruct ((R =? 1)%nat && (C =? 1)%nat) eqn:E1.
  { split; [by eexists|]. simpl. done. }
  destruct ((R =? 1)%nat || (C =? 1)%nat) eqn:E2.
  - split; [by eexists|]. cbn [getitem]. intros row.
    destruct (_ !! i) as [[r c]|]; [|done]. intros [= <-]. by eexists.
  - apply orb_false_iff in E2 as [E2 E3].
    apply Nat.eqb_neq in E2, E3.
    assert (R = 0 \/ C = 0)%nat as [-> | ->] by lia.
    + simpl. split; [by eexists | done].
    + split.
      * unfold grid_cells. cbn [getitem2 seq map].
        rewrite list_lookup_fmap. destruct (seq 0 R !! i); simpl; by eexists.
      * unfold grid_cells. cbn [getitem seq map]. intros row.
        rewrite list_lookup_fmap. destruct (seq 0 R !! i); simpl; [|done].
        intros [= <-]. by eexists.
Qed.

(** ** The rendering invariant *)

(** The first [n] panels (row by row) are the finished ones described by
    [cellf]; the others are still blank. *)
Definition rendered (R C : nat) (cellf : nat -> nat -> Axes) (n : nat)
    (s : option Figure) : Prop :=
  exists fig, s = Some fig /\ grid_shape R C fig /\
    forall r c, (r < R)%nat -> (c < C)%nat ->
      cell_at fig r c
      = Some (if decide (r * C + c < n)%nat then cellf r c else blank_axes).

Lemma rendered_start (R C : nat) cellf (fig : Figure) :
  rendered R C cellf 0
    (Some (with_grid (replicate R (replicate C blank_axes)) fig)).
Proof.
  eexists; split; [done|]. split; [apply grid_shape_blank|].
  intros r c Hr Hc. rewrite cell_at_blank by done.
  destruct (decide _); [lia|done].
Qed.

Lemma rendered_blank R C cellf (i j : nat) (fig : Figure) :
  rendered R C cellf (i * C + j) (Some fig) -> (i < R)%nat -> (j < C)%nat ->
  cell_at fig i j = Some blank_axes.
Proof.
  intros (fig' & [= <-] & _ & Hcells) Hi Hj. rewrite Hcells by done.
  destruct (decide _); [lia|done].
Qed.

Lemma rendered_step R C cellf (i j : nat) (fig : Figure) (f : Axes -> Axes) :
  rendered R C cellf (i * C + j) (Some fig) -> (i < R)%nat -> (j < C)%nat ->
  f blank_axes = cellf i j ->
  rendered R C cellf (S (i * C + j)) (Some (alter_cell i j f fig)).
Proof.
  intros (fig' & [= <-] & Hshape & Hcells) Hi Hj Hf.
  eexists; split; [done|]. split; [by apply grid_shape_alter_cell|].
  intros r c Hr Hc. destruct (decide ((i, j) = (r, c))) as [[= <- <-]|Hne].
  - rewrite cell_at_alter_cell_eq, Hcells by done.
    destruct (decide (i * C + j < i * C + j)%nat); [lia|].
    destruct (decide (i * C + j < S (i * C + j))%nat); [|lia].
    simpl. by rewrite Hf.
  - rewrite cell_at_alter_cell_ne, Hcells by done.
    assert (r * C + c <> i * C + j)%nat.
    { intros Heq. apply Hne.
      assert (r = i) as -> by nia. f_equal. lia. }
    destruct (decide (r * C + c < i * C + j)%nat),
      (decide (r * C + c < S (i * C + j))%nat); (done || lia).
Qed.

Lemma rendered_done R C cellf (fig : Figure) (r c : nat) (a : Axes) :
  rendered R C cellf (R * C) (Some fig) -> cell_at fig r c = Some a ->
  (r < R)%nat /\ (c < C)%nat /\ a = cellf r c.
Proof.
  intros (fig' & [= <-] & Hshape & Hcells) Ha.
  destruct (grid_shape_cell _ _ _ _ _ _ Hshape Ha) as [Hr Hc].
  rewrite Hcells in Ha by done.
  destruct (decide _) as [|Hn]; [by injection Ha as <-|]. exfalso. nia.
Qed.

Lemma rendered_cell R C cellf (fig : Figure) (r c : nat) :
  rendered R C cellf (R * C) (Some fig) -> (r < R)%nat -> (c < C)%nat ->
  cell_at fig r c = Some (cellf r c).
Proof.
  intros (fig' & [= <-] & Hshape & Hcells) Hr Hc. rewrite Hcells by done.
  destruct (decide _) as [|Hn]; [done|]. exfalso. nia.
Qed.

(** ** Two nested loops over a grid *)

Section GridLoops.
Variables (rows cols : list string).
Variable cell : nat -> string -> nat -> string -> M unit.
Variable panel : nat -> string -> nat -> string -> Axes -> Axes.

Definition grid_loops : M unit :=
  for_enumerate 0 rows (fun i x => for_enumerate 0 cols (cell i x)).

(** The finished panel at row [r], column [c]. *)
Definition grid_cellf (r c : nat) : Axes :=
  match rows !! r, cols !! c with
  | Some x, Some y => panel r x c y blank_axes
  | _, _ => blank_axes
  end.

Let R := length rows.
Let C := length cols.

Lemma grid_loops_ok (s s' : option Figure) :
  (forall i x j y fig t', rows !! i = Some x -> cols !! j = Some y ->
     cell i x j y (Some fig) = (Ok tt, t') ->
     t' = Some (alter_cell i j (panel i x j y) fig)) ->
  rendered R C grid_cellf 0 s ->
  grid_loops s = (Ok tt, s') ->
  rendered R C grid_cellf (R * C) s'.
Proof.
  intros Hcell Hstart Hrun.
  refine (for_enumerate_ok (fun i => rendered R C grid_cellf (i * C))
            rows _ 0 s s' Hstart _ Hrun).
  intros i x t t' Hx Ht Hrow.
  refine (for_enumerate_ok (fun j => rendered R C grid_cellf (j + i * C))
            cols _ 0 t t' Ht _ Hrow).
  intros j y u u' Hy Hu Hbody. cbn [Nat.add] in *.
  destruct Hu as (fig & -> & Hfig).
  apply Hcell in Hbody; [|done..]. subst u'.
  replace (j + i * C)%nat with (i * C + j)%nat in * by lia.
  apply rendered_step.
  - by eexists.
  - by apply lookup_lt_Some in Hx.
  - by apply lookup_lt_Some in Hy.
  - unfold grid_cellf. by rewrite Hx, Hy.
Qed.

Lemma grid_loops_total (s : option Figure) :
  (forall i x j y fig, rows !! i = Some x -> cols !! j = Some y ->
     cell_at fig i j = Some blank_axes ->
     cell i x j y (Some fig)
     = (Ok tt, Some (alter_cell i j (panel i x j y) fig))) ->
  rendered R C grid_cellf 0 s ->
  exists s', grid_loops s = (Ok tt, s')
             /\ rendered R C grid_cellf (R * C) s'.
Proof.
  intros Hcell Hstart.
  refine (for_enumerate_total (fun i => rendered R C grid_cellf (i * C))
            rows _ 0 s Hstart _).
  intros i x t Hx Ht.
  refine (for_enumerate_total (fun j => rendered R C grid_cellf (j + i * C))
            cols _ 0 t Ht _).
  intros j y u Hy Hu. cbn [Nat.add] in *.
  pose proof (lookup_lt_Some _ _ _ Hx). pose proof (lookup_lt_Some _ _ _ Hy).
  destruct Hu as (fig & -> & Hfig).
  replace (j + i * C)%nat with (i * C + j)%nat in * by lia.
  eexists. split.
  - apply Hcell; [done..|]. eapply rendered_blank; [by eexists|done..].
  - apply rendered_step; [by eexists|done..|].
    unfold grid_cellf. by rewrite Hx, Hy.
Qed.

(** A first cell that raises ends the call. *)
Lemma grid_loops_raise (x y : string) (rows' cols' : list string)
    (s : option Figure) :
  rows = x :: rows' -> cols = y :: cols' ->
  (exists e s', cell 0 x 0 y s = (Raise e, s')) ->
  exists e s', grid_loops s = (Raise e, s').
Proof.
  intros Hrows Hcols (e & s' & Hraise). exists e, s'.
  unfold grid_loops. rewrite Hrows, Hcols. simpl. unfold bind.
  by rewrite Hraise.
Qed.

End GridLoops.

(** ** A grid renderer: [plt.subplots] followed by the two loops *)

(** The state right after [plt.subplots(R, C)]. *)
Definition blank_grid (R C : nat) (fig0 : Figure) : option Figure :=
  Some (with_grid (replicate R (replicate C blank_axes)) fig0).

Lemma subplots_run {A} (R C : nat) (figsize : Q * Q) (k : axs_value -> M A)
    (s : option Figure) :
  R <> 0%nat -> C <> 0%nat ->
  bind (subplots R C figsize) k s
  = k (squeeze R C) (blank_grid R C (new_figure figsize)).
Proof.
  intros HR HC. unfold bind, subplots.
  destruct R; [done|]. by destruct C.
Qed.

Lemma subplots_ok {A} (R C : nat) (figsize : Q * Q) (k : axs_value -> M A)
    (s : option Figure) (a : A) (s' : option Figure) :
  bind (subplots R C figsize) k s = (Ok a, s') ->
  R <> 0%nat /\ C <> 0%nat
  /\ k (squeeze R C) (blank_grid R C (new_figure figsize)) = (Ok a, s').
Proof.
  unfold bind, subplots. destruct R; [done|]. destruct C; [done|].
  cbn [Nat.eqb]. intros H. by repeat split.
Qed.

Section GridRender.
Variables (rows cols : list string).
Variable cell : axs_value -> nat -> string -> nat -> string -> M unit.
Variable panel : nat -> string -> nat -> string -> Axes -> Axes.

Let R := length rows.
Let C := length cols.

(** If the loops over a fresh grid return normally, the grid has at least
    two rows and two columns and every panel is finished. *)
Lemma grid_render_ok (fig0 : Figure) (s' : option Figure) :
  (forall axs i x j y fig t',
     indexes_grid axs R C -> rows !! i = Some x -> cols !! j = Some y ->
     cell axs i x j y (Some fig) = (Ok tt, t') ->
     t' = Some (alter_cell i j (panel i x j y) fig)) ->
  (forall i x j y s, (R < 2 \/ C < 2)%nat ->
     exists e, cell (squeeze R C) i x j y s = (Raise e, s)) ->
  R <> 0%nat -> C <> 0%nat ->
  grid_loops rows cols (cell (squeeze R C)) (blank_grid R C fig0) = (Ok tt, s') ->
  (2 <= R)%nat /\ (2 <= C)%nat
  /\ rendered R C (grid_cellf rows cols panel) (R * C) s'.
Proof.
  intros Hreg Hirr HR HC Hrun.
  destruct (decide (2 <= R /\ 2 <= C)%nat) as [[HR2 HC2]|Hirreg].
  - split; [done|]. split; [done|].
    eapply grid_loops_ok; [|apply rendered_start|exact Hrun].
    intros i x j y fig t' Hx Hy. apply Hreg; [|done..].
    by apply squeeze_indexes_grid.
  - exfalso.
    destruct rows as [|x rows'] eqn:Erows; [done|].
    destruct cols as [|y cols'] eqn:Ecols; [done|].
    destruct (grid_loops_raise (x :: rows') (y :: cols') (cell (squeeze R C))
                x y rows' cols' (blank_grid R C fig0) eq_refl eq_refl)
      as (e & t & Hraise).
    + destruct (Hirr 0%nat x 0%nat y (blank_grid R C fig0)) as [e He];
        [lia|]. by eexists _, _.
    + congruence.
Qed.

Lemma grid_render_total (fig0 : Figure) :
  (forall axs i x j y fig,
     indexes_grid axs R C -> rows !! i = Some x -> cols !! j = Some y ->
     cell_at fig i j = Some blank_axes ->
     cell axs i x j y (Some fig)
     = (Ok tt, Some (alter_cell i j (panel i x j y) fig))) ->
  (2 <= R)%nat -> (2 <= C)%nat ->
  exists fig, grid_loops rows cols (cell (squeeze R C)) (blank_grid R C fig0)
              = (Ok tt, Some fig)
              /\ rendered R C (grid_cellf rows cols panel) (R * C) (Some fig).
Proof.
  intros Hreg HR HC.
  destruct (grid_loops_total rows cols (cell (squeeze R C)) panel
              (blank_grid R C fig0)) as (s' & Hrun & Hs').
  - intros i x j y fig Hx Hy. apply Hreg; [|done..].
    by apply squeeze_indexes_grid.
  - apply rendered_start.
  - destruct Hs' as (fig & -> & Hfig). exists fig. split; [done|].
    by eexists.
Qed.

End GridRender.

(** ** One loop over a row of panels *)

Section RowLoop.
Variable cols : list string.
Variable cell : nat -> string -> M unit.
Variable panel : nat -> string -> Axes -> Axes.

Definition row_cellf (r c : nat) : Axes :=
  match cols !! c with
  | Some y => panel c y blank_axes
  | None => blank_axes
  end.

Let N := length cols.

Lemma row_loop_ok (accept : nat -> string -> Prop) (s s' : option Figure) :
  (forall j y fig t', cols !! j = Some y ->
     cell_at fig 0 j = Some blank_axes ->
     cell j y (Some fig) = (Ok tt, t') ->
     accept j y /\ t' = Some (alter_cell 0 j (panel j y) fig)) ->
  rendered 1 N row_cellf 0 s ->
  for_enumerate 0 cols cell s = (Ok tt, s') ->
  rendered 1 N row_cellf (1 * N) s'
  /\ forall j y, cols !! j = Some y -> accept j y.
Proof.
  intros Hcell Hstart Hrun.
  replace (1 * N)%nat with (0 * N + (0 + N))%nat by lia.
  cut (rendered 1 N row_cellf (0 * N + (0 + N)) s'
       /\ forall j y, (j < 0 + N)%nat -> cols !! j = Some y -> accept j y).
  { intros [H1 H2]. split; [done|]. intros j y Hy. apply H2; [|done].
    apply lookup_lt_Some in Hy. subst N. lia. }
  refine (for_enumerate_ok
            (fun k t => rendered 1 N row_cellf (0 * N + k) t
                        /\ forall j y, (j < k)%nat -> cols !! j = Some y ->
                                       accept j y)
            cols _ 0 s s' _ _ Hrun).
  { split; [done|]. intros; lia. }
  intros j y u u' Hy [Hu Hacc] Hbody. cbn [Nat.add] in Hbody, Hu, Hacc.
  pose proof (lookup_lt_Some _ _ _ Hy).
  destruct Hu as (fig & -> & Hfig).
  assert (rendered 1 N row_cellf (0 * N + j) (Some fig)) as Hr by (by eexists).
  apply Hcell in Hbody as [Hj ->];
    [|done|by eapply rendered_blank; [exact Hr|lia|]].
  split.
  - apply rendered_step; [done|lia|done|].
    unfold row_cellf. by rewrite Hy.
  - intros j' y' Hlt Hy'. cbn [Nat.add] in Hlt.
    destruct (decide (j' = j)) as [->|Hne].
    + rewrite Hy in Hy'. by injection Hy' as <-.
    + apply Hacc; [lia|done].
Qed.

Lemma row_loop_total (s : option Figure) :
  (forall j y fig, cols !! j = Some y ->
     cell_at fig 0 j = Some blank_axes ->
     cell j y (Some fig) = (Ok tt, Some (alter_cell 0 j (panel j y) fig))) ->
  rendered 1 N row_cellf 0 s ->
  exists s', for_enumerate 0 cols cell s = (Ok tt, s')
             /\ rendered 1 N row_cellf (1 * N) s'.
Proof.
  intros Hcell Hstart.
  replace (1 * N)%nat with (0 * N + (0 + N))%nat by lia.
  refine (for_enumerate_total (fun j => rendered 1 N row_cellf (0 * N + j))
            cols _ 0 s Hstart _).
  intros j y u Hy Hu. cbn [Nat.add] in *.
  pose proof (lookup_lt_Some _ _ _ Hy).
  destruct Hu as (fig & -> & Hfig).
  assert (rendered 1 N row_cellf (0 * N + j) (Some fig)) as Hr by (by eexists).
  eexists. split.
  - apply Hcell; [done|]. eapply rendered_blank; [exact Hr|lia|done].
  - apply rendered_step; [done|lia|done|].
    unfold row_cellf. by rewrite Hy.
Qed.

End RowLoop.

(** ** Single steps on a panel *)

Lemma read_axes_run {A} (r c : nat) (get : Axes -> A) (fig : Figure) (a : Axes) :
  cell_at fig r c = Some a ->
  read_axes (AxesObj r c) get (Some fig) = (Ok (get a), Some fig).
Proof. intros Ha. unfold read_axes. simpl. by rewrite Ha. Qed.

Lemma alter_cell_ext (fig : Figure) (r c : nat) (f g : Axes -> Axes) (a : Axes) :
  cell_at fig r c = Some a -> f a = g a ->
  alter_cell r c f fig = alter_cell r c g fig.
Proof.
  unfold cell_at, alter_cell. intros Ha Hfg. f_equal.
  apply list_alter_ext; [|done]. intros row Hrow. rewrite Hrow in Ha.
  apply list_alter_ext; [|done]. intros a' Ha'. congruence.
Qed.

Lemma alter_cell_id (fig : Figure) (r c : nat) :
  alter_cell r c (fun a => a) fig = fig.
Proof.
  unfold alter_cell. destruct fig as [sz g st tp]. unfold with_grid. simpl.
  f_equal. apply list_alter_id. intros row. by apply list_alter_id.
Qed.

(** ** [plot_distributions] *)

Section Distributions.
Variable seaborn_check : plot_request -> option string.
Variables (df : DataFrame) (pal : option palette).

Definition distributions_request (i_col j_col : string) : plot_request :=
  HistPlot {| h_data := df; h_x := j_col; h_hue := Some i_col; h_bins := 40;
              h_multiple := Some "dodge"; h_palette := pal; h_alpha := None;
              h_color := None; h_kde := true |}.

(** What a finished panel of row [i] looks like. *)
Definition distributions_panel (i : nat) (i_col j_col : string) (a : Axes)
  : Axes :=
  with_ylabel no_label
    (with_xlabel no_label
       (with_title (if (i =? 0)%nat then j_col else "")
          (draw (distributions_request i_col j_col) a))).

(** Lines 94-107: the body of the two loops. *)
Definition distributions_cell (axs : axs_value) (i : nat) (i_col : string)
    (j : nat) (j_col : string) : M unit :=
  let* row := lift (getitem axs i) in
  let* ax := lift (getitem row j) in
  seaborn seaborn_check
    (HistPlot {| h_data := df; h_x := j_col; h_hue := Some i_col;
                 h_bins := 40;
                 h_multiple :=
                   Some (if (1 =? 2)%nat then "stack" else "dodge");
                 h_palette := pal; h_alpha := None;
                 h_color := None; h_kde := true |}) ax ;;
  let* row := lift (getitem axs i) in
  let* ax := lift (getitem row j) in
  set_title ax (if (i =? 0)%nat then Some j_col else None) ;;
  let* ax := lift (getitem2 axs i j) in
  set_xlabel ax None ;;
  let* ax := lift (getitem2 axs i j) in
  set_ylabel ax None.

Lemma plot_distributions_unfold (cats nums : list string) :
  plot_distributions seaborn_check df cats nums pal
  = (let* axs := subplots (length cats) (length nums) (20, 15)%Q in
     grid_loops cats nums (distributions_cell axs)).
Proof. reflexivity. Qed.

Lemma distributions_cell_run axs R C i i_col j j_col fig :
  indexes_grid axs R C -> (i < R)%nat -> (j < C)%nat ->
  distributions_cell axs i i_col j j_col (Some fig)
  = match seaborn_check (distributions_request i_col j_col) with
    | Some msg => (Raise (ChartingError msg), Some fig)
    | None => (Ok tt, Some (alter_cell i j (distributions_panel i i_col j_col) fig))
    end.
Proof.
  intros Hidx Hi Hj. destruct (Hidx i j Hi Hj) as (H2 & row & Hrow & Hax).
  unfold distributions_cell, bind, seaborn. rewrite Hrow, H2. cbn [lift ret].
  rewrite Hax. cbn [lift ret]. 
  change (Some (if (1 =? 2)%nat then "stack" else "dodge")) with (Some "dodge").
  fold (distributions_request i_col j_col).
  destruct (seaborn_check _); [done|].
  unfold set_title, set_xlabel, set_ylabel, on_axes. cbn [fmap option_fmap option_map].
  rewrite !alter_cell_compose. 
  by destruct i.
Qed.

Lemma distributions_cell_irregular R C i i_col j j_col s :
  (R < 2 \/ C < 2)%nat ->
  exists e, distributions_cell (squeeze R C) i i_col j j_col s = (Raise e, s).
Proof.
  intros Hirr. destruct (squeeze_irregular R C Hirr i j) as [_ Hrow].
  unfold distributions_cell, bind.
  destruct (getitem (squeeze R C) i) as [row|e]; cbn [lift ret raise].
  - destruct (Hrow row eq_refl) as [e ->]. cbn [lift raise]. by eexists.
  - by eexists.
Qed.

Definition distributions_cellf (cats nums : list string) : nat -> nat -> Axes :=
  grid_cellf cats nums (fun i x _ y => distributions_panel i x y).

Lemma plot_distributions_rendering (cats nums : list string) (fig : Figure) :
  run (plot_distributions seaborn_check df cats nums pal)
  = (Ok tt, Some fig) ->
  (2 <= length cats)%nat /\ (2 <= length nums)%nat
  /\ rendered (length cats) (length nums) (distributions_cellf cats nums)
       (length cats * length nums) (Some fig).
Proof.
  rewrite plot_distributions_unfold. unfold run.
  intros Hrun. apply subplots_ok in Hrun as (HR & HC & Hrun).
  eapply grid_render_ok; [| |done|done|exact Hrun].
  - intros axs i x j y fig1 t' Hidx Hx Hy.
    rewrite (distributions_cell_run axs _ _ i x j y fig1 Hidx)
      by (by eapply lookup_lt_Some).
    destruct (seaborn_check _); congruence.
  - intros. by apply distributions_cell_irregular.
Qed.

Lemma plot_distributions_runs (cats nums : list string) :
  (2 <= length cats)%nat -> (2 <= length nums)%nat ->
  (forall i_col j_col, i_col ∈ cats -> j_col ∈ nums ->
     seaborn_check (distributions_request i_col j_col) = None) ->
  exists fig,
    run (plot_distributions seaborn_check df cats nums pal)
    = (Ok tt, Some fig).
Proof.
  intros HR HC Hacc. rewrite plot_distributions_unfold. unfold run.
  rewrite subplots_run by lia.
  destruct (grid_render_total cats nums distributions_cell
              (fun i x _ y => distributions_panel i x y)
              (new_figure (20, 15)%Q)) as (fig & Hrun & _); [|done..|by eexists].
  intros axs i x j y fig1 Hidx Hx Hy _.
  rewrite (distributions_cell_run axs _ _ i x j y fig1 Hidx)
    by (by eapply lookup_lt_Some).
  rewrite Hacc; [done|by eapply list_elem_of_lookup_2..].
Qed.

End Distributions.

(** ** [plot_categorical_vs_numeric] *)

Section CategoricalVsNumeric.
Variable seaborn_check : plot_request -> option string.
Variables (df : DataFrame) (plot_type : string) (pal : option palette).

(** The request of a cell in row [i], for a recognised [plot_type]. *)
Definition categorical_request (i : nat) (i_col j_col : string)
  : plot_request :=
  if String.eqb plot_type "violin"
  then ViolinPlot (i =? 2)%nat df "species" j_col i_col pal
  else BoxPlot df "species" j_col i_col pal.

Definition categorical_panel (i : nat) (i_col j_col : string) (a : Axes)
  : Axes :=
  with_ylabel no_label
    (with_xlabel no_label
       (with_title (if (i =? 0)%nat then j_col else "")
          (draw (categorical_request i i_col j_col) a))).

Definition recognised : bool :=
  String.eqb plot_type "violin" || String.eqb plot_type "box".

(** Lines 116-140: the body of the two loops. *)
Definition categorical_cell (axs : axs_value) (i : nat) (i_col : string)
    (j : nat) (j_col : string) : M unit :=
  (if String.eqb plot_type "violin" then
     let* ax := lift (getitem2 axs i j) in
     seaborn seaborn_check
       (ViolinPlot (if (i =? 2)%nat then true else false)
                   df "species" j_col i_col pal) ax
   else if String.eqb plot_type "box" then
     let* row := lift (getitem axs i) in
     let* ax := lift (getitem row j) in
     seaborn seaborn_check (BoxPlot df "species" j_col i_col pal) ax
   else raise plot_type_error) ;;
  let* row := lift (getitem axs i) in
  let* ax := lift (getitem row j) in
  set_title ax (if (i =? 0)%nat then Some j_col else None) ;;
  let* row := lift (getitem axs i) in
  let* ax := lift (getitem row j) in
  set_xlabel ax None ;;
  let* row := lift (getitem axs i) in
  let* ax := lift (getitem row j) in
  set_ylabel ax None.

Lemma plot_categorical_vs_numeric_unfold (cats nums : list string) :
  plot_categorical_vs_numeric seaborn_check df cats nums plot_type pal
  = (let* axs := subplots (length cats) (length nums) (20, 15)%Q in
     grid_loops cats nums (categorical_cell axs)).
Proof. reflexivity. Qed.

Lemma categorical_cell_run axs R C i i_col j j_col fig :
  indexes_grid axs R C -> (i < R)%nat -> (j < C)%nat ->
  categorical_cell axs i i_col j j_col (Some fig)
  = if recognised then
      match seaborn_check (categorical_request i i_col j_col) with
      | Some msg => (Raise (ChartingError msg), Some fig)
      | None =>
          (Ok tt, Some (alter_cell i j (categorical_panel i i_col j_col) fig))
      end
    else (Raise plot_type_error, Some fig).
Proof.
  intros Hidx Hi Hj. destruct (Hidx i j Hi Hj) as (H2 & row & Hrow & Hax).
  unfold categorical_cell, categorical_panel, categorical_request, recognised,
    bind, seaborn.
  rewrite Hrow, H2. cbn [lift ret]. rewrite Hax. cbn [lift ret].
  replace (if (i =? 2)%nat then true else false) with (i =? 2)%nat
    by (by destruct (i =? 2)%nat).
  destruct (String.eqb plot_type "violin"); cbn [orb].
  - destruct (seaborn_check _); [done|].
    unfold set_title, set_xlabel, set_ylabel, on_axes.
    cbn [fmap option_fmap option_map]. rewrite !alter_cell_compose.
    by destruct i.
  - destruct (String.eqb plot_type "box"); cbn [orb]; [|done].
    destruct (seaborn_check _); [done|].
    unfold set_title, set_xlabel, set_ylabel, on_axes.
    cbn [fmap option_fmap option_map]. rewrite !alter_cell_compose.
    by destruct i.
Qed.

Lemma categorical_cell_irregular R C i i_col j j_col s :
  (R < 2 \/ C < 2)%nat ->
  exists e, categorical_cell (squeeze R C) i i_col j j_col s = (Raise e, s).
Proof.
  intros Hirr. destruct (squeeze_irregular R C Hirr i j) as [[e2 H2] Hrow].
  unfold categorical_cell, bind. rewrite H2.
  destruct (String.eqb plot_type "violin"); cbn [lift raise].
  { by eexists. }
  destruct (String.eqb plot_type "box"); [|by eexists].
  destruct (getitem (squeeze R C) i) as [row|e]; cbn [lift ret raise].
  - destruct (Hrow row eq_refl) as [e ->]. cbn [lift raise]. by eexists.
  - by eexists.
Qed.

(** An unrecognised [plot_type] is noticed in the first cell, after the
    grid has been allocated and before anything is drawn. *)
Lemma plot_categorical_vs_numeric_unrecognised (cats nums : list string) :
  recognised = false -> cats <> [] -> nums <> [] ->
  run (plot_categorical_vs_numeric seaborn_check df cats nums plot_type pal)
  = (Raise plot_type_error,
     blank_grid (length cats) (length nums) (new_figure (20, 15)%Q)).
Proof.
  intros Hrec Hcats Hnums. rewrite plot_categorical_vs_numeric_unfold.
  unfold run. rewrite subplots_run by (by destruct cats, nums).
  destruct cats as [|x cats']; [done|]. destruct nums as [|y nums']; [done|].
  unfold grid_loops. simpl for_enumerate. unfold bind at 1 2.
  unfold recognised in Hrec. apply orb_false_iff in Hrec as [Hv Hb].
  unfold categorical_cell, bind. by rewrite Hv, Hb.
Qed.

Definition categorical_cellf (cats nums : list string) : nat -> nat -> Axes :=
  grid_cellf cats nums (fun i x _ y => categorical_panel i x y).

Lemma plot_categorical_vs_numeric_rendering (cats nums : list string)
    (fig : Figure) :
  run (plot_categorical_vs_numeric seaborn_check df cats nums plot_type pal)
  = (Ok tt, Some fig) ->
  recognised = true
  /\ (2 <= length cats)%nat /\ (2 <= length nums)%nat
  /\ rendered (length cats) (length nums) (categorical_cellf cats nums)
       (length cats * length nums) (Some fig).
Proof.
  rewrite plot_categorical_vs_numeric_unfold. unfold run.
  intros Hrun. apply subplots_ok in Hrun as (HR & HC & Hrun).
  destruct recognised eqn:Hrec.
  - split; [done|].
    eapply grid_render_ok; [| |done|done|exact Hrun].
    + intros axs i x j y fig1 t' Hidx Hx Hy.
      rewrite (categorical_cell_run axs _ _ i x j y fig1 Hidx)
        by (by eapply lookup_lt_Some).
      rewrite Hrec. destruct (seaborn_check _); congruence.
    + intros. by apply categorical_cell_irregular.
  - exfalso.
    pose proof (plot_categorical_vs_numeric_unrecognised cats nums Hrec)
      as Hraise.
    rewrite plot_categorical_vs_numeric_unfold in Hraise. unfold run in Hraise.
    rewrite subplots_run in Hraise by done.
    rewrite Hraise in Hrun; [done| |]; by intros ->.
Qed.

Lemma plot_categorical_vs_numeric_runs (cats nums : list string) :
  recognised = true ->
  (2 <= length cats)%nat -> (2 <= length nums)%nat ->
  (forall i i_col j_col, cats !! i = Some i_col -> j_col ∈ nums ->
     seaborn_check (categorical_request i i_col j_col) = None) ->
  exists fig,
    run (plot_categorical_vs_numeric seaborn_check df cats nums plot_type pal)
    = (Ok tt, Some fig).
Proof.
  intros Hrec HR HC Hacc. rewrite plot_categorical_vs_numeric_unfold.
  unfold run. rewrite subplots_run by lia.
  destruct (grid_render_total cats nums categorical_cell
              (fun i x _ y => categorical_panel i x y)
              (new_figure (20, 15)%Q)) as (fig & Hrun & _); [|done..|by eexists].
  intros axs i x j y fig1 Hidx Hx Hy _.
  rewrite (categorical_cell_run axs _ _ i x j y fig1 Hidx)
    by (by eapply lookup_lt_Some).
  rewrite Hrec, Hacc; [done|done|by eapply list_elem_of_lookup_2].
Qed.

End CategoricalVsNumeric.

(** ** [plot_distribution_specie] *)

Section DistributionSpecie.
Variable seaborn_check : plot_request -> option string.
Variables (penguin_color : option palette) (bins : Z).

Definition specie_request (species_data : DataFrame) (i_col j_col : string)
  : plot_request :=
  HistPlot {| h_data := species_data; h_x := i_col; h_hue := Some j_col;
              h_bins := bins; h_multiple := Some "layer";
              h_palette := penguin_color; h_alpha := None; h_color := None;
              h_kde := true |}.

Definition specie_panel (species_data : DataFrame) (i_col : string) (j : nat)
    (j_col : string) (a : Axes) : Axes :=
  with_xlabel no_label
    (with_ylabel
       (if (j =? 0)%nat
        then {| label_text := i_col; label_pad := Some 60%Q;
                label_rotation := Some 0%Q |}
        else no_label)
       (draw (specie_request species_data i_col j_col) a)).

(** Lines 136-152: the body of the two loops. *)
Definition specie_cell (numeric_columns : list string)
    (species_data : DataFrame) (axs : axs_value) (i : nat) (i_col : string)
    (j : nat) (j_col : string) : M unit :=
  let* row := lift (getitem axs i) in
  let* ax := lift (getitem row j) in
  seaborn seaborn_check
    (HistPlot {| h_data := species_data; h_x := i_col;
                 h_hue := Some j_col; h_bins := bins;
                 h_multiple := Some "layer";
                 h_palette := penguin_color; h_alpha := None;
                 h_color := None; h_kde := true |}) ax ;;
  (if (j =? 0)%nat then
     let* row := lift (getitem axs i) in
     let* ax := lift (getitem row j) in
     let* label := match numeric_columns !! i with
                   | Some name => ret name
                   | None => raise (IndexError "list index out of range")
                   end in
     set_ylabel_with ax label 60 0
   else
     let* row := lift (getitem axs i) in
     let* ax := lift (getitem row j) in
     set_ylabel ax None) ;;
  let* row := lift (getitem axs i) in
  let* ax := lift (getitem row j) in
  set_xlabel ax None.

Lemma plot_distribution_specie_unfold (df : DataFrame)
    (nums cats : list string) (species : string) :
  plot_distribution_specie seaborn_check df nums cats species penguin_color
    bins
  = (let* species_data := lift (df_filter_eq df "species" species) in
     let* axs := subplots (length nums) (length cats) (15, 13)%Q in
     grid_loops nums cats (specie_cell nums species_data axs) ;;
     suptitle (species +:+ " Species") ;;
     subplots_adjust_top (19 # 20)).
Proof. reflexivity. Qed.

Lemma specie_cell_run nums sub axs R C i i_col j j_col fig :
  indexes_grid axs R C -> (i < R)%nat -> (j < C)%nat ->
  nums !! i = Some i_col ->
  specie_cell nums sub axs i i_col j j_col (Some fig)
  = match seaborn_check (specie_request sub i_col j_col) with
    | Some msg => (Raise (ChartingError msg), Some fig)
    | None =>
        (Ok tt, Some (alter_cell i j (specie_panel sub i_col j j_col) fig))
    end.
Proof.
  intros Hidx Hi Hj Hcol. destruct (Hidx i j Hi Hj) as (H2 & row & Hrow & Hax).
  unfold specie_cell, specie_panel, bind, seaborn.
  rewrite Hrow. cbn [lift ret]. rewrite Hax. cbn [lift ret].
  fold (specie_request sub i_col j_col).
  destruct (seaborn_check _); [done|]. rewrite Hcol.
  unfold set_ylabel_with, set_xlabel, set_ylabel, on_axes.
  destruct (j =? 0)%nat; cbn [fmap option_fmap option_map ret];
    by rewrite !alter_cell_compose.
Qed.

(** In a squeezed grid the first indexing fails, whatever the data. *)
Lemma specie_cell_irregular nums R C i i_col j j_col :
  (R < 2 \/ C < 2)%nat ->
  exists e, forall sub s,
    specie_cell nums sub (squeeze R C) i i_col j j_col s = (Raise e, s).
Proof.
  intros Hirr. destruct (squeeze_irregular R C Hirr i j) as [_ Hrow].
  unfold specie_cell, bind.
  destruct (getitem (squeeze R C) i) as [row|e]; cbn [lift ret raise].
  - destruct (Hrow row eq_refl) as [e ->]. by exists e.
  - by exists e.
Qed.

Definition specie_cellf (sub : DataFrame) (nums cats : list string)
  : nat -> nat -> Axes :=
  grid_cellf nums cats (fun _ x j y => specie_panel sub x j y).

(** The figure once the loops are over: titled and with its top margin set. *)
Definition specie_finish (species : string) (fig : Figure) : Figure :=
  with_top (Some (19 # 20)%Q)
    (with_suptitle (Some (species +:+ " Species")) fig).

Lemma plot_distribution_specie_rendering (df : DataFrame)
    (nums cats : list string) (species : string) (fig : Figure) :
  run (plot_distribution_specie seaborn_check df nums cats species
         penguin_color bins) = (Ok tt, Some fig) ->
  exists sub fig1,
    df_filter_eq df "species" species = Ok sub
    /\ (2 <= length nums)%nat /\ (2 <= length cats)%nat
    /\ rendered (length nums) (length cats) (specie_cellf sub nums cats)
         (length nums * length cats) (Some fig1)
    /\ fig = specie_finish species fig1.
Proof.
  rewrite plot_distribution_specie_unfold. unfold run. unfold bind at 1.
  destruct (df_filter_eq df "species" species) as [sub|e]; [|done].
  cbn [lift ret]. intros Hrun.
  apply subplots_ok in Hrun as (HR & HC & Hrun). unfold bind at 1 in Hrun.
  destruct (grid_loops nums cats _ _) as [[[]|e] s1] eqn:Hloops; [|done].
  destruct (grid_render_ok nums cats (specie_cell nums sub)
              (fun _ x j y => specie_panel sub x j y)
              (new_figure (15, 13)%Q) s1) as (HR2 & HC2 & Hfig);
    [| |done|done|exact Hloops|].
  - intros axs i x j y fig1 t' Hidx Hx Hy.
    rewrite (specie_cell_run nums sub axs _ _ i x j y fig1 Hidx)
      by (done || by eapply lookup_lt_Some).
    destruct (seaborn_check _); congruence.
  - intros i x j y s Hirr.
    destruct (specie_cell_irregular nums _ _ i x j y Hirr) as [e He].
    by exists e.
  - destruct Hfig as (fig1 & -> & Hfig).
    injection Hrun as <-. exists sub, fig1. repeat split; try done.
    by eexists.
Qed.

Lemma plot_distribution_specie_runs (df : DataFrame) (sub : DataFrame)
    (nums cats : list string) (species : string) :
  df_filter_eq df "species" species = Ok sub ->
  (2 <= length nums)%nat -> (2 <= length cats)%nat ->
  (forall i_col j_col, i_col ∈ nums -> j_col ∈ cats ->
     seaborn_check (specie_request sub i_col j_col) = None) ->
  exists fig1,
    run (plot_distribution_specie seaborn_check df nums cats species
           penguin_color bins) = (Ok tt, Some (specie_finish species fig1))
    /\ rendered (length nums) (length cats) (specie_cellf sub nums cats)
         (length nums * length cats) (Some fig1).
Proof.
  intros Hsub HR HC Hacc. rewrite plot_distribution_specie_unfold.
  unfold run. unfold bind at 1. rewrite Hsub. cbn [lift ret].
  rewrite subplots_run by lia. unfold bind at 1.
  destruct (grid_render_total nums cats (specie_cell nums sub)
              (fun _ x j y => specie_panel sub x j y)
              (new_figure (15, 13)%Q)) as (fig1 & -> & Hfig); [|done..|].
  - intros axs i x j y fig1 Hidx Hx Hy _.
    rewrite (specie_cell_run nums sub axs _ _ i x j y fig1 Hidx)
      by (done || by eapply lookup_lt_Some).
    rewrite Hacc; [done|by eapply list_elem_of_lookup_2..].
  - by exists fig1.
Qed.

End DistributionSpecie.

(** ** [plot_category_proportions] *)

Definition bar_annotation (p : Patch) : Text :=
  {| text_x := patch_x p + patch_width p / 2;
     text_y := patch_height p + 1;
     text_s := format_2f (patch_height p) +:+ "%";
     text_ha := "center" |}.

Definition annotated (ps : list Patch) (a : Axes) : Axes :=
  foldl (fun a p => add_text (bar_annotation p) a) a ps.

Lemma annotate_loop (axs : axs_value) (i : nat) (ps : list Patch) (fig : Figure) :
  getitem axs i = Ok (AxesObj 0 i) ->
  for_each ps (annotate_bar axs i) (Some fig)
  = (Ok tt, Some (alter_cell 0 i (annotated ps) fig)).
Proof.
  intros Hidx. revert fig. induction ps as [|p ps IH]; intros fig.
  - simpl. unfold ret. f_equal. f_equal. symmetry. apply alter_cell_id.
  - simpl. unfold bind at 1. unfold annotate_bar at 1, bind.
    rewrite Hidx. cbn [lift ret]. unfold text, on_axes.
    cbn [fmap option_fmap option_map]. rewrite IH.
    by rewrite alter_cell_compose.
Qed.

Lemma annotate_bars_run (axs : axs_value) (i : nat) (fig : Figure) (a : Axes) :
  getitem axs i = Ok (AxesObj 0 i) -> cell_at fig 0 i = Some a ->
  annotate_bars axs i (Some fig)
  = (Ok tt, Some (alter_cell 0 i (annotated (ax_patches a)) fig)).
Proof.
  intros Hidx Ha. unfold annotate_bars, bind. rewrite Hidx. cbn [lift ret].
  rewrite (read_axes_run 0 i ax_patches fig a Ha).
  by apply annotate_loop.
Qed.

Section CategoryProportions.
Variable seaborn_check : plot_request -> option string.
Variables (df : DataFrame) (color_palette : option palette).

Definition proportions_request (column : list cell) : plot_request :=
  BarPlot (proportions column) "category" "proportion" color_palette.

(** What a finished panel of [category] looks like. *)
Definition proportion_panel (category : string) (column : list cell)
    (a : Axes) : Axes :=
  let a1 := draw (proportions_request column) a in
  let a2 := annotated (ax_patches a1) a1 in
  let a3 :=
    with_ylim (Some (0, 100)%Q)
      (with_ylabel (plain_label (Some "Proportion (%)"))
         (with_xlabel (plain_label (Some category))
            (with_title ("Proportion of " +:+ category) a2))) in
  with_xtick_style (Some (45%Q, "right"))
    (with_xticklabels (ax_xticklabels a3) a3).

(** Lines 57-90: the body of the loop. *)
Definition proportions_cell (axs : axs_value) (i : nat) (category : string)
  : M unit :=
  let* column := lift (df_getitem df category) in
  let proportions_df := proportions column in
  let* ax := lift (getitem axs i) in
  seaborn seaborn_check
    (BarPlot proportions_df "category" "proportion" color_palette) ax ;;
  annotate_bars axs i ;;
  let* ax := lift (getitem axs i) in
  set_title ax (Some ("Proportion of " +:+ category)) ;;
  let* ax := lift (getitem axs i) in
  set_xlabel ax (Some category) ;;
  let* ax := lift (getitem axs i) in
  set_ylabel ax (Some "Proportion (%)") ;;
  let* ax := lift (getitem axs i) in
  set_ylim ax 0 100 ;;
  let* ax := lift (getitem axs i) in
  restyle_xticklabels ax 45 "right".

Lemma plot_category_proportions_unfold (cols : list string) (figsize : Q * Q) :
  plot_category_proportions seaborn_check df cols color_palette figsize
  = (let* axs := subplots 1 (length cols) figsize in
     let axs := if (length cols =? 1)%nat then PyList [axs] else axs in
     for_enumerate 0 cols (proportions_cell axs)).
Proof. reflexivity. Qed.

Lemma proportions_cell_run axs N i category fig a :
  indexes_row axs N -> (i < N)%nat -> cell_at fig 0 i = Some a ->
  proportions_cell axs i category (Some fig)
  = match df_getitem df category with
    | Raise e => (Raise e, Some fig)
    | Ok column =>
        match seaborn_check (proportions_request column) with
        | Some msg => (Raise (ChartingError msg), Some fig)
        | None =>
            (Ok tt,
             Some (alter_cell 0 i (proportion_panel category column) fig))
        end
    end.
Proof.
  intros Hidx Hi Ha. specialize (Hidx i Hi).
  unfold proportions_cell. unfold bind at 1.
  destruct (df_getitem df category) as [column|e]; cbn [lift ret raise]; [|done].
  unfold bind at 1. rewrite Hidx. cbn [lift ret]. unfold bind at 1.
  unfold seaborn. fold (proportions_request column).
  destruct (seaborn_check _); [done|].
  unfold on_axes. cbn [fmap option_fmap option_map].
  unfold bind at 1.
  rewrite (annotate_bars_run axs i _ (draw (proportions_request column) a))
    by (done || by rewrite cell_at_alter_cell_eq, Ha).
  rewrite alter_cell_compose.
  unfold bind. cbn [lift ret].
  unfold set_title, set_xlabel, set_ylabel, set_ylim, on_axes.
  cbn [fmap option_fmap option_map]. rewrite !alter_cell_compose.
  unfold restyle_xticklabels, bind.
  erewrite read_axes_run by (by rewrite cell_at_alter_cell_eq, Ha).
  unfold on_axes. cbn [fmap option_fmap option_map].
  rewrite alter_cell_compose.
  f_equal. f_equal. by apply (alter_cell_ext _ _ _ _ _ a).
Qed.

Definition proportions_panel_of (j : nat) (category : string) (a : Axes)
  : Axes :=
  match df_getitem df category with
  | Ok column => proportion_panel category column a
  | Raise _ => a
  end.

Definition proportions_cellf (cols : list string) : nat -> nat -> Axes :=
  row_cellf cols proportions_panel_of.

Lemma plot_category_proportions_rendering (cols : list string)
    (figsize : Q * Q) (fig : Figure) :
  run (plot_category_proportions seaborn_check df cols color_palette figsize)
  = (Ok tt, Some fig) ->
  rendered 1 (length cols) (proportions_cellf cols) (1 * length cols)
    (Some fig)
  /\ forall j category, cols !! j = Some category ->
       exists column, df_getitem df category = Ok column
                      /\ seaborn_check (proportions_request column) = None.
Proof.
  rewrite plot_category_proportions_unfold. unfold run.
  intros Hrun. apply subplots_ok in Hrun as (_ & HN & Hrun).
  eapply (row_loop_ok cols _ proportions_panel_of); [|apply rendered_start|exact Hrun].
  intros j y fig1 t' Hy Hblank.
  rewrite (proportions_cell_run _ (length cols) j y fig1 blank_axes);
    [|apply wrapped_indexes_row; lia|by eapply lookup_lt_Some|done].
  unfold proportions_panel_of.
  destruct (df_getitem df y) as [column|e]; [|done].
  destruct (seaborn_check _) eqn:Hc; [done|].
  intros [= <-]. split; [by exists column|done].
Qed.

Lemma plot_category_proportions_runs (cols : list string) (figsize : Q * Q) :
  (1 <= length cols)%nat ->
  (forall category, category ∈ cols ->
     exists column, df_getitem df category = Ok column
                    /\ seaborn_check (proportions_request column) = None) ->
  exists fig,
    run (plot_category_proportions seaborn_check df cols color_palette figsize)
    = (Ok tt, Some fig).
Proof.
  intros HN Hacc. rewrite plot_category_proportions_unfold. unfold run.
  rewrite subplots_run by lia.
  destruct (row_loop_total cols
              (proportions_cell
                 (if (length cols =? 1)%nat
                  then PyList [squeeze 1 (length cols)]
                  else squeeze 1 (length cols)))
              proportions_panel_of
              (blank_grid 1 (length cols) (new_figure figsize)))
    as (s' & Hrun & fig & -> & _); [|apply rendered_start|by exists fig].
  intros j y fig1 Hy Hblank.
  rewrite (proportions_cell_run _ (length cols) j y fig1 blank_axes);
    [|apply wrapped_indexes_row; lia|by eapply lookup_lt_Some|done].
  destruct (Hacc y) as (column & Hcol & Hc); [by eapply list_elem_of_lookup_2|].
  unfold proportions_panel_of. by rewrite Hcol, Hc.
Qed.

End CategoryProportions.

(** ** [plot_histograms] *)

Definition reference_line (x : Q) (color label : string) : Line :=
  {| line_x := Some x; line_color := Some color; line_style := "dashed";
     line_width := 5 # 2; line_label := Some label |}.

Definition stats_value (t : StatsTable) (stat col : string) : Q :=
  match stats_loc t stat col with
  | Ok q => q
  | Raise _ => 0%Q
  end.

Section Histograms.
Variable seaborn_check : plot_request -> option string.
Variables (df : DataFrame) (numerical_stats : StatsTable).
Variables (color_palette : option palette) (bins : Z) (alpha : Q).
Variables (color : string) (kde : bool).

Definition histogram_request (col : string) : plot_request :=
  HistPlot {| h_data := df; h_x := col; h_hue := None; h_bins := bins;
              h_multiple := None; h_palette := color_palette;
              h_alpha := Some alpha; h_color := Some color; h_kde := kde |}.

(** The panel after the histogram is drawn and its first line recoloured. *)
Definition histogram_drawn (col : string) (a : Axes) : Axes :=
  let a1 := draw (histogram_request col) a in
  with_lines (alter (recolor "#4c36f5") 0 (ax_lines a1)) a1.

Definition histogram_q1 (col : string) (q1 : Q) (a : Axes) : Axes :=
  add_line (reference_line q1 "#f26a02" "Q1") (histogram_drawn col a).

Definition histogram_q3 (col : string) (q1 q3 : Q) (a : Axes) : Axes :=
  add_line (reference_line q3 "#bd00b0" "Q3") (histogram_q1 col q1 a).

Definition histogram_mean (col : string) (q1 q3 mean : Q) (a : Axes) : Axes :=
  add_line (reference_line mean "#f75c6b" "Mean") (histogram_q3 col q1 q3 a).

(** What a finished panel of [col] looks like. *)
Definition histogram_panel (col : string) (q1 q3 mean : Q) (a : Axes) : Axes :=
  let a5 := histogram_mean col q1 q3 mean a in
  with_legend (Some (omap line_label (ax_lines a5))) a5.

(** Lines 34-71: the body of the loop. *)
Definition histograms_cell (ax : axs_value) (i : nat) (col : string) : M unit :=
  let* axi := lift (getitem ax i) in
  seaborn seaborn_check
    (HistPlot {| h_data := df; h_x := col; h_hue := None;
                 h_bins := bins; h_multiple := None;
                 h_palette := color_palette; h_alpha := Some alpha;
                 h_color := Some color; h_kde := kde |}) axi ;;
  let* axi := lift (getitem ax i) in
  set_first_line_color axi "#4c36f5" ;;
  let* axi := lift (getitem ax i) in
  let* q1 := lift (stats_loc numerical_stats "25%" col) in
  axvline axi q1 "#f26a02" "dashed" (5 # 2) "Q1" ;;
  let* axi := lift (getitem ax i) in
  let* q3 := lift (stats_loc numerical_stats "75%" col) in
  axvline axi q3 "#bd00b0" "dashed" (5 # 2) "Q3" ;;
  let* axi := lift (getitem ax i) in
  let* mean := lift (stats_loc numerical_stats "mean" col) in
  axvline axi mean "#f75c6b" "dashed" (5 # 2) "Mean" ;;
  let* axi := lift (getitem ax i) in
  legend axi.

Lemma plot_histograms_unfold (figsize : Q * Q) :
  plot_histograms seaborn_check df numerical_stats color_palette figsize bins
    alpha color kde
  = (let* ax := subplots 1 (length (stats_columns numerical_stats)) figsize in
     for_enumerate 0 (stats_columns numerical_stats) (histograms_cell ax)).
Proof. reflexivity. Qed.

(** The outcome of one iteration on a blank panel, failure points included. *)
Definition histograms_cell_outcome (i : nat) (col : string) (fig : Figure)
  : result unit * option Figure :=
  match seaborn_check (histogram_request col) with
  | Some msg => (Raise (ChartingError msg), Some fig)
  | None =>
      if kde then
        match stats_loc numerical_stats "25%" col with
        | Raise e => (Raise e, Some (alter_cell 0 i (histogram_drawn col) fig))
        | Ok q1 =>
            match stats_loc numerical_stats "75%" col with
            | Raise e =>
                (Raise e, Some (alter_cell 0 i (histogram_q1 col q1) fig))
            | Ok q3 =>
                match stats_loc numerical_stats "mean" col with
                | Raise e =>
                    (Raise e,
                     Some (alter_cell 0 i (histogram_q3 col q1 q3) fig))
                | Ok mean =>
                    (Ok tt,
                     Some (alter_cell 0 i (histogram_panel col q1 q3 mean)
                             fig))
                end
            end
        end
      else
        (Raise (IndexError "list index out of range"),
         Some (alter_cell 0 i (draw (histogram_request col)) fig))
  end.

Lemma histograms_cell_run ax N i col fig :
  indexes_row ax N -> (i < N)%nat -> cell_at fig 0 i = Some blank_axes ->
  histograms_cell ax i col (Some fig) = histograms_cell_outcome i col fig.
Proof.
  intros Hidx Hi Ha. specialize (Hidx i Hi).
  unfold histograms_cell, histograms_cell_outcome.
  unfold bind at 1. rewrite Hidx. cbn [lift ret]. unfold bind at 1.
  unfold seaborn. fold (histogram_request col).
  destruct (seaborn_check _); [done|].
  unfold on_axes. cbn [fmap option_fmap option_map].
  unfold bind at 1. cbn [lift ret]. unfold bind at 1.
  unfold set_first_line_color. unfold bind at 1.
  erewrite read_axes_run by (by rewrite cell_at_alter_cell_eq, Ha).
  destruct kde eqn:Hkde.
  - assert (ax_lines (draw (histogram_request col) blank_axes)
            = [kde_curve (Some color)]) as ->.
    { unfold histogram_request. simpl. unfold kde_lines. simpl.
      by rewrite Hkde. }
    unfold on_axes. cbn [fmap option_fmap option_map].
    rewrite alter_cell_compose.
    unfold bind at 1. cbn [lift ret]. unfold bind at 1.
    destruct (stats_loc numerical_stats "25%" col) as [q1|e];
      cbn [lift ret raise]; [|done].
    unfold bind at 1. unfold axvline, on_axes.
    cbn [fmap option_fmap option_map]. rewrite alter_cell_compose.
    unfold bind at 1. cbn [lift ret]. unfold bind at 1.
    destruct (stats_loc numerical_stats "75%" col) as [q3|e];
      cbn [lift ret raise]; [|done].
    unfold bind at 1. cbn [fmap option_fmap option_map].
    rewrite alter_cell_compose.
    unfold bind at 1. cbn [lift ret]. unfold bind at 1.
    destruct (stats_loc numerical_stats "mean" col) as [mean|e];
      cbn [lift ret raise]; [|done].
    unfold bind. cbn [fmap option_fmap option_map lift ret].
    unfold legend, on_axes. cbn [fmap option_fmap option_map].
    by rewrite !alter_cell_compose.
  - assert (ax_lines (draw (histogram_request col) blank_axes) = []) as ->.
    { unfold histogram_request. simpl. unfold kde_lines. simpl.
      by rewrite Hkde. }
    done.
Qed.

Definition histogram_panel_of (j : nat) (col : string) (a : Axes) : Axes :=
  histogram_panel col (stats_value numerical_stats "25%" col)
    (stats_value numerical_stats "75%" col)
    (stats_value numerical_stats "mean" col) a.

Definition histograms_cellf : nat -> nat -> Axes :=
  row_cellf (stats_columns numerical_stats) histogram_panel_of.

(** What it takes for the panel of [col] to be completed. *)
Definition histogram_accepted (col : string) : Prop :=
  seaborn_check (histogram_request col) = None
  /\ kde = true
  /\ exists q1 q3 mean,
       stats_loc numerical_stats "25%" col = Ok q1
       /\ stats_loc numerical_stats "75%" col = Ok q3
       /\ stats_loc numerical_stats "mean" col = Ok mean.

Lemma histograms_cell_outcome_ok i col fig t' :
  histograms_cell_outcome i col fig = (Ok tt, t') ->
  histogram_accepted col
  /\ t' = Some (alter_cell 0 i (histogram_panel_of i col) fig).
Proof.
  unfold histograms_cell_outcome, histogram_accepted, histogram_panel_of,
    stats_value.
  destruct (seaborn_check _); [done|]. destruct kde; [|done].
  destruct (stats_loc numerical_stats "25%" col) as [q1|]; [|done].
  destruct (stats_loc numerical_stats "75%" col) as [q3|]; [|done].
  destruct (stats_loc numerical_stats "mean" col) as [mean|]; [|done].
  intros [= <-]. repeat split. by exists q1, q3, mean.
Qed.


Lemma plot_histograms_rendering (figsize : Q * Q) (fig : Figure) :
  run (plot_histograms seaborn_check df numerical_stats color_palette figsize
         bins alpha color kde) = (Ok tt, Some fig) ->
  (2 <= length (stats_columns numerical_stats))%nat
  /\ rendered 1 (length (stats_columns numerical_stats)) histograms_cellf
       (1 * length (stats_columns numerical_stats)) (Some fig)
  /\ forall j col, stats_columns numerical_stats !! j = Some col ->
       histogram_accepted col.
Proof.
  rewrite plot_histograms_unfold. unfold run.
  intros Hrun. apply subplots_ok in Hrun as (_ & HN & Hrun).
  assert (2 <= length (stats_columns numerical_stats))%nat as HN2.
  { destruct (stats_columns numerical_stats) as [|c [|c' cols]];
      [done|done|simpl; lia]. }
  split; [done|].
  eapply (row_loop_ok _ _ histogram_panel_of (fun _ => histogram_accepted));
    [|apply rendered_start|exact Hrun].
  intros j col fig1 t' Hcol Hblank.
  rewrite (histograms_cell_run _ (length (stats_columns numerical_stats)));
    [|by apply squeeze_indexes_row|by eapply lookup_lt_Some|done].
  apply histograms_cell_outcome_ok.
Qed.


End Histograms.

(** ** [plot_category_count] *)

Section CategoryCount.
Variable seaborn_check : plot_request -> option string.
Variables (df : DataFrame) (color_palette : option palette) (alpha : Q).

Definition count_request (category : string) : plot_request :=
  CountPlot category df color_palette alpha.

Definition count_panel (category : string) (a : Axes) : Axes :=
  with_ylabel (plain_label (Some "Count"))
    (with_xlabel (plain_label (Some category))
       (with_title (category +:+ " Count")
          (draw (count_request category) a))).

(** Lines 24-33: the body of the loop. *)
Definition count_cell (axs : axs_value) (i : nat) (category : string)
  : M unit :=
  let* ax := lift (getitem axs i) in
  seaborn seaborn_check (CountPlot category df color_palette alpha) ax ;;
  let* ax := lift (getitem axs i) in
  set_title ax (Some (category +:+ " Count")) ;;
  let* ax := lift (getitem axs i) in
  set_xlabel ax (Some category) ;;
  let* ax := lift (getitem axs i) in
  set_ylabel ax (Some "Count").

Lemma plot_category_count_unfold (cols : list string) (figsize : Q * Q) :
  plot_category_count seaborn_check df cols color_palette figsize alpha
  = (let* axs := subplots 1 (length cols) figsize in
     for_enumerate 0 cols (count_cell axs)).
Proof. reflexivity. Qed.

Lemma count_cell_run axs N i category fig :
  indexes_row axs N -> (i < N)%nat ->
  count_cell axs i category (Some fig)
  = match seaborn_check (count_request category) with
    | Some msg => (Raise (ChartingError msg), Some fig)
    | None => (Ok tt, Some (alter_cell 0 i (count_panel category) fig))
    end.
Proof.
  intros Hidx Hi. specialize (Hidx i Hi).
  unfold count_cell, bind, seaborn. rewrite Hidx. cbn [lift ret].
  fold (count_request category).
  destruct (seaborn_check _); [done|].
  unfold set_title, set_xlabel, set_ylabel, on_axes.
  cbn [fmap option_fmap option_map]. by rewrite !alter_cell_compose.
Qed.

Definition count_cellf (cols : list string) : nat -> nat -> Axes :=
  row_cellf cols (fun _ => count_panel).

(** With two or more columns the renderer draws one panel per column. *)
Lemma plot_category_count_runs (cols : list string) (figsize : Q * Q) :
  (2 <= length cols)%nat ->
  (forall category, category ∈ cols ->
     seaborn_check (count_request category) = None) ->
  exists fig,
    run (plot_category_count seaborn_check df cols color_palette figsize alpha)
    = (Ok tt, Some fig)
    /\ rendered 1 (length cols) (count_cellf cols) (1 * length cols)
         (Some fig).
Proof.
  intros HN Hacc. rewrite plot_category_count_unfold. unfold run.
  rewrite subplots_run by lia.
  destruct (row_loop_total cols (count_cell (squeeze 1 (length cols)))
              (fun _ => count_panel)
              (blank_grid 1 (length cols) (new_figure figsize)))
    as (s' & Hrun & fig & -> & Hfig); [|apply rendered_start|].
  - intros j y fig1 Hy _.
    rewrite (count_cell_run _ (length cols));
      [|by apply squeeze_indexes_row|by eapply lookup_lt_Some].
    rewrite Hacc; [done|by eapply list_elem_of_lookup_2].
  - exists fig. split; [done|]. by eexists.
Qed.

End CategoryCount.

(** ** Calls that end in an exception *)

Lemma for_enumerate_any {X} (I : nat -> option Figure -> Prop)
    (E : option Figure -> Prop) (xs : list X) (body : nat -> X -> M unit) :
  forall k s r s',
    I k s ->
    (forall i x t q t', xs !! i = Some x -> I (k + i)%nat t ->
       body (k + i)%nat x t = (q, t') ->
       match q with
       | Ok _ => I (S (k + i)) t'
       | Raise _ => E t'
       end) ->
    for_enumerate k xs body s = (r, s') ->
    match r with
    | Ok _ => I (k + length xs)%nat s'
    | Raise _ => E s'
    end.
Proof.
  induction xs as [|x xs IH]; intros k s r s' HI Hstep Hrun; simpl in *.
  - injection Hrun as <- <-. by rewrite Nat.add_0_r.
  - unfold bind in Hrun.
    pose proof (Hstep 0%nat x s) as Hfirst. rewrite Nat.add_0_r in Hfirst.
    destruct (body k x s) as [[[]|e] t] eqn:Ebody.
    + rewrite <- Nat.add_succ_comm. apply (IH (S k) t r s'); [| |done].
      * exact (Hfirst (Ok tt) t eq_refl HI eq_refl).
      * intros i y u q u' Hy HIu Hbody.
        specialize (Hstep (S i) y u q u' Hy).
        rewrite <- !Nat.add_succ_comm in Hstep. by apply Hstep.
    + injection Hrun as <- <-. exact (Hfirst (Raise e) t eq_refl HI eq_refl).
Qed.

(** Some first panels are finished, the others are blank. *)
Definition drawn_so_far (R C : nat) (cellf : nat -> nat -> Axes)
    (s : option Figure) : Prop :=
  exists n, rendered R C cellf n s.

Lemma drawn_so_far_cell R C cellf (fig : Figure) (r c : nat) (ax : Axes) :
  drawn_so_far R C cellf (Some fig) -> cell_at fig r c = Some ax ->
  (r < R)%nat /\ (c < C)%nat /\ (ax = blank_axes \/ ax = cellf r c).
Proof.
  intros (n & fig' & [= <-] & Hshape & Hcells) Hax.
  destruct (grid_shape_cell _ _ _ _ _ _ Hshape Hax) as [Hr Hc].
  rewrite Hcells in Hax by done. injection Hax as <-.
  split; [done|]. split; [done|]. destruct (decide _); auto.
Qed.

Section GridLoopsAny.
Variables (rows cols : list string).
Variable cell : nat -> string -> nat -> string -> M unit.
Variable panel : nat -> string -> nat -> string -> Axes -> Axes.

Let R := length rows.
Let C := length cols.

(** Cells that either finish their panel or leave the figure as it is. *)
Lemma grid_loops_any (s : option Figure) (r : result unit)
    (s' : option Figure) :
  (forall i x j y fig q t', rows !! i = Some x -> cols !! j = Some y ->
     cell i x j y (Some fig) = (q, t') ->
     match q with
     | Ok _ => t' = Some (alter_cell i j (panel i x j y) fig)
     | Raise _ => t' = Some fig
     end) ->
  rendered R C (grid_cellf rows cols panel) 0 s ->
  grid_loops rows cols cell s = (r, s') ->
  drawn_so_far R C (grid_cellf rows cols panel) s'.
Proof.
  intros Hcell Hstart Hrun.
  set (cf := grid_cellf rows cols panel) in *.
  assert (forall i x t q t', rows !! i = Some x ->
            rendered R C cf ((0 + i) * C) t ->
            for_enumerate 0 cols (cell (0 + i) x) t = (q, t') ->
            match q with
            | Ok _ => rendered R C cf (S (0 + i) * C) t'
            | Raise _ => drawn_so_far R C cf t'
            end) as Hrow.
  { intros i x t q t' Hx Ht Hrow. cbn [Nat.add] in Hrow, Ht |- *.
    assert (forall j y u q' u', cols !! j = Some y ->
              rendered R C cf (0 + j + i * C) u ->
              cell i x (0 + j) y u = (q', u') ->
              match q' with
              | Ok _ => rendered R C cf (S (0 + j) + i * C) u'
              | Raise _ => drawn_so_far R C cf u'
              end) as Hstep.
    { intros j y u q' u' Hy Hu Hbody. cbn [Nat.add] in Hbody, Hu |- *.
      destruct Hu as (fig & -> & Hfig).
      assert (rendered R C cf (i * C + j) (Some fig)) as Hr
        by (replace (i * C + j)%nat with (j + i * C)%nat by lia;
            by eexists).
      apply (Hcell i x j y fig q' u' Hx Hy) in Hbody.
      destruct q' as [[]|e]; subst u'.
      - replace (S (j + i * C)) with (S (i * C + j)) by lia.
        apply rendered_step; [done|by eapply lookup_lt_Some..|].
        unfold cf, grid_cellf. by rewrite Hx, Hy.
      - by eexists. }
    exact (for_enumerate_any (fun j => rendered R C cf (j + i * C))
             (drawn_so_far R C cf) cols (cell i x) 0 t q t' Ht Hstep Hrow). }
  pose proof (for_enumerate_any (fun i => rendered R C cf (i * C))
                (drawn_so_far R C cf) rows
                (fun i x => for_enumerate 0 cols (cell i x)) 0 s r s'
                Hstart Hrow Hrun) as Hany.
  destruct r; [by eexists|done].
Qed.

End GridLoopsAny.

Section GridRenderAny.
Variables (rows cols : list string).
Variable cell : axs_value -> nat -> string -> nat -> string -> M unit.
Variable panel : nat -> string -> nat -> string -> Axes -> Axes.

Let R := length rows.
Let C := length cols.

(** However the loops over a fresh grid end, every panel is either finished
    or still blank. *)
Lemma grid_render_any (fig0 : Figure) (r : result unit) (s' : option Figure) :
  (forall axs i x j y fig q t',
     indexes_grid axs R C -> rows !! i = Some x -> cols !! j = Some y ->
     cell axs i x j y (Some fig) = (q, t') ->
     match q with
     | Ok _ => t' = Some (alter_cell i j (panel i x j y) fig)
     | Raise _ => t' = Some fig
     end) ->
  (forall i x j y s, (R < 2 \/ C < 2)%nat ->
     exists e, cell (squeeze R C) i x j y s = (Raise e, s)) ->
  grid_loops rows cols (cell (squeeze R C)) (blank_grid R C fig0) = (r, s') ->
  drawn_so_far R C (grid_cellf rows cols panel) s'.
Proof.
  intros Hreg Hirr Hrun.
  destruct (decide (2 <= R /\ 2 <= C)%nat) as [[HR2 HC2]|Hirreg].
  - eapply grid_loops_any; [|apply rendered_start|exact Hrun].
    intros i x j y fig q t' Hx Hy. apply Hreg; [|done..].
    by apply squeeze_indexes_grid.
  - exists 0%nat.
    destruct rows as [|x rows'] eqn:Erows.
    { injection Hrun as <- <-. apply rendered_start. }
    destruct cols as [|y cols'] eqn:Ecols.
    { clear Hreg Hirr.
      assert (forall k, for_enumerate k (x :: rows')
                (fun i x => for_enumerate 0 [] (cell (squeeze R C) i x))
                (blank_grid R C fig0) = (Ok tt, blank_grid R C fig0)) as Hnil.
      { generalize (x :: rows'). intros l. induction l; intros k; [done|].
        simpl. unfold bind. simpl. apply IHl. }
      unfold grid_loops in Hrun. rewrite Hnil in Hrun.
      injection Hrun as <- <-. apply rendered_start. }
    destruct (Hirr 0%nat x 0%nat y (blank_grid R C fig0)) as [e He]; [lia|].
    unfold grid_loops in Hrun. cbn [for_enumerate] in Hrun.
    unfold bind at 1 2 in Hrun. rewrite He in Hrun.
    injection Hrun as <- <-. apply rendered_start.
Qed.

End GridRenderAny.

Lemma subplots_any {A} (R C : nat) (figsize : Q * Q) (k : axs_value -> M A)
    (s : option Figure) (r : result A) (fig : Figure) :
  bind (subplots R C figsize) k s = (r, Some fig) ->
  fig = new_figure figsize
  \/ (R <> 0%nat /\ C <> 0%nat
      /\ k (squeeze R C) (blank_grid R C (new_figure figsize))
         = (r, Some fig)).
Proof.
  unfold bind, subplots. destruct R; [intros [= <- <-]; by left|].
  destruct C; [intros [= <- <-]; by left|].
  cbn [Nat.eqb]. intros H. right. by repeat split.
Qed.

Lemma grid_panel_any (rows cols : list string)
    (panel : nat -> string -> nat -> string -> Axes -> Axes)
    (fig : Figure) (i j : nat) (ax : Axes) :
  drawn_so_far (length rows) (length cols) (grid_cellf rows cols panel)
    (Some fig) ->
  cell_at fig i j = Some ax ->
  exists x y, rows !! i = Some x /\ cols !! j = Some y
              /\ (ax = blank_axes \/ ax = panel i x j y blank_axes).
Proof.
  intros Hfig Hax.
  destruct (drawn_so_far_cell _ _ _ _ _ _ _ Hfig Hax) as (Hi & Hj & Hcase).
  destruct (lookup_lt_is_Some_2 rows i Hi) as [x Hx].
  destruct (lookup_lt_is_Some_2 cols j Hj) as [y Hy].
  exists x, y. split; [done|]. split; [done|].
  unfold grid_cellf in Hcase. by rewrite Hx, Hy in Hcase.
Qed.

(** *** The grid renderers, whatever the outcome *)

Lemma plot_distributions_panels seaborn_check df pal (cats nums : list string)
    (r : result unit) (fig : Figure) (i j : nat) (ax : Axes) :
  run (plot_distributions seaborn_check df cats nums pal) = (r, Some fig) ->
  cell_at fig i j = Some ax ->
  exists i_col j_col,
    cats !! i = Some i_col /\ nums !! j = Some j_col
    /\ (ax = blank_axes
        \/ ax = distributions_panel df pal i i_col j_col blank_axes).
Proof.
  rewrite plot_distributions_unfold. unfold run. intros Hrun Hax.
  apply subplots_any in Hrun as [-> | (_ & _ & Hrun)]; [done|].
  eapply (grid_render_any cats nums (distributions_cell seaborn_check df pal)
            (fun i x _ y => distributions_panel df pal i x y)) in Hrun.
  - exact (grid_panel_any _ _ _ _ _ _ _ Hrun Hax).
  - intros axs i' x j' y fig1 q t' Hidx Hx Hy.
    rewrite (distributions_cell_run _ _ _ axs _ _ i' x j' y fig1 Hidx)
      by (by eapply lookup_lt_Some).
    destruct (seaborn_check _); by intros [= <- <-].
  - intros. by apply distributions_cell_irregular.
Qed.

Lemma plot_categorical_vs_numeric_panels seaborn_check df plot_type pal
    (cats nums : list string) (r : result unit) (fig : Figure) (i j : nat)
    (ax : Axes) :
  run (plot_categorical_vs_numeric seaborn_check df cats nums plot_type pal)
  = (r, Some fig) ->
  cell_at fig i j = Some ax ->
  exists i_col j_col,
    cats !! i = Some i_col /\ nums !! j = Some j_col
    /\ (ax = blank_axes
        \/ (recognised plot_type = true
            /\ ax = categorical_panel df plot_type pal i i_col j_col
                      blank_axes)).
Proof.
  intros Hrun Hax.
  destruct (recognised plot_type) eqn:Hrec.
  2: { rewrite plot_categorical_vs_numeric_unfold in Hrun. unfold run in Hrun.
       apply subplots_any in Hrun as [-> | (HR & HC & Hrun)]; [done|].
       pose proof (plot_categorical_vs_numeric_unrecognised seaborn_check df
                     plot_type pal cats nums Hrec) as Hraise.
       rewrite plot_categorical_vs_numeric_unfold in Hraise.
       unfold run in Hraise. rewrite subplots_run in Hraise by done.
       rewrite Hraise in Hrun by (by intros ->). injection Hrun as <- <-.
       assert (drawn_so_far (length cats) (length nums)
                 (grid_cellf cats nums
                    (fun i x _ y => categorical_panel df plot_type pal i x y))
                 (Some (with_grid
                          (replicate (length cats)
                             (replicate (length nums) blank_axes))
                          (new_figure (20, 15)%Q)))) as Hd
         by (exists 0%nat; apply rendered_start).
       destruct (grid_panel_any _ _ _ _ _ _ _ Hd Hax)
         as (x & y & Hx & Hy & _).
       exists x, y. split; [done|]. split; [done|]. left.
       destruct (drawn_so_far_cell _ _ _ _ _ _ _ Hd Hax) as (Hi & Hj & _).
       rewrite cell_at_blank in Hax by done. by injection Hax. }
  rewrite plot_categorical_vs_numeric_unfold in Hrun. unfold run in Hrun.
  apply subplots_any in Hrun as [-> | (_ & _ & Hrun)]; [done|].
  eapply (grid_render_any cats nums
            (categorical_cell seaborn_check df plot_type pal)
            (fun i x _ y => categorical_panel df plot_type pal i x y))
    in Hrun.
  - destruct (grid_panel_any _ _ _ _ _ _ _ Hrun Hax)
      as (x & y & Hx & Hy & Hcase).
    exists x, y. split; [done|]. split; [done|].
    destruct Hcase; [by left|by right].
  - intros axs i' x j' y fig1 q t' Hidx Hx Hy.
    rewrite (categorical_cell_run _ _ _ _ axs _ _ i' x j' y fig1 Hidx)
      by (by eapply lookup_lt_Some).
    rewrite Hrec. destruct (seaborn_check _); by intros [= <- <-].
  - intros. by apply categorical_cell_irregular.
Qed.


(** *** [plot_histograms], whatever the outcome *)

Section HistogramsAny.
Variable seaborn_check : plot_request -> option string.
Variables (df : DataFrame) (numerical_stats : StatsTable).
Variables (color_palette : option palette) (bins : Z) (alpha : Q).
Variables (color : string) (kde : bool).

Local Abbreviation cols := (stats_columns numerical_stats).
Local Abbreviation request :=
  (histogram_request df color_palette bins alpha color kde).
Local Abbreviation cellf :=
  (histograms_cellf df numerical_stats color_palette bins alpha color kde).







End HistogramsAny.

(** ** Reading a finished figure *)

Lemma grid_panel_at (rows cols : list string)
    (panel : nat -> string -> nat -> string -> Axes -> Axes)
    (fig : Figure) (i j : nat) (ax : Axes) :
  rendered (length rows) (length cols) (grid_cellf rows cols panel)
    (length rows * length cols) (Some fig) ->
  cell_at fig i j = Some ax ->
  exists x y, rows !! i = Some x /\ cols !! j = Some y
              /\ ax = panel i x j y blank_axes.
Proof.
  intros Hfig Hax.
  destruct (rendered_done _ _ _ _ _ _ _ Hfig Hax) as (Hi & Hj & ->).
  destruct (lookup_lt_is_Some_2 rows i Hi) as [x Hx].
  destruct (lookup_lt_is_Some_2 cols j Hj) as [y Hy].
  exists x, y. unfold grid_cellf. by rewrite Hx, Hy.
Qed.

Lemma ax_plots_draw (req : plot_request) (a : Axes) :
  ax_plots (draw req a) = ax_plots a ++ [req].
Proof. by destruct req. Qed.

Lemma categorical_panel_plots (df : DataFrame) (plot_type : string)
    (pal : option palette) (i : nat) (i_col j_col : string) :
  ax_plots (categorical_panel df plot_type pal i i_col j_col blank_axes)
  = [categorical_request df plot_type pal i i_col j_col].
Proof. unfold categorical_panel. cbn [with_ylabel with_xlabel with_title ax_plots]. apply ax_plots_draw. Qed.

Lemma distributions_panel_plots (df : DataFrame) (pal : option palette)
    (i : nat) (i_col j_col : string) :
  ax_plots (distributions_panel df pal i i_col j_col blank_axes)
  = [distributions_request df pal i_col j_col].
Proof. unfold distributions_panel. cbn [with_ylabel with_xlabel with_title ax_plots]. apply ax_plots_draw. Qed.

Lemma row_panel_at (cols : list string) (panel : nat -> string -> Axes -> Axes)
    (fig : Figure) (r j : nat) (ax : Axes) :
  rendered 1 (length cols) (row_cellf cols panel) (1 * length cols)
    (Some fig) ->
  cell_at fig r j = Some ax ->
  r = 0%nat /\ exists y, cols !! j = Some y /\ ax = panel j y blank_axes.
Proof.
  intros Hfig Hax.
  destruct (rendered_done _ _ _ _ _ _ _ Hfig Hax) as (Hr & Hj & ->).
  split; [lia|].
  destruct (lookup_lt_is_Some_2 cols j Hj) as [y Hy].
  exists y. unfold row_cellf. by rewrite Hy.
Qed.

(** The column on the x axis of a plot. *)
Definition plot_x (req : plot_request) : string :=
  match req with
  | CountPlot x _ _ _ => x
  | BarPlot _ x _ _ => x
  | ViolinPlot _ _ x _ _ _ => x
  | BoxPlot _ x _ _ _ => x
  | HistPlot h => h_x h
  end.

Lemma row_panels (cols : list string) (panel : nat -> string -> Axes -> Axes)
    (fig : Figure) :
  rendered 1 (length cols) (row_cellf cols panel) (1 * length cols)
    (Some fig) ->
  fig_grid fig = [imap (fun j y => panel j y blank_axes) cols].
Proof.
  intros Hfig. pose proof Hfig as (fig' & [= <-] & [Hlen Hrows] & _).
  destruct (fig_grid fig) as [|row [|row' g]] eqn:Hgrid; [done| |done].
  f_equal. apply list_eq. intros j. rewrite list_lookup_imap.
  apply Forall_inv in Hrows.
  destruct (decide (j < length cols)%nat) as [Hj|Hj].
  - pose proof (rendered_cell _ _ _ _ 0 j Hfig ltac:(lia) Hj) as Hcell.
    unfold cell_at in Hcell. rewrite Hgrid in Hcell. simpl in Hcell.
    rewrite Hcell. unfold row_cellf.
    destruct (lookup_lt_is_Some_2 cols j Hj) as [y ->]. done.
  - rewrite !lookup_ge_None_2; [done|lia..].
Qed.

(** * Sample data *)

(** A charting layer that draws whatever it is asked to. *)
Definition accept_all (_ : plot_request) : option string := None.

Definition penguins : DataFrame :=
  {| df_columns := ["species"; "island"; "sex"; "bill_length_mm";
                    "body_mass_g"];
     df_rows :=
       [[Some "Adelie"; Some "Torgersen"; Some "male"; Some "39.1";
         Some "3750"];
        [Some "Adelie"; Some "Dream"; None; Some "37.8"; Some "3400"];
        [Some "Gentoo"; Some "Biscoe"; Some "female"; Some "46.1";
         Some "4500"];
        [Some "Chinstrap"; Some "Dream"; Some "female"; Some "46.5";
         Some "3500"];
        [Some "Gentoo"; Some "Biscoe"; Some "male"; Some "50.0";
         Some "5700"]] |}.

Definition penguin_stats : StatsTable :=
  {| stats_columns := ["bill_length_mm"; "body_mass_g"];
     stats_index := ["mean"; "25%"; "75%"];
     stats_values := [[439 # 10; 4170 # 1]; [196 # 5; 3500 # 1];
                      [97 # 2; 4500 # 1]]%Q |}.

(** * The claims *)

(** ** C1: an unrecognised plot type *)

(** C1, as the claim states it, fails: for a call of
    [plot_categorical_vs_numeric] with [plot_type = "scatter"] the
    [ValueError] is raised when the figure and its 2 x 2 grid of panels
    already exist; and with an empty list of numeric columns the call ends
    in the error of [plt.subplots], not in the one about [plot_type]. *)
Lemma unrecognised_plot_type_builds_figure :
  (exists fig,
     run (plot_categorical_vs_numeric accept_all penguins ["island"; "sex"]
            ["bill_length_mm"; "body_mass_g"] "scatter" None)
     = (Raise plot_type_error, Some fig)
     /\ grid_shape 2 2 fig)
  /\ run (plot_categorical_vs_numeric accept_all penguins ["island"; "sex"]
            [] "scatter" None)
     = (Raise (ValueError
                 "Number of columns must be a positive integer, not 0"),
        Some (new_figure (20, 15)%Q)).
Proof.
  split; [|reflexivity].
  eexists. split; [reflexivity|]. split; [done|]. by repeat constructor.
Qed.

(** C1, amended: for non-empty category and numeric column lists and a
    [plot_type] other than "violin" and "box", the call raises the
    [ValueError] "plot_type must be either 'violin' or 'box'" and no other
    error; the figure and its grid of panels have been allocated by then,
    and every panel is still blank: nothing has been drawn, titled or
    labelled. *)
Theorem unrecognised_plot_type_rejected
    (seaborn_check : plot_request -> option string) (df : DataFrame)
    (category_columns numeric_columns : list string) (plot_type : string)
    (pal : option palette) :
  plot_type <> "violin" -> plot_type <> "box" ->
  category_columns <> [] -> numeric_columns <> [] ->
  run (plot_categorical_vs_numeric seaborn_check df category_columns
         numeric_columns plot_type pal)
  = (Raise plot_type_error,
     Some (with_grid
             (replicate (length category_columns)
                (replicate (length numeric_columns) blank_axes))
             (new_figure (20, 15)%Q))).
Proof.
  intros Hv Hb Hcats Hnums.
  apply plot_categorical_vs_numeric_unrecognised; [|done..].
  unfold recognised. apply orb_false_iff.
  split; by apply String.eqb_neq.
Qed.

Lemma unrecognised_plot_type_rejected_witness :
  run (plot_categorical_vs_numeric accept_all penguins ["island"]
         ["bill_length_mm"] "scatter" None)
  = (Raise plot_type_error,
     Some (with_grid [[blank_axes]] (new_figure (20, 15)%Q))).
Proof.
  apply (unrecognised_plot_type_rejected accept_all penguins ["island"]
           ["bill_length_mm"] "scatter" None); discriminate.
Defined.

(** ** C2: single-row renderers and a one-element selector *)

(** With a single category column [plot_category_count] raises [TypeError]
    on [axs[0]]: the lone panel comes back from [plt.subplots] as the panel
    itself, not as a collection.  The panel stays blank. *)
Lemma plot_category_count_one_column
    (seaborn_check : plot_request -> option string) (df : DataFrame)
    (category : string) (color_palette : option palette) (figsize : Q * Q)
    (alpha : Q) :
  run (plot_category_count seaborn_check df [category] color_palette figsize
         alpha)
  = (Raise (TypeError "'Axes' object is not subscriptable"),
     Some (with_grid [[blank_axes]] (new_figure figsize))).
Proof. reflexivity. Qed.

(** [plot_histograms] fails the same way on a statistics table with one
    column. *)
Lemma plot_histograms_one_column
    (seaborn_check : plot_request -> option string) (df : DataFrame)
    (stats : StatsTable) (col : string) (color_palette : option palette)
    (figsize : Q * Q) (bins : Z) (alpha : Q) (color : string) (kde : bool) :
  stats_columns stats = [col] ->
  run (plot_histograms seaborn_check df stats color_palette figsize bins alpha
         color kde)
  = (Raise (TypeError "'Axes' object is not subscriptable"),
     Some (with_grid [[blank_axes]] (new_figure figsize))).
Proof. intros Hcols. unfold plot_histograms. by rewrite Hcols. Qed.

(** [plot_category_proportions] wraps the lone panel (lines 54-55) and
    completes it. *)
Lemma plot_category_proportions_one_column
    (seaborn_check : plot_request -> option string) (df : DataFrame)
    (category : string) (column : list cell) (color_palette : option palette)
    (figsize : Q * Q) :
  df_getitem df category = Ok column ->
  seaborn_check (proportions_request color_palette column) = None ->
  exists fig,
    run (plot_category_proportions seaborn_check df [category] color_palette
           figsize) = (Ok tt, Some fig)
    /\ fig_grid fig
       = [[proportion_panel color_palette category column blank_axes]].
Proof.
  intros Hcol Hc.
  destruct (plot_category_proportions_runs seaborn_check df color_palette
              [category] figsize) as [fig Hrun]; [simpl; lia| |].
  { intros c Hin. apply list_elem_of_singleton in Hin as ->.
    by exists column. }
  exists fig. split; [done|].
  apply plot_category_proportions_rendering in Hrun as [Hfig _].
  apply row_panels in Hfig. rewrite Hfig. simpl.
  unfold proportions_panel_of. by rewrite Hcol.
Qed.

(** C2 at a selector of one element: [plot_category_count] and
    [plot_histograms] raise [TypeError] with their one panel blank, where
    [plot_category_proportions] draws its one panel. *)
Theorem single_column_selector
    (seaborn_check : plot_request -> option string) (df : DataFrame)
    (category : string) (column : list cell) (stats : StatsTable)
    (col : string) (color_palette : option palette) (figsize : Q * Q)
    (bins : Z) (alpha : Q) (color : string) (kde : bool) :
  stats_columns stats = [col] ->
  df_getitem df category = Ok column ->
  seaborn_check (proportions_request color_palette column) = None ->
  run (plot_category_count seaborn_check df [category] color_palette figsize
         alpha)
  = (Raise (TypeError "'Axes' object is not subscriptable"),
     Some (with_grid [[blank_axes]] (new_figure figsize)))
  /\ run (plot_histograms seaborn_check df stats color_palette figsize bins
            alpha color kde)
     = (Raise (TypeError "'Axes' object is not subscriptable"),
        Some (with_grid [[blank_axes]] (new_figure figsize)))
  /\ exists fig,
       run (plot_category_proportions seaborn_check df [category]
              color_palette figsize) = (Ok tt, Some fig)
       /\ fig_grid fig
          = [[proportion_panel color_palette category column blank_axes]].
Proof.
  intros Hstats Hcol Hc. split; [apply plot_category_count_one_column|].
  split; [by apply (plot_histograms_one_column _ _ _ col)|].
  by apply plot_category_proportions_one_column.
Qed.

Lemma single_column_selector_witness :
  run (plot_category_count accept_all penguins ["species"] None (20, 5)%Q
         (3 # 5))
  = (Raise (TypeError "'Axes' object is not subscriptable"),
     Some (with_grid [[blank_axes]] (new_figure (20, 5)%Q)))
  /\ exists fig,
       run (plot_category_proportions accept_all penguins ["species"] None
              (10, 5)%Q) = (Ok tt, Some fig)
       /\ length (fig_grid fig) = 1%nat.
Proof.
  destruct (single_column_selector accept_all penguins "species"
              [Some "Adelie"; Some "Adelie"; Some "Gentoo"; Some "Chinstrap";
               Some "Gentoo"]
              {| stats_columns := ["bill_length_mm"];
                 stats_index := ["mean"; "25%"; "75%"];
                 stats_values := [[439 # 10]; [196 # 5]; [97 # 2]]%Q |}
              "bill_length_mm" None (20, 5)%Q 50 (3 # 5) "#0f7175ff" true
              eq_refl eq_refl eq_refl) as (Hcount & _ & _).
  split; [exact Hcount|].
  destruct (single_column_selector accept_all penguins "species"
              [Some "Adelie"; Some "Adelie"; Some "Gentoo"; Some "Chinstrap";
               Some "Gentoo"]
              {| stats_columns := ["bill_length_mm"];
                 stats_index := ["mean"; "25%"; "75%"];
                 stats_values := [[439 # 10]; [196 # 5]; [97 # 2]]%Q |}
              "bill_length_mm" None (10, 5)%Q 50 (3 # 5) "#0f7175ff" true
              eq_refl eq_refl eq_refl) as (_ & _ & fig & Hrun & Hgrid).
  exists fig. split; [exact Hrun|]. by rewrite Hgrid.
Defined.

(** ** C5: the split rendering mode *)

(** C5: however a call of [plot_categorical_vs_numeric] ends, the panel in
    row [i] and column [j] holds no plot yet or exactly one, of numeric
    column [j] by species, grouped by category column [i]: for "violin" a
    violin plot whose [split] flag is on exactly when [i = 2], whatever the
    column is called; for "box" a box plot, which has no [split] flag.
    When the call returns normally every panel holds its plot. *)
Theorem violin_split_only_in_row_two
    (seaborn_check : plot_request -> option string) (df : DataFrame)
    (category_columns numeric_columns : list string) (plot_type : string)
    (pal : option palette) (r : result unit) (fig : Figure) (i j : nat)
    (ax : Axes) :
  run (plot_categorical_vs_numeric seaborn_check df category_columns
         numeric_columns plot_type pal) = (r, Some fig) ->
  cell_at fig i j = Some ax ->
  exists i_col j_col,
    category_columns !! i = Some i_col
    /\ numeric_columns !! j = Some j_col
    /\ (ax_plots ax = []
        \/ (plot_type = "violin"
            /\ ax_plots ax
               = [ViolinPlot (bool_decide (i = 2%nat)) df "species" j_col
                    i_col pal])
        \/ (plot_type = "box"
            /\ ax_plots ax = [BoxPlot df "species" j_col i_col pal]))
    /\ (r = Ok tt -> ax_plots ax <> []).
Proof.
  intros Hrun Hax.
  destruct (plot_categorical_vs_numeric_panels _ _ _ _ _ _ _ _ _ _ _ Hrun Hax)
    as (i_col & j_col & Hi & Hj & Hcase).
  exists i_col, j_col. split; [done|]. split; [done|]. split.
  - destruct Hcase as [-> | [Hrec ->]]; [by left|]. right.
    unfold recognised in Hrec. unfold categorical_panel, categorical_request.
    destruct (String.eqb_spec plot_type "violin") as [->|Hv].
    + left. split; [done|]. simpl. do 2 f_equal.
      destruct (Nat.eqb_spec i 2);
        [by rewrite bool_decide_true | by rewrite bool_decide_false].
    + right. simpl in Hrec. apply String.eqb_eq in Hrec. by split.
  - intros ->.
    apply plot_categorical_vs_numeric_rendering in Hrun as (_ & _ & _ & Hfig).
    destruct (grid_panel_at _ _ _ _ _ _ _ Hfig Hax) as (? & ? & _ & _ & ->).
    by rewrite categorical_panel_plots.
Qed.

Lemma violin_split_only_in_row_two_witness :
  exists fig ax,
    run (plot_categorical_vs_numeric accept_all penguins
           ["species"; "island"; "sex"] ["bill_length_mm"; "body_mass_g"]
           "violin" None) = (Ok tt, Some fig)
    /\ cell_at fig 2 1 = Some ax
    /\ ax_plots ax
       = [ViolinPlot true penguins "species" "body_mass_g" "sex" None].
Proof.
  eexists _, _. split; [reflexivity|]. split; [reflexivity|].
  destruct (violin_split_only_in_row_two accept_all penguins
              ["species"; "island"; "sex"] ["bill_length_mm"; "body_mass_g"]
              "violin" None _ _ 2 1 _ eq_refl eq_refl)
    as (i_col & j_col & Hi & Hj & [Hnone | [[_ Hplots] | [Hbox _]]] & _).
  - discriminate Hnone.
  - injection Hi as <-. injection Hj as <-. exact Hplots.
  - discriminate Hbox.
Defined.

(** ** C7: titles and axis labels of the grids *)

(** C7: however a call of [plot_categorical_vs_numeric] or of
    [plot_distributions] ends, the x and y axis labels of every panel are
    empty; a panel in row [i] and column [j] that has been drawn on is
    titled with the name of numeric column [j] when [i = 0] and has an empty
    title otherwise (as has a panel not drawn on yet); and when the call
    returns normally every panel has been drawn on. *)
Theorem grid_titles_and_labels
    (seaborn_check : plot_request -> option string) (df : DataFrame)
    (category_columns numeric_columns : list string) (pal : option palette) :
  (forall plot_type r fig i j ax,
     run (plot_categorical_vs_numeric seaborn_check df category_columns
            numeric_columns plot_type pal) = (r, Some fig) ->
     cell_at fig i j = Some ax ->
     label_text (ax_xlabel ax) = ""
     /\ label_text (ax_ylabel ax) = ""
     /\ exists j_col,
          numeric_columns !! j = Some j_col
          /\ (ax_plots ax <> [] ->
              ax_title ax = if decide (i = 0%nat) then j_col else "")
          /\ (ax_plots ax = [] -> ax_title ax = "")
          /\ (r = Ok tt -> ax_plots ax <> []))
  /\ (forall r fig i j ax,
        run (plot_distributions seaborn_check df category_columns
               numeric_columns pal) = (r, Some fig) ->
        cell_at fig i j = Some ax ->
        label_text (ax_xlabel ax) = ""
        /\ label_text (ax_ylabel ax) = ""
        /\ exists j_col,
             numeric_columns !! j = Some j_col
             /\ (ax_plots ax <> [] ->
                 ax_title ax = if decide (i = 0%nat) then j_col else "")
             /\ (ax_plots ax = [] -> ax_title ax = "")
             /\ (r = Ok tt -> ax_plots ax <> [])).
Proof.
  split.
  - intros plot_type r fig i j ax Hrun Hax.
    destruct (plot_categorical_vs_numeric_panels _ _ _ _ _ _ _ _ _ _ _ Hrun
                Hax) as (i_col & j_col & Hi & Hj & Hcase).
    assert (r = Ok tt -> ax_plots ax <> []) as Hdone.
    { intros ->.
      apply plot_categorical_vs_numeric_rendering in Hrun
        as (_ & _ & _ & Hfig).
      destruct (grid_panel_at _ _ _ _ _ _ _ Hfig Hax)
        as (? & ? & _ & _ & ->).
      by rewrite categorical_panel_plots. }
    destruct Hcase as [-> | [_ ->]].
    + split; [done|]. split; [done|]. by exists j_col.
    + split; [done|]. split; [done|]. exists j_col.
      split; [done|]. split; [intros _; simpl; by destruct i|].
      split; [|done]. by rewrite categorical_panel_plots.
  - intros r fig i j ax Hrun Hax.
    destruct (plot_distributions_panels _ _ _ _ _ _ _ _ _ _ Hrun Hax)
      as (i_col & j_col & Hi & Hj & Hcase).
    assert (r = Ok tt -> ax_plots ax <> []) as Hdone.
    { intros ->. apply plot_distributions_rendering in Hrun as (_ & _ & Hfig).
      destruct (grid_panel_at _ _ _ _ _ _ _ Hfig Hax)
        as (? & ? & _ & _ & ->).
      by rewrite distributions_panel_plots. }
    destruct Hcase as [-> | ->].
    + split; [done|]. split; [done|]. by exists j_col.
    + split; [done|]. split; [done|]. exists j_col.
      split; [done|]. split; [intros _; simpl; by destruct i|].
      split; [|done]. by rewrite distributions_panel_plots.
Qed.

Lemma grid_titles_and_labels_witness :
  (exists fig ax,
     run (plot_categorical_vs_numeric accept_all penguins
            ["island"; "sex"] ["bill_length_mm"; "body_mass_g"] "box" None)
     = (Ok tt, Some fig)
     /\ cell_at fig 0 1 = Some ax
     /\ ax_title ax = "body_mass_g"
     /\ label_text (ax_xlabel ax) = "" /\ label_text (ax_ylabel ax) = "")
  /\ (exists fig ax,
        run (plot_distributions accept_all penguins ["island"; "sex"]
               ["bill_length_mm"; "body_mass_g"] None) = (Ok tt, Some fig)
        /\ cell_at fig 1 0 = Some ax
        /\ ax_title ax = ""
        /\ label_text (ax_xlabel ax) = "" /\ label_text (ax_ylabel ax) = "").
Proof.
  destruct (grid_titles_and_labels accept_all penguins ["island"; "sex"]
              ["bill_length_mm"; "body_mass_g"] None) as [Hcat Hdist].
  split.
  - eexists _, _. split; [reflexivity|]. split; [reflexivity|].
    destruct (Hcat "box" _ _ 0%nat 1%nat _ eq_refl eq_refl)
      as (Hx & Hy & j_col & Hj & Htitle & _ & Hdone).
    injection Hj as <-. split; [|by split].
    by apply Htitle, Hdone.
  - eexists _, _. split; [reflexivity|]. split; [reflexivity|].
    destruct (Hdist _ _ 1%nat 0%nat _ eq_refl eq_refl)
      as (Hx & Hy & j_col & Hj & Htitle & _ & Hdone).
    split; [|by split]. by apply Htitle, Hdone.
Defined.

(** ** C8: the histogram settings of [plot_distributions] *)




(** ** C3 and C4: the proportion panels *)

Lemma annotated_texts (ps : list Patch) (a : Axes) :
  ax_texts (annotated ps a) = ax_texts a ++ map bar_annotation ps.
Proof.
  unfold annotated. revert a.
  induction ps as [|p ps IH]; intros a; cbn [foldl map].
  - by rewrite app_nil_r.
  - rewrite IH. cbn [ax_texts add_text with_texts]. by rewrite <- app_assoc.
Qed.

Lemma annotated_keeps {A} (get : Axes -> A) (ps : list Patch) (a : Axes) :
  (forall t b, get (add_text t b) = get b) ->
  get (annotated ps a) = get a.
Proof.
  intros Hget. unfold annotated. revert a.
  induction ps as [|p ps IH]; intros a; cbn [foldl]; [done|].
  by rewrite IH, Hget.
Qed.

Lemma StronglySorted_labels {V} (s : list (string * V)) :
  StronglySorted index_le s -> StronglySorted label_le (map fst s).
Proof. intros Hs. by apply (StronglySorted_fmap fst index_le label_le). Qed.

(** The finished panel of a column, field by field. *)
Lemma proportion_panel_fields (color_palette : option palette)
    (category : string) (column : list cell) :
  let ax := proportion_panel color_palette category column blank_axes in
  ax_plots ax = [proportions_request color_palette column]
  /\ ax_xticklabels ax = map fst (proportions column)
  /\ ax_patches ax = imap bar (proportions column)
  /\ ax_texts ax = map bar_annotation (ax_patches ax)
  /\ ax_ylim ax = Some (0, 100)%Q
  /\ ax_title ax = "Proportion of " +:+ category
  /\ ax_xtick_style ax = Some (45%Q, "right").
Proof.
  unfold proportion_panel. cbn zeta.
  set (a1 := draw (proportions_request color_palette column) blank_axes).
  cbn [ax_plots ax_xticklabels ax_patches ax_texts ax_ylim ax_title
       ax_xtick_style with_xtick_style with_xticklabels with_ylim
       with_ylabel with_xlabel with_title].
  rewrite annotated_texts.
  rewrite !(annotated_keeps _ (ax_patches a1) a1) by done.
  by repeat split.
Qed.



(** A hundred rows: 36 on Dream, 44 on Biscoe, 20 on Torgersen. *)
Definition islands : DataFrame :=
  {| df_columns := ["island"];
     df_rows := replicate 36 [Some "Dream"] ++ replicate 44 [Some "Biscoe"]
                ++ replicate 20 [Some "Torgersen"] |}.






(** ** C6 and C10: the histogram panels *)






(** With [kde] off the histogram has no line to recolour: [plot_histograms]
    stops at [ax[i].lines[0]] (line 45) of the first panel, before any
    reference line is drawn, and never returns normally. *)
Lemma plot_histograms_without_kde :
  run (plot_histograms accept_all penguins penguin_stats None (20, 5)%Q 50
         (11 # 20) "#0f7175ff" false)
  = (Raise (IndexError "list index out of range"),
     Some (alter_cell 0 0
             (draw (histogram_request penguins None 50 (11 # 20) "#0f7175ff"
                      false "bill_length_mm"))
             (with_grid [[blank_axes; blank_axes]]
                (new_figure (20, 5)%Q)))).
Proof. reflexivity. Qed.

Lemma plot_histograms_needs_kde
    (seaborn_check : plot_request -> option string) (df : DataFrame)
    (numerical_stats : StatsTable) (color_palette : option palette)
    (figsize : Q * Q) (bins : Z) (alpha : Q) (color : string) (fig : Figure) :
  run (plot_histograms seaborn_check df numerical_stats color_palette figsize
         bins alpha color false) <> (Ok tt, Some fig).
Proof.
  intros Hrun. apply plot_histograms_rendering in Hrun as (HN & _ & Hacc).
  destruct (stats_columns numerical_stats) as [|col cols];
    [simpl in HN; lia|].
  by destruct (Hacc 0%nat col eq_refl) as (_ & ? & _).
Qed.



(** ** C9: the species-filtered renderer *)









(** * Further properties of the renderers *)

(** ** Loops: splitting, visiting, stopping *)

Lemma for_enumerate_app {X} (xs ys : list X) (body : nat -> X -> M unit) :
  forall k s,
    for_enumerate k (xs ++ ys) body s
    = match for_enumerate k xs body s with
      | (Ok _, t) => for_enumerate (k + length xs) ys body t
      | (Raise e, t) => (Raise e, t)
      end.
Proof.
  induction xs as [|x xs IH]; intros k s; simpl.
  - by rewrite Nat.add_0_r.
  - unfold bind. destruct (body k x s) as [[[]|e] t]; [|done].
    rewrite IH. by rewrite Nat.add_succ_comm.
Qed.

(** A loop that completes has completed every one of its iterations. *)
Lemma for_enumerate_visits {X} (xs : list X) (body : nat -> X -> M unit) :
  forall k s s',
    for_enumerate k xs body s = (Ok tt, s') ->
    forall i x, xs !! i = Some x ->
      exists t t', body (k + i)%nat x t = (Ok tt, t').
Proof.
  induction xs as [|x xs IH]; intros k s s' Hrun i y Hy; [done|].
  simpl in Hrun. unfold bind in Hrun.
  destruct (body k x s) as [[[]|e] t] eqn:Ebody; [|done].
  destruct i as [|i].
  - injection Hy as <-. exists s, t. by rewrite Nat.add_0_r.
  - rewrite <- Nat.add_succ_comm. by eapply IH.
Qed.

Lemma for_enumerate_ext {X} (xs : list X) (body body' : nat -> X -> M unit) :
  forall k s,
    (forall i x t, xs !! i = Some x ->
       body (k + i)%nat x t = body' (k + i)%nat x t) ->
    for_enumerate k xs body s = for_enumerate k xs body' s.
Proof.
  induction xs as [|x xs IH]; intros k s Hext; [done|].
  simpl. unfold bind.
  pose proof (Hext 0%nat x s eq_refl) as H0. rewrite Nat.add_0_r in H0.
  rewrite H0. destruct (body' k x s) as [[[]|e] t]; [|done].
  apply IH. intros i y u Hy. specialize (Hext (S i) y u Hy).
  by rewrite <- !Nat.add_succ_comm in Hext.
Qed.

(** An invariant for the iterations that complete, and a description of the
    exception and of the figure for the one that does not. *)
Lemma for_enumerate_outcome {X} (I : nat -> option Figure -> Prop)
    (E : exn -> option Figure -> Prop) (xs : list X)
    (body : nat -> X -> M unit) :
  forall k s r s',
    I k s ->
    (forall i x t q t', xs !! i = Some x -> I (k + i)%nat t ->
       body (k + i)%nat x t = (q, t') ->
       match q with
       | Ok _ => I (S (k + i)) t'
       | Raise e => E e t'
       end) ->
    for_enumerate k xs body s = (r, s') ->
    match r with
    | Ok _ => I (k + length xs)%nat s'
    | Raise e => E e s'
    end.
Proof.
  induction xs as [|x xs IH]; intros k s r s' HI Hstep Hrun; simpl in *.
  - injection Hrun as <- <-. by rewrite Nat.add_0_r.
  - unfold bind in Hrun.
    pose proof (Hstep 0%nat x s) as Hfirst. rewrite Nat.add_0_r in Hfirst.
    destruct (body k x s) as [[[]|e] t] eqn:Ebody.
    + rewrite <- Nat.add_succ_comm. apply (IH (S k) t r s'); [| |done].
      * exact (Hfirst (Ok tt) t eq_refl HI eq_refl).
      * intros i y u q u' Hy HIu Hbody.
        specialize (Hstep (S i) y u q u' Hy).
        rewrite <- !Nat.add_succ_comm in Hstep. by apply Hstep.
    + injection Hrun as <- <-. exact (Hfirst (Raise e) t eq_refl HI eq_refl).
Qed.

Section RowLoopAny.
Variable cols : list string.
Variable cell : nat -> string -> M unit.
Variable panel : nat -> string -> Axes -> Axes.
Variable accept : nat -> string -> Prop.
Variable reject : nat -> string -> exn -> Prop.

(** However the loop over a fresh row ends, the finished panels are the
    first ones: all of them when it completes, those before the column that
    raised when it does not. *)
Lemma row_loop_any (s : option Figure) (r : result unit)
    (s' : option Figure) :
  (forall j y fig q t', cols !! j = Some y ->
     cell_at fig 0 j = Some blank_axes ->
     cell j y (Some fig) = (q, t') ->
     match q with
     | Ok _ => accept j y /\ t' = Some (alter_cell 0 j (panel j y) fig)
     | Raise e => reject j y e /\ t' = Some fig
     end) ->
  rendered 1 (length cols) (row_cellf cols panel) 0 s ->
  for_enumerate 0 cols cell s = (r, s') ->
  exists n,
    rendered 1 (length cols) (row_cellf cols panel) n s'
    /\ (forall j y, (j < n)%nat -> cols !! j = Some y -> accept j y)
    /\ match r with
       | Ok _ => n = length cols
       | Raise e => exists y, cols !! n = Some y /\ reject n y e
       end.
Proof.
  intros Hcell Hstart Hrun.
  set (N := length cols) in *. set (cf := row_cellf cols panel) in *.
  pose (I := fun n t =>
               rendered 1 N cf n t
               /\ forall j y, (j < n)%nat -> cols !! j = Some y -> accept j y).
  pose proof (for_enumerate_outcome I
                (fun e t => exists n y, I n t /\ cols !! n = Some y
                                        /\ reject n y e)
                cols cell 0 s r s') as Hany.
  cbn [Nat.add] in Hany.
  assert (match r with
          | Ok _ => I N s'
          | Raise e => exists n y, I n s' /\ cols !! n = Some y
                                   /\ reject n y e
          end) as Hend.
  { apply Hany; [split; [done|lia]| |done].
    intros i x t q t' Hx [Ht Hacc] Hbody.
    pose proof (lookup_lt_Some _ _ _ Hx) as Hi. fold N in Hi.
    pose proof Ht as (fig & -> & _).
    assert (cell_at fig 0 i = Some blank_axes) as Hblank.
    { apply (rendered_blank 1 N cf 0 i); [done|lia|done]. }
    specialize (Hcell i x fig q t' Hx Hblank Hbody).
    destruct q as [[]|e]; destruct Hcell as [Hq ->].
    - split.
      + apply (rendered_step 1 N cf 0 i); [done|lia|done|].
        unfold cf, row_cellf. by rewrite Hx.
      + intros j y Hj Hy. destruct (decide (j = i)) as [->|Hne].
        * rewrite Hx in Hy. by injection Hy as <-.
        * apply Hacc; [lia|done].
    - exists i, x. by repeat split. }
  destruct r as [[]|e].
  - destruct Hend as [Hr Hacc]. by exists N.
  - destruct Hend as (n & y & [Hr Hacc] & Hy & Hrej). exists n.
    split; [done|]. split; [done|]. by exists y.
Qed.

(** A loop over a fresh row whose first columns succeed and whose next one
    fails stops there: the first panels are finished, the failing one is as
    its iteration left it, the others are blank. *)
Lemma row_loop_stops (pre post : list string) (y : string) (e : exn)
    (F : Axes -> Axes) (fig0 : Figure) :
  cols = pre ++ y :: post ->
  (forall j x fig, pre !! j = Some x ->
     cell_at fig 0 j = Some blank_axes ->
     cell j x (Some fig) = (Ok tt, Some (alter_cell 0 j (panel j x) fig))) ->
  (forall fig, cell_at fig 0 (length pre) = Some blank_axes ->
     cell (length pre) y (Some fig)
     = (Raise e, Some (alter_cell 0 (length pre) F fig))) ->
  exists fig,
    for_enumerate 0 cols cell (blank_grid 1 (length cols) fig0)
    = (Raise e, Some (alter_cell 0 (length pre) F fig))
    /\ rendered 1 (length cols) (row_cellf cols panel) (length pre)
         (Some fig).
Proof.
  intros Hcols Hpre Hfail.
  set (N := length cols). set (cf := row_cellf cols panel).
  assert (length pre < N)%nat as Hk.
  { unfold N. rewrite Hcols, length_app. simpl. lia. }
  destruct (for_enumerate_total (fun j => rendered 1 N cf j) pre cell 0
              (blank_grid 1 N fig0)) as (s1 & Hrun1 & Hs1).
  { apply rendered_start. }
  { intros i x t Hx Ht. cbn [Nat.add] in *.
    pose proof (lookup_lt_Some _ _ _ Hx) as Hi.
    destruct Ht as (fig & -> & Hfig).
    assert (rendered 1 N cf i (Some fig)) as Hr by (by eexists).
    eexists. split.
    - apply Hpre; [done|].
      apply (rendered_blank 1 N cf 0 i); [done|lia|lia].
    - apply (rendered_step 1 N cf 0 i); [done|lia|lia|].
      unfold cf, row_cellf. rewrite Hcols.
      by rewrite lookup_app_l, Hx by done. }
  cbn [Nat.add] in Hs1. pose proof Hs1 as (fig & -> & _).
  exists fig. split; [|done].
  fold N. rewrite Hcols at 1. rewrite for_enumerate_app, Hrun1.
  cbn [Nat.add for_enumerate]. unfold bind.
  rewrite Hfail; [done|].
  apply (rendered_blank 1 N cf 0 (length pre)); [done|lia|lia].
Qed.

(** The panels of a row that stopped at column [k]. *)
Lemma stopped_row_cell (k j : nat) (F : Axes -> Axes) (fig : Figure) :
  rendered 1 (length cols) (row_cellf cols panel) k (Some fig) ->
  (k < length cols)%nat -> (j < length cols)%nat ->
  cell_at (alter_cell 0 k F fig) 0 j
  = Some (if decide (j < k)%nat then row_cellf cols panel 0 j
          else if decide (j = k) then F blank_axes else blank_axes).
Proof.
  intros Hfig Hk Hj. pose proof Hfig as (fig' & [= <-] & _ & Hcells).
  destruct (decide (j = k)) as [->|Hne].
  - rewrite cell_at_alter_cell_eq, (Hcells 0%nat k) by lia.
    cbn [Nat.mul Nat.add].
    destruct (decide (k < k)%nat); [lia|]. simpl.
    by destruct (decide (k = k)).
  - rewrite cell_at_alter_cell_ne by congruence.
    rewrite (Hcells 0%nat j) by lia. cbn [Nat.mul Nat.add].
    destruct (decide (j < k)%nat); [done|].
    by destruct (decide (j = k)).
Qed.

End RowLoopAny.

(** ** [plot_category_count] *)

Section CategoryCountOutcome.
Variable seaborn_check : plot_request -> option string.
Variables (df : DataFrame) (color_palette : option palette) (alpha : Q).
Variable cols : list string.

Local Abbreviation count_accepted :=
  (fun (_ : nat) category =>
     seaborn_check (CountPlot category df color_palette alpha) = None).
Local Abbreviation count_rejected :=
  (fun (_ : nat) category e =>
     exists msg,
       seaborn_check (CountPlot category df color_palette alpha) = Some msg
       /\ e = ChartingError msg).

(** With a single column the first [axs[i]] fails, whatever the state. *)
Lemma count_cell_single (i : nat) (category : string) (s : option Figure) :
  count_cell seaborn_check df color_palette alpha (squeeze 1 1) i category s
  = (Raise not_subscriptable, s).
Proof. done. Qed.

Lemma count_loop_outcome (fig0 : Figure) (r : result unit)
    (s' : option Figure) :
  (2 <= length cols)%nat ->
  for_enumerate 0 cols
    (count_cell seaborn_check df color_palette alpha (squeeze 1 (length cols)))
    (blank_grid 1 (length cols) fig0) = (r, s') ->
  exists n,
    rendered 1 (length cols) (count_cellf df color_palette alpha cols) n s'
    /\ (forall j y, (j < n)%nat -> cols !! j = Some y -> count_accepted j y)
    /\ match r with
       | Ok _ => n = length cols
       | Raise e => exists y, cols !! n = Some y /\ count_rejected n y e
       end.
Proof.
  intros HN Hrun.
  eapply (row_loop_any cols _ (fun _ => count_panel df color_palette alpha)
            count_accepted count_rejected);
    [|apply rendered_start|exact Hrun].
  intros j y fig q t' Hy _.
  rewrite (count_cell_run _ _ _ _ _ (length cols))
    by (by apply squeeze_indexes_row || by eapply lookup_lt_Some).
  unfold count_request.
  destruct (seaborn_check _) as [msg|]; intros [= <- <-]; [|done].
  split; [by exists msg|done].
Qed.

End CategoryCountOutcome.

(** X1: [plot_category_count] on two or more columns draws the panels from
    left to right, each a count plot of its column, titled "<column> Count"
    and labelled with the column and "Count", up to the first column the
    charting layer rejects: there it raises that layer's error and leaves the
    remaining panels blank.  It completes when no column is rejected. *)
Theorem category_count_outcome
    (seaborn_check : plot_request -> option string) (df : DataFrame)
    (category_columns : list string) (color_palette : option palette)
    (figsize : Q * Q) (alpha : Q) (r : result unit) (s : option Figure) :
  (2 <= length category_columns)%nat ->
  run (plot_category_count seaborn_check df category_columns color_palette
         figsize alpha) = (r, s) ->
  exists n fig,
    s = Some fig
    /\ (forall j category, category_columns !! j = Some category ->
          exists ax,
            cell_at fig 0 j = Some ax
            /\ if decide (j < n)%nat
               then ax_plots ax = [CountPlot category df color_palette alpha]
                    /\ ax_title ax = category +:+ " Count"
                    /\ label_text (ax_xlabel ax) = category
                    /\ label_text (ax_ylabel ax) = "Count"
                    /\ seaborn_check
                         (CountPlot category df color_palette alpha) = None
               else ax = blank_axes)
    /\ match r with
       | Ok _ => n = length category_columns
       | Raise e =>
           exists category msg,
             category_columns !! n = Some category
             /\ seaborn_check (CountPlot category df color_palette alpha)
                = Some msg
             /\ e = ChartingError msg
       end.
Proof.
  intros HN. rewrite plot_category_count_unfold. unfold run.
  rewrite subplots_run by lia. intros Hrun.
  apply count_loop_outcome in Hrun as (n & Hfig & Hacc & Hend); [|done].
  pose proof Hfig as (fig & -> & _ & Hcells).
  exists n, fig. split; [done|]. split.
  - intros j category Hj. pose proof (lookup_lt_Some _ _ _ Hj) as Hlt.
    eexists. split; [apply (Hcells 0%nat j); lia|].
    cbn [Nat.mul Nat.add]. destruct (decide (j < n)%nat) as [Hjn|Hjn]; [|done].
    unfold count_cellf, row_cellf. rewrite Hj.
    repeat split. by apply (Hacc j).
  - destruct r as [[]|e]; [done|].
    destruct Hend as (y & Hy & msg & Hmsg & ->). by exists y, msg.
Qed.

Lemma category_count_outcome_witness :
  exists fig ax,
    run (plot_category_count
           (fun req => match req with
                       | CountPlot "sex" _ _ _ => Some "rejected"
                       | _ => None
                       end)
           penguins ["species"; "sex"; "island"] None (20, 5)%Q (3 # 5))
    = (Raise (ChartingError "rejected"), Some fig)
    /\ cell_at fig 0 0 = Some ax
    /\ ax_title ax = "species Count"
    /\ cell_at fig 0 1 = Some blank_axes
    /\ cell_at fig 0 2 = Some blank_axes.
Proof.
  eexists _, _. split; [reflexivity|]. split; [reflexivity|].
  destruct (category_count_outcome
              (fun req => match req with
                          | CountPlot "sex" _ _ _ => Some "rejected"
                          | _ => None
                          end)
              penguins ["species"; "sex"; "island"] None (20, 5)%Q (3 # 5)
              _ _ ltac:(simpl; lia) eq_refl)
    as (n & fig & [= <-] & Hcells & _).
  by repeat split.
Defined.

(** X2: [plot_category_count] returns normally exactly when it is given two or
    more columns and the charting layer accepts the count plot of every one of
    them. *)
Theorem category_count_completes_iff
    (seaborn_check : plot_request -> option string) (df : DataFrame)
    (category_columns : list string) (color_palette : option palette)
    (figsize : Q * Q) (alpha : Q) :
  (exists s,
     run (plot_category_count seaborn_check df category_columns color_palette
            figsize alpha) = (Ok tt, s))
  <-> (2 <= length category_columns)%nat
      /\ forall category, category ∈ category_columns ->
           seaborn_check (CountPlot category df color_palette alpha) = None.
Proof.
  split.
  - intros [s Hrun]. rewrite plot_category_count_unfold in Hrun.
    unfold run in Hrun. apply subplots_ok in Hrun as (_ & HN & Hrun).
    assert (2 <= length category_columns)%nat as HN2.
    { destruct category_columns as [|c [|c' cols]];
        [done| |simpl; lia].
      simpl in Hrun. unfold bind in Hrun.
      by rewrite count_cell_single in Hrun. }
    split; [done|].
    apply count_loop_outcome in Hrun as (n & _ & Hacc & ->); [|done].
    intros category Hin. apply list_elem_of_lookup in Hin as [j Hj].
    apply (Hacc j); [by eapply lookup_lt_Some|done].
  - intros [HN Hacc].
    destruct (plot_category_count_runs seaborn_check df color_palette alpha
                category_columns figsize HN Hacc) as (fig & Hrun & _).
    by eexists.
Qed.

(** ** [plot_category_proportions] *)


Section CategoryProportionsOutcome.
Variable seaborn_check : plot_request -> option string.
Variables (df : DataFrame) (color_palette : option palette).
Variable cols : list string.

(** What it takes for the panel of a column to be drawn: the table has the
    column and the charting layer accepts its percentages. *)
Definition proportions_accepted (category : string) : Prop :=
  exists column,
    df_getitem df category = Ok column
    /\ seaborn_check
         (BarPlot (proportions column) "category" "proportion" color_palette)
       = None.

(** The two ways in which the iteration of a column fails. *)
Definition proportions_rejected (category : string) (e : exn) : Prop :=
  (index_of category (df_columns df) = None /\ e = KeyError category)
  \/ exists column msg,
       df_getitem df category = Ok column
       /\ seaborn_check
            (BarPlot (proportions column) "category" "proportion"
               color_palette) = Some msg
       /\ e = ChartingError msg.

Lemma proportions_loop_outcome (fig0 : Figure) (r : result unit)
    (s' : option Figure) :
  (1 <= length cols)%nat ->
  for_enumerate 0 cols
    (proportions_cell seaborn_check df color_palette
       (if (length cols =? 1)%nat then PyList [squeeze 1 (length cols)]
        else squeeze 1 (length cols)))
    (blank_grid 1 (length cols) fig0) = (r, s') ->
  exists n,
    rendered 1 (length cols) (proportions_cellf df color_palette cols) n s'
    /\ (forall j y, (j < n)%nat -> cols !! j = Some y ->
          proportions_accepted y)
    /\ match r with
       | Ok _ => n = length cols
       | Raise e => exists y, cols !! n = Some y /\ proportions_rejected y e
       end.
Proof.
  intros HN Hrun.
  eapply (row_loop_any cols _ (proportions_panel_of df color_palette)
            (fun _ => proportions_accepted)
            (fun _ => proportions_rejected));
    [|apply rendered_start|exact Hrun].
  intros j y fig q t' Hy Hblank.
  rewrite (proportions_cell_run _ _ _ _ (length cols) j y fig blank_axes)
    by (by apply wrapped_indexes_row || by eapply lookup_lt_Some || done).
  unfold proportions_panel_of, proportions_accepted, proportions_rejected,
    proportions_request, df_getitem.
  destruct (index_of y (df_columns df)) as [p|] eqn:Hp.
  - destruct (seaborn_check _) as [msg|] eqn:Hc; intros [= <- <-].
    + split; [|done]. right. by eexists _, msg.
    + split; [|done]. by eexists.
  - intros [= <- <-]. split; [|done]. by left.
Qed.

End CategoryProportionsOutcome.

(** X3: [plot_category_proportions] on one or more columns draws the panels
    from left to right and stops at the first column that the table does not
    have, with [KeyError], or whose percentages the charting layer rejects,
    with that layer's error; the panels of the columns before it are finished
    and the remaining ones are blank.  It completes when there is no such
    column. *)
Theorem category_proportions_outcome
    (seaborn_check : plot_request -> option string) (df : DataFrame)
    (category_columns : list string) (color_palette : option palette)
    (figsize : Q * Q) (r : result unit) (s : option Figure) :
  (1 <= length category_columns)%nat ->
  run (plot_category_proportions seaborn_check df category_columns
         color_palette figsize) = (r, s) ->
  exists n fig,
    s = Some fig
    /\ (forall j category, category_columns !! j = Some category ->
          exists ax,
            cell_at fig 0 j = Some ax
            /\ if decide (j < n)%nat
               then exists column,
                      df_getitem df category = Ok column
                      /\ seaborn_check
                           (BarPlot (proportions column) "category"
                              "proportion" color_palette) = None
                      /\ ax_plots ax
                         = [BarPlot (proportions column) "category"
                              "proportion" color_palette]
               else ax = blank_axes)
    /\ match r with
       | Ok _ => n = length category_columns
       | Raise e =>
           exists category,
             category_columns !! n = Some category
             /\ ((index_of category (df_columns df) = None
                  /\ e = KeyError category)
                 \/ exists column msg,
                      df_getitem df category = Ok column
                      /\ seaborn_check
                           (BarPlot (proportions column) "category"
                              "proportion" color_palette) = Some msg
                      /\ e = ChartingError msg)
       end.
Proof.
  intros HN. rewrite plot_category_proportions_unfold. unfold run.
  rewrite subplots_run by lia. intros Hrun.
  apply proportions_loop_outcome in Hrun as (n & Hfig & Hacc & Hend);
    [|done].
  pose proof Hfig as (fig & -> & _ & Hcells).
  exists n, fig. split; [done|]. split; [|done].
  intros j category Hj. pose proof (lookup_lt_Some _ _ _ Hj) as Hlt.
  eexists. split; [apply (Hcells 0%nat j); lia|].
  cbn [Nat.mul Nat.add]. destruct (decide (j < n)%nat) as [Hjn|Hjn]; [|done].
  destruct (Hacc j category Hjn Hj) as (column & Hcol & Hc).
  exists column. split; [done|]. split; [done|].
  unfold proportions_cellf, row_cellf. rewrite Hj.
  unfold proportions_panel_of. rewrite Hcol.
  by destruct (proportion_panel_fields color_palette category column)
    as (-> & _).
Qed.

Lemma category_proportions_outcome_witness :
  exists fig ax,
    run (plot_category_proportions accept_all penguins
           ["island"; "colour"; "sex"] None (10, 5)%Q)
    = (Raise (KeyError "colour"), Some fig)
    /\ cell_at fig 0 0 = Some ax
    /\ ax_xticklabels ax = ["Biscoe"; "Dream"; "Torgersen"]
    /\ cell_at fig 0 1 = Some blank_axes
    /\ cell_at fig 0 2 = Some blank_axes.
Proof.
  eexists _, _. split; [vm_compute; reflexivity|]. split; [reflexivity|].
  destruct (category_proportions_outcome accept_all penguins
              ["island"; "colour"; "sex"] None (10, 5)%Q _ _
              ltac:(simpl; lia) ltac:(vm_compute; reflexivity))
    as (n & fig & [= <-] & _ & _).
  by repeat split.
Defined.



(** X5: [plot_category_proportions] returns normally exactly when it is given
    at least one column, the table has every column it is given, and the
    charting layer accepts the percentages of each. *)
Theorem category_proportions_completes_iff
    (seaborn_check : plot_request -> option string) (df : DataFrame)
    (category_columns : list string) (color_palette : option palette)
    (figsize : Q * Q) :
  (exists s,
     run (plot_category_proportions seaborn_check df category_columns
            color_palette figsize) = (Ok tt, s))
  <-> (1 <= length category_columns)%nat
      /\ forall category, category ∈ category_columns ->
           exists column,
             df_getitem df category = Ok column
             /\ seaborn_check
                  (BarPlot (proportions column) "category" "proportion"
                     color_palette) = None.
Proof.
  split.
  - intros [s Hrun]. rewrite plot_category_proportions_unfold in Hrun.
    unfold run in Hrun. apply subplots_ok in Hrun as (_ & HN & Hrun).
    split; [lia|].
    apply proportions_loop_outcome in Hrun as (n & _ & Hacc & ->); [|lia].
    intros category Hin. apply list_elem_of_lookup in Hin as [j Hj].
    apply (Hacc j); [by eapply lookup_lt_Some|done].
  - intros [HN Hacc].
    destruct (plot_category_proportions_runs seaborn_check df color_palette
                category_columns figsize HN Hacc) as (fig & Hrun).
    by eexists.
Qed.

(** ** [plot_histograms] *)

Lemma index_of_None (name : string) (names : list string) :
  index_of name names = None <-> name ∉ names.
Proof.
  induction names as [|n names IH]; simpl.
  - split; [intros _; apply not_elem_of_nil|done].
  - rewrite not_elem_of_cons. destruct (String.eqb_spec n name) as [->|Hne].
    + split; [done|]. by intros [? _].
    + destruct (index_of name names); split; try done.
      * intros [_ Hnot]. by apply IH in Hnot.
      * intros _. split; [done|]. by apply IH.
Qed.


Section HistogramsFirstPanel.
Variable seaborn_check : plot_request -> option string.
Variables (df : DataFrame) (numerical_stats : StatsTable).
Variables (color_palette : option palette) (figsize : Q * Q) (bins : Z).
Variables (alpha : Q) (color : string) (kde : bool).

(** The call on a table of two or more columns, up to the end of its first
    iteration. *)
Lemma plot_histograms_first (col : string) (rest : list string) :
  stats_columns numerical_stats = col :: rest -> rest <> [] ->
  run (plot_histograms seaborn_check df numerical_stats color_palette figsize
         bins alpha color kde)
  = match histograms_cell_outcome seaborn_check df numerical_stats
            color_palette bins alpha color kde 0 col
            (with_grid [replicate (length (col :: rest)) blank_axes]
               (new_figure figsize)) with
    | (Ok _, t) =>
        for_enumerate 1 rest
          (histograms_cell seaborn_check df numerical_stats color_palette
             bins alpha color kde (squeeze 1 (length (col :: rest)))) t
    | (Raise e, t) => (Raise e, t)
    end.
Proof.
  intros Hcols Hrest. rewrite plot_histograms_unfold. unfold run.
  rewrite Hcols. rewrite subplots_run by done.
  change (blank_grid 1 (length (col :: rest)) (new_figure figsize))
    with (Some (with_grid [replicate (length (col :: rest)) blank_axes]
                  (new_figure figsize))).
  cbn [for_enumerate]. unfold bind at 1.
  rewrite (histograms_cell_run _ _ _ _ _ _ _ _ _ (length (col :: rest)));
    [done| | |].
  - apply squeeze_indexes_row. destruct rest; [done|simpl; lia].
  - simpl; lia.
  - apply (cell_at_blank 1); simpl; lia.
Qed.

End HistogramsFirstPanel.

(** X11: With [kde=False] the histogram has no line to recolour: on a table of
    two or more columns whose first histogram the charting layer accepts,
    [plot_histograms] raises [IndexError] at [ax[i].lines[0]] of the first
    panel.  That panel holds its histogram and nothing else, the other panels
    are blank, and no panel has a line or a legend. *)
Theorem histograms_without_density_curve
    (seaborn_check : plot_request -> option string) (df : DataFrame)
    (numerical_stats : StatsTable) (color_palette : option palette)
    (figsize : Q * Q) (bins : Z) (alpha : Q) (color : string)
    (col : string) (rest : list string) :
  stats_columns numerical_stats = col :: rest -> rest <> [] ->
  seaborn_check
    (HistPlot {| h_data := df; h_x := col; h_hue := None; h_bins := bins;
                 h_multiple := None; h_palette := color_palette;
                 h_alpha := Some alpha; h_color := Some color;
                 h_kde := false |}) = None ->
  exists fig ax,
    run (plot_histograms seaborn_check df numerical_stats color_palette
           figsize bins alpha color false)
    = (Raise (IndexError "list index out of range"), Some fig)
    /\ cell_at fig 0 0 = Some ax
    /\ ax_plots ax
       = [HistPlot {| h_data := df; h_x := col; h_hue := None;
                      h_bins := bins; h_multiple := None;
                      h_palette := color_palette; h_alpha := Some alpha;
                      h_color := Some color; h_kde := false |}]
    /\ (forall j, (0 < j < length (col :: rest))%nat ->
          cell_at fig 0 j = Some blank_axes)
    /\ (forall i j a, cell_at fig i j = Some a ->
          ax_lines a = [] /\ ax_legend a = None).
Proof.
  intros Hcols Hrest Hcheck.
  rewrite (plot_histograms_first _ _ _ _ _ _ _ _ _ col rest Hcols Hrest).
  unfold histograms_cell_outcome, histogram_request. rewrite Hcheck.
  set (fig0 := with_grid [replicate (length (col :: rest)) blank_axes]
                 (new_figure figsize)).
  assert (forall j, (j < length (col :: rest))%nat ->
            cell_at fig0 0 j = Some blank_axes) as Hblank.
  { intros j Hj. apply (cell_at_blank 1); [lia|done]. }
  eexists _, _. split; [done|]. split.
  { rewrite cell_at_alter_cell_eq, Hblank by (simpl; lia). done. }
  split; [done|]. split.
  - intros j Hj. rewrite cell_at_alter_cell_ne by (intros [= <-]; lia).
    apply Hblank. lia.
  - intros i j a Ha.
    destruct (decide ((0%nat, 0%nat) = (i, j))) as [[= <- <-]|Hne].
    + rewrite cell_at_alter_cell_eq, Hblank in Ha by (simpl; lia).
      by injection Ha as <-.
    + rewrite cell_at_alter_cell_ne in Ha by done.
      assert (grid_shape 1 (length (col :: rest)) fig0) as Hshape
        by apply grid_shape_blank.
      destruct (grid_shape_cell _ _ _ _ _ _ Hshape Ha) as [Hi Hj].
      assert (i = 0%nat) as -> by lia.
      rewrite Hblank in Ha by done. by injection Ha as <-.
Qed.

Lemma histograms_without_density_curve_witness :
  exists fig ax,
    run (plot_histograms accept_all penguins penguin_stats None (20, 5)%Q 50
           (11 # 20) "#0f7175ff" false)
    = (Raise (IndexError "list index out of range"), Some fig)
    /\ cell_at fig 0 0 = Some ax
    /\ map plot_x (ax_plots ax) = ["bill_length_mm"]
    /\ ax_lines ax = [].
Proof.
  destruct (histograms_without_density_curve accept_all penguins
              penguin_stats None (20, 5)%Q 50 (11 # 20) "#0f7175ff"
              "bill_length_mm" ["body_mass_g"] eq_refl
              ltac:(discriminate) eq_refl)
    as (fig & ax & Hrun & Hax & Hplots & _ & Hlines).
  exists fig, ax. split; [exact Hrun|]. split; [exact Hax|].
  split; [by rewrite Hplots|]. by destruct (Hlines 0%nat 0%nat ax Hax).
Defined.







(** X14: In a call of [plot_histograms] that returns normally, the histogram
    of a panel is requested with the caller's data, bins, opacity, colour,
    palette and [kde], without grouping; the density curve is the first line
    of the panel and has been recoloured "#4c36f5", whatever colour was asked
    for the bars; the lines after it are the three reference lines. *)
Theorem histogram_request_and_curve
    (seaborn_check : plot_request -> option string) (df : DataFrame)
    (numerical_stats : StatsTable) (color_palette : option palette)
    (figsize : Q * Q) (bins : Z) (alpha : Q) (color : string) (kde : bool)
    (fig : Figure) (j : nat) (col : string) (ax : Axes) :
  run (plot_histograms seaborn_check df numerical_stats color_palette figsize
         bins alpha color kde) = (Ok tt, Some fig) ->
  stats_columns numerical_stats !! j = Some col ->
  cell_at fig 0 j = Some ax ->
  ax_plots ax
  = [HistPlot {| h_data := df; h_x := col; h_hue := None; h_bins := bins;
                 h_multiple := None; h_palette := color_palette;
                 h_alpha := Some alpha; h_color := Some color;
                 h_kde := true |}]
  /\ exists curve,
       ax_lines ax
       = curve :: [reference_line (stats_value numerical_stats "25%" col)
                     "#f26a02" "Q1";
                   reference_line (stats_value numerical_stats "75%" col)
                     "#bd00b0" "Q3";
                   reference_line (stats_value numerical_stats "mean" col)
                     "#f75c6b" "Mean"]
       /\ line_x curve = None
       /\ line_color curve = Some "#4c36f5"
       /\ line_label curve = None.
Proof.
  intros Hrun Hj Hax.
  apply plot_histograms_rendering in Hrun as (_ & Hfig & Hacc).
  destruct (Hacc j col Hj) as (_ & -> & _).
  pose proof Hfig as (fig' & [= <-] & _ & Hcells).
  pose proof (lookup_lt_Some _ _ _ Hj) as Hlt.
  rewrite (Hcells 0%nat j) in Hax by lia.
  cbn [Nat.mul Nat.add] in Hax. rewrite decide_True in Hax by lia.
  injection Hax as <-.
  unfold histograms_cellf, row_cellf. rewrite Hj.
  split; [done|]. by eexists.
Qed.

Lemma histogram_request_and_curve_witness :
  exists fig ax curve,
    run (plot_histograms accept_all penguins penguin_stats None (20, 5)%Q 50
           (11 # 20) "#0f7175ff" true) = (Ok tt, Some fig)
    /\ cell_at fig 0 1 = Some ax
    /\ ax_lines ax !! 0%nat = Some curve
    /\ line_color curve = Some "#4c36f5".
Proof.
  eexists _, _, _. split; [vm_compute; reflexivity|].
  split; [reflexivity|].
  destruct (histogram_request_and_curve accept_all penguins penguin_stats
              None (20, 5)%Q 50 (11 # 20) "#0f7175ff" true _ 1 "body_mass_g"
              _ ltac:(vm_compute; reflexivity) eq_refl eq_refl)
    as (_ & curve & Hlines & _ & Hcolor & _).
  injection Hlines as <-. by split.
Defined.

(** ** The grid renderers *)

Section GridLoopsOutcome.
Variables (rows cols : list string).
Variable cell : nat -> string -> nat -> string -> M unit.
Variable panel : nat -> string -> nat -> string -> Axes -> Axes.
Variable accept : nat -> string -> nat -> string -> Prop.
Variable reject : nat -> string -> nat -> string -> exn -> Prop.

Let R := length rows.
Let C := length cols.

(** The first [n] panels in row-major order are finished and their
    iterations were accepted; the others are blank. *)
Definition drawn_upto (n : nat) (t : option Figure) : Prop :=
  rendered R C (grid_cellf rows cols panel) n t
  /\ forall i x j y, (i * C + j < n)%nat ->
       rows !! i = Some x -> cols !! j = Some y -> accept i x j y.

(** The loops stopped at the panel in row [i] and column [j]. *)
Definition stopped_at (e : exn) (t : option Figure) : Prop :=
  exists i x j y,
    drawn_upto (i * C + j) t
    /\ rows !! i = Some x /\ cols !! j = Some y /\ reject i x j y e.

Lemma grid_loops_outcome (s : option Figure) (r : result unit)
    (s' : option Figure) :
  (forall i x j y fig q t', rows !! i = Some x -> cols !! j = Some y ->
     cell_at fig i j = Some blank_axes ->
     cell i x j y (Some fig) = (q, t') ->
     match q with
     | Ok _ =>
         accept i x j y /\ t' = Some (alter_cell i j (panel i x j y) fig)
     | Raise e => reject i x j y e /\ t' = Some fig
     end) ->
  rendered R C (grid_cellf rows cols panel) 0 s ->
  grid_loops rows cols cell s = (r, s') ->
  match r with
  | Ok _ => drawn_upto (R * C) s'
  | Raise e => stopped_at e s'
  end.
Proof.
  intros Hcell Hstart Hrun.
  set (cf := grid_cellf rows cols panel) in *.
  assert (forall i x t q t', rows !! i = Some x ->
            drawn_upto ((0 + i) * C) t ->
            for_enumerate 0 cols (cell (0 + i) x) t = (q, t') ->
            match q with
            | Ok _ => drawn_upto (S (0 + i) * C) t'
            | Raise e => stopped_at e t'
            end) as Hrow.
  { intros i x t q t' Hx Ht Hrow. cbn [Nat.add] in Hrow, Ht |- *.
    assert (forall j y u q' u', cols !! j = Some y ->
              drawn_upto (0 + j + i * C) u ->
              cell i x (0 + j) y u = (q', u') ->
              match q' with
              | Ok _ => drawn_upto (S (0 + j) + i * C) u'
              | Raise e => stopped_at e u'
              end) as Hstep.
    { intros j y u q' u' Hy Hu Hbody. cbn [Nat.add] in Hbody, Hu |- *.
      replace (j + i * C)%nat with (i * C + j)%nat in Hu by lia.
      pose proof (lookup_lt_Some _ _ _ Hx) as Hi.
      pose proof (lookup_lt_Some _ _ _ Hy) as Hj.
      pose proof Hu as [(fig & -> & Hfig) Hacc].
      assert (rendered R C cf (i * C + j) (Some fig)) as Hr by (by eexists).
      assert (cell_at fig i j = Some blank_axes) as Hblank
        by (by apply (rendered_blank R C cf)).
      apply (Hcell i x j y fig q' u' Hx Hy Hblank) in Hbody.
      destruct q' as [[]|e]; destruct Hbody as [Hq ->].
      - replace (S (j + i * C)) with (S (i * C + j)) by lia. split.
        + apply (rendered_step R C cf i j fig);
            [exact Hr|exact Hi|exact Hj|].
          unfold cf, grid_cellf. by rewrite Hx, Hy.
        + intros i' x' j' y' Hlt Hx' Hy'.
          destruct (decide (i' * C + j' < i * C + j)%nat) as [Hold|Hnew];
            [by apply (Hacc i' x' j' y')|].
          pose proof (lookup_lt_Some _ _ _ Hy') as Hj'. fold C in Hj, Hj'.
          assert (i' = i) as ->.
          { destruct (lt_eq_lt_dec i' i) as [[Hlt'|Heq]|Hgt];
              [exfalso|done|exfalso].
            - pose proof (Nat.mul_le_mono_r (S i') i C Hlt') as Hm.
              rewrite Nat.mul_succ_l in Hm. lia.
            - pose proof (Nat.mul_le_mono_r (S i) i' C Hgt) as Hm.
              rewrite Nat.mul_succ_l in Hm. lia. }
          assert (j' = j) as -> by lia.
          rewrite Hx in Hx'. rewrite Hy in Hy'.
          injection Hx' as <-. by injection Hy' as <-.
      - by exists i, x, j, y. }
    pose proof (for_enumerate_outcome (fun j => drawn_upto (j + i * C))
                  stopped_at cols (cell i x) 0 t q t' Ht Hstep Hrow) as Hend.
    destruct q; [|done].
    by replace (S i * C)%nat with (0 + length cols + i * C)%nat
      by (fold C; lia). }
  pose proof (for_enumerate_outcome (fun i => drawn_upto (i * C))
                stopped_at rows
                (fun i x => for_enumerate 0 cols (cell i x)) 0 s r s'
                ltac:(split; [exact Hstart|intros; lia]) Hrow Hrun) as Hend.
  destruct r; [|done]. exact Hend.
Qed.

End GridLoopsOutcome.

(** *** [plot_distributions] *)

Section DistributionsOutcome.
Variable seaborn_check : plot_request -> option string.
Variables (df : DataFrame) (pal : option palette).
Variables (cats nums : list string).

Local Abbreviation hist_accepted :=
  (fun (_ : nat) (i_col : string) (_ : nat) (j_col : string) =>
     seaborn_check (distributions_request df pal i_col j_col) = None).
Local Abbreviation hist_rejected :=
  (fun (_ : nat) (i_col : string) (_ : nat) (j_col : string) e =>
     exists msg,
       seaborn_check (distributions_request df pal i_col j_col) = Some msg
       /\ e = ChartingError msg).

Lemma distributions_loops_outcome (fig0 : Figure) (r : result unit)
    (s' : option Figure) :
  (2 <= length cats)%nat -> (2 <= length nums)%nat ->
  grid_loops cats nums
    (distributions_cell seaborn_check df pal
       (squeeze (length cats) (length nums)))
    (blank_grid (length cats) (length nums) fig0) = (r, s') ->
  match r with
  | Ok _ =>
      drawn_upto cats nums (fun i x _ y => distributions_panel df pal i x y)
        hist_accepted (length cats * length nums) s'
  | Raise e =>
      stopped_at cats nums (fun i x _ y => distributions_panel df pal i x y)
        hist_accepted hist_rejected e s'
  end.
Proof.
  intros HR HC Hrun.
  eapply (grid_loops_outcome cats nums _ _ hist_accepted hist_rejected);
    [|apply rendered_start|exact Hrun].
  intros i x j y fig q t' Hx Hy _.
  rewrite (distributions_cell_run _ _ _ _ (length cats) (length nums))
    by (by apply squeeze_indexes_grid || by eapply lookup_lt_Some).
  destruct (seaborn_check _) as [msg|]; intros [= <- <-]; [|done].
  split; [by exists msg|done].
Qed.

End DistributionsOutcome.

(** X15: [plot_distributions] on at least two category and two numeric columns
    draws the panels in row-major order, each holding the histogram of its
    numeric column grouped by its category column, up to the first one the
    charting layer rejects: there it raises that layer's error and leaves the
    remaining panels blank.  It completes when no histogram is rejected. *)
Theorem distributions_outcome
    (seaborn_check : plot_request -> option string) (df : DataFrame)
    (category_columns numeric_columns : list string) (pal : option palette)
    (r : result unit) (s : option Figure) :
  (2 <= length category_columns)%nat -> (2 <= length numeric_columns)%nat ->
  run (plot_distributions seaborn_check df category_columns numeric_columns
         pal) = (r, s) ->
  exists n fig,
    s = Some fig
    /\ (forall i j i_col j_col,
          category_columns !! i = Some i_col ->
          numeric_columns !! j = Some j_col ->
          exists ax,
            cell_at fig i j = Some ax
            /\ if decide (i * length numeric_columns + j < n)%nat
               then ax_plots ax = [distributions_request df pal i_col j_col]
                    /\ seaborn_check
                         (distributions_request df pal i_col j_col) = None
               else ax = blank_axes)
    /\ match r with
       | Ok _ => n = (length category_columns * length numeric_columns)%nat
       | Raise e =>
           exists i j i_col j_col msg,
             n = (i * length numeric_columns + j)%nat
             /\ category_columns !! i = Some i_col
             /\ numeric_columns !! j = Some j_col
             /\ seaborn_check (distributions_request df pal i_col j_col)
                = Some msg
             /\ e = ChartingError msg
       end.
Proof.
  intros HR HC. rewrite plot_distributions_unfold. unfold run.
  rewrite subplots_run by lia. intros Hrun.
  apply distributions_loops_outcome in Hrun; [|done..].
  assert (forall n fig,
            drawn_upto category_columns numeric_columns
              (fun i x _ y => distributions_panel df pal i x y)
              (fun _ i_col _ j_col =>
                 seaborn_check (distributions_request df pal i_col j_col)
                 = None) n (Some fig) ->
            forall i j i_col j_col,
              category_columns !! i = Some i_col ->
              numeric_columns !! j = Some j_col ->
              exists ax,
                cell_at fig i j = Some ax
                /\ if decide (i * length numeric_columns + j < n)%nat
                   then ax_plots ax
                        = [distributions_request df pal i_col j_col]
                        /\ seaborn_check
                             (distributions_request df pal i_col j_col)
                           = None
                   else ax = blank_axes) as Hread.
  { intros n fig [(fig' & [= <-] & _ & Hcells) Hacc] i j i_col j_col Hi Hj.
    eexists. split; [apply Hcells; by eapply lookup_lt_Some|].
    destruct (decide _) as [Hlt|]; [|done].
    unfold grid_cellf. rewrite Hi, Hj.
    split; [apply distributions_panel_plots|]. by apply (Hacc i _ j). }
  destruct r as [[]|e].
  - pose proof Hrun as [(fig & -> & _) _].
    exists (length category_columns * length numeric_columns)%nat, fig.
    split; [done|]. split; [by apply Hread|done].
  - destruct Hrun as (i & x & j & y & Hupto & Hx & Hy & msg & Hmsg & ->).
    pose proof Hupto as [(fig & -> & _) _].
    exists (i * length numeric_columns + j)%nat, fig.
    split; [done|]. split; [by apply Hread|].
    by exists i, j, x, y, msg.
Qed.

Lemma distributions_outcome_witness :
  exists fig ax,
    run (plot_distributions
           (fun req => match req with
                       | HistPlot {| h_x := "body_mass_g";
                                     h_hue := Some "island" |} =>
                           Some "rejected"
                       | _ => None
                       end)
           penguins ["island"; "sex"] ["bill_length_mm"; "body_mass_g"]
           None)
    = (Raise (ChartingError "rejected"), Some fig)
    /\ cell_at fig 0 0 = Some ax
    /\ ax_title ax = "bill_length_mm"
    /\ cell_at fig 0 1 = Some blank_axes
    /\ cell_at fig 1 0 = Some blank_axes
    /\ cell_at fig 1 1 = Some blank_axes.
Proof.
  eexists _, _. split; [reflexivity|]. split; [reflexivity|].
  destruct (distributions_outcome
              (fun req => match req with
                          | HistPlot {| h_x := "body_mass_g";
                                        h_hue := Some "island" |} =>
                              Some "rejected"
                          | _ => None
                          end)
              penguins ["island"; "sex"] ["bill_length_mm"; "body_mass_g"]
              None _ _ ltac:(simpl; lia) ltac:(simpl; lia) eq_refl)
    as (n & fig & [= <-] & _ & _).
  by repeat split.
Defined.

(** X16: [plot_distributions] returns normally exactly when it is given at
    least two category columns and at least two numeric columns and the
    charting layer accepts the histogram of every pair of them. *)
Theorem distributions_completes_iff
    (seaborn_check : plot_request -> option string) (df : DataFrame)
    (category_columns numeric_columns : list string) (pal : option palette) :
  (exists s,
     run (plot_distributions seaborn_check df category_columns
            numeric_columns pal) = (Ok tt, s))
  <-> (2 <= length category_columns)%nat
      /\ (2 <= length numeric_columns)%nat
      /\ forall i_col j_col,
           i_col ∈ category_columns -> j_col ∈ numeric_columns ->
           seaborn_check
             (HistPlot {| h_data := df; h_x := j_col; h_hue := Some i_col;
                          h_bins := 40; h_multiple := Some "dodge";
                          h_palette := pal; h_alpha := None;
                          h_color := None; h_kde := true |}) = None.
Proof.
  split.
  - intros [s Hrun]. rewrite plot_distributions_unfold in Hrun.
    unfold run in Hrun. apply subplots_ok in Hrun as (HR0 & HC0 & Hrun).
    destruct (decide (2 <= length category_columns
                      /\ 2 <= length numeric_columns)%nat)
      as [[HR HC]|Hirr].
    + split; [done|]. split; [done|].
      apply distributions_loops_outcome in Hrun as [_ Hacc]; [|done..].
      intros i_col j_col Hi Hj.
      apply list_elem_of_lookup in Hi as [i Hi].
      apply list_elem_of_lookup in Hj as [j Hj].
      apply (Hacc i i_col j j_col); [|done..].
      apply lookup_lt_Some in Hi, Hj. nia.
    + exfalso.
      destruct category_columns as [|x cats] eqn:Ecats; [done|].
      destruct numeric_columns as [|y nums] eqn:Enums; [done|].
      destruct (distributions_cell_irregular seaborn_check df pal
                  (length (x :: cats)) (length (y :: nums)) 0 x 0 y
                  (blank_grid (length (x :: cats)) (length (y :: nums))
                     (new_figure (20, 15)%Q))) as [e He]; [lia|].
      unfold grid_loops in Hrun. cbn [for_enumerate] in Hrun.
      unfold bind at 1 2 in Hrun. by rewrite He in Hrun.
  - intros (HR & HC & Hacc).
    destruct (plot_distributions_runs seaborn_check df pal category_columns
                numeric_columns HR HC Hacc) as [fig Hrun].
    by eexists.
Qed.

(** *** [plot_categorical_vs_numeric] *)

Section CategoricalOutcome.
Variable seaborn_check : plot_request -> option string.
Variables (df : DataFrame) (plot_type : string) (pal : option palette).
Variables (cats nums : list string).

Local Abbreviation plot_accepted :=
  (fun (i : nat) (i_col : string) (_ : nat) (j_col : string) =>
     seaborn_check (categorical_request df plot_type pal i i_col j_col)
     = None).
Local Abbreviation plot_rejected :=
  (fun (i : nat) (i_col : string) (_ : nat) (j_col : string) e =>
     exists msg,
       seaborn_check (categorical_request df plot_type pal i i_col j_col)
       = Some msg
       /\ e = ChartingError msg).

Lemma categorical_loops_outcome (fig0 : Figure) (r : result unit)
    (s' : option Figure) :
  recognised plot_type = true ->
  (2 <= length cats)%nat -> (2 <= length nums)%nat ->
  grid_loops cats nums
    (categorical_cell seaborn_check df plot_type pal
       (squeeze (length cats) (length nums)))
    (blank_grid (length cats) (length nums) fig0) = (r, s') ->
  match r with
  | Ok _ =>
      drawn_upto cats nums
        (fun i x _ y => categorical_panel df plot_type pal i x y)
        plot_accepted (length cats * length nums) s'
  | Raise e =>
      stopped_at cats nums
        (fun i x _ y => categorical_panel df plot_type pal i x y)
        plot_accepted plot_rejected e s'
  end.
Proof.
  intros Hrec HR HC Hrun.
  eapply (grid_loops_outcome cats nums _ _ plot_accepted plot_rejected);
    [|apply rendered_start|exact Hrun].
  intros i x j y fig q t' Hx Hy _.
  rewrite (categorical_cell_run _ _ _ _ _ (length cats) (length nums))
    by (by apply squeeze_indexes_grid || by eapply lookup_lt_Some).
  rewrite Hrec.
  destruct (seaborn_check _) as [msg|]; intros [= <- <-]; [|done].
  split; [by exists msg|done].
Qed.

End CategoricalOutcome.

(** X8: [plot_categorical_vs_numeric] with "violin" or "box" on at least two
    category and two numeric columns draws the panels in row-major order up to
    the first plot the charting layer rejects: there it raises that layer's
    error and leaves the remaining panels blank.  It completes when no plot is
    rejected. *)
Theorem categorical_vs_numeric_outcome
    (seaborn_check : plot_request -> option string) (df : DataFrame)
    (category_columns numeric_columns : list string) (plot_type : string)
    (pal : option palette) (r : result unit) (s : option Figure) :
  plot_type = "violin" \/ plot_type = "box" ->
  (2 <= length category_columns)%nat -> (2 <= length numeric_columns)%nat ->
  run (plot_categorical_vs_numeric seaborn_check df category_columns
         numeric_columns plot_type pal) = (r, s) ->
  exists n fig,
    s = Some fig
    /\ (forall i j i_col j_col,
          category_columns !! i = Some i_col ->
          numeric_columns !! j = Some j_col ->
          exists ax,
            cell_at fig i j = Some ax
            /\ if decide (i * length numeric_columns + j < n)%nat
               then ax_plots ax
                    = [categorical_request df plot_type pal i i_col j_col]
                    /\ seaborn_check
                         (categorical_request df plot_type pal i i_col j_col)
                       = None
               else ax = blank_axes)
    /\ match r with
       | Ok _ => n = (length category_columns * length numeric_columns)%nat
       | Raise e =>
           exists i j i_col j_col msg,
             n = (i * length numeric_columns + j)%nat
             /\ category_columns !! i = Some i_col
             /\ numeric_columns !! j = Some j_col
             /\ seaborn_check
                  (categorical_request df plot_type pal i i_col j_col)
                = Some msg
             /\ e = ChartingError msg
       end.
Proof.
  intros Htype HR HC. rewrite plot_categorical_vs_numeric_unfold. unfold run.
  rewrite subplots_run by lia. intros Hrun.
  apply categorical_loops_outcome in Hrun; [|by destruct Htype as [-> | ->]
                                            |done..].
  assert (forall n fig,
            drawn_upto category_columns numeric_columns
              (fun i x _ y => categorical_panel df plot_type pal i x y)
              (fun i i_col _ j_col =>
                 seaborn_check
                   (categorical_request df plot_type pal i i_col j_col)
                 = None) n (Some fig) ->
            forall i j i_col j_col,
              category_columns !! i = Some i_col ->
              numeric_columns !! j = Some j_col ->
              exists ax,
                cell_at fig i j = Some ax
                /\ if decide (i * length numeric_columns + j < n)%nat
                   then ax_plots ax
                        = [categorical_request df plot_type pal i i_col
                             j_col]
                        /\ seaborn_check
                             (categorical_request df plot_type pal i i_col
                                j_col) = None
                   else ax = blank_axes) as Hread.
  { intros n fig [(fig' & [= <-] & _ & Hcells) Hacc] i j i_col j_col Hi Hj.
    eexists. split; [apply Hcells; by eapply lookup_lt_Some|].
    destruct (decide _) as [Hlt|]; [|done].
    unfold grid_cellf. rewrite Hi, Hj.
    split; [apply categorical_panel_plots|]. by apply (Hacc i _ j). }
  destruct r as [[]|e].
  - pose proof Hrun as [(fig & -> & _) _].
    exists (length category_columns * length numeric_columns)%nat, fig.
    split; [done|]. split; [by apply Hread|done].
  - destruct Hrun as (i & x & j & y & Hupto & Hx & Hy & msg & Hmsg & ->).
    pose proof Hupto as [(fig & -> & _) _].
    exists (i * length numeric_columns + j)%nat, fig.
    split; [done|]. split; [by apply Hread|].
    by exists i, j, x, y, msg.
Qed.

Lemma categorical_vs_numeric_outcome_witness :
  exists fig ax,
    run (plot_categorical_vs_numeric
           (fun req => match req with
                       | BoxPlot _ _ "bill_length_mm" "sex" _ =>
                           Some "rejected"
                       | _ => None
                       end)
           penguins ["island"; "sex"] ["bill_length_mm"; "body_mass_g"]
           "box" None)
    = (Raise (ChartingError "rejected"), Some fig)
    /\ cell_at fig 0 1 = Some ax
    /\ ax_plots ax = [BoxPlot penguins "species" "body_mass_g" "island" None]
    /\ cell_at fig 1 0 = Some blank_axes
    /\ cell_at fig 1 1 = Some blank_axes.
Proof.
  eexists _, _. split; [reflexivity|]. split; [reflexivity|].
  destruct (categorical_vs_numeric_outcome
              (fun req => match req with
                          | BoxPlot _ _ "bill_length_mm" "sex" _ =>
                              Some "rejected"
                          | _ => None
                          end)
              penguins ["island"; "sex"] ["bill_length_mm"; "body_mass_g"]
              "box" None _ _ ltac:(by right) ltac:(simpl; lia)
              ltac:(simpl; lia) eq_refl)
    as (n & fig & [= <-] & _ & _).
  by repeat split.
Defined.

(** X9: [plot_categorical_vs_numeric] returns normally exactly when the plot
    type is "violin" or "box", it is given at least two category columns and
    at least two numeric columns, and the charting layer accepts the plot of
    every pair of them. *)
Theorem categorical_vs_numeric_completes_iff
    (seaborn_check : plot_request -> option string) (df : DataFrame)
    (category_columns numeric_columns : list string) (plot_type : string)
    (pal : option palette) :
  (exists s,
     run (plot_categorical_vs_numeric seaborn_check df category_columns
            numeric_columns plot_type pal) = (Ok tt, s))
  <-> (plot_type = "violin" \/ plot_type = "box")
      /\ (2 <= length category_columns)%nat
      /\ (2 <= length numeric_columns)%nat
      /\ forall i i_col j_col,
           category_columns !! i = Some i_col -> j_col ∈ numeric_columns ->
           seaborn_check
             (if String.eqb plot_type "violin"
              then ViolinPlot (bool_decide (i = 2%nat)) df "species" j_col
                     i_col pal
              else BoxPlot df "species" j_col i_col pal) = None.
Proof.
  assert (forall i i_col j_col,
            categorical_request df plot_type pal i i_col j_col
            = if String.eqb plot_type "violin"
              then ViolinPlot (bool_decide (i = 2%nat)) df "species" j_col
                     i_col pal
              else BoxPlot df "species" j_col i_col pal) as Hreq.
  { intros i i_col j_col. unfold categorical_request.
    destruct (String.eqb plot_type "violin"); [|done]. f_equal.
    destruct (Nat.eqb_spec i 2);
      [by rewrite bool_decide_true | by rewrite bool_decide_false]. }
  assert (recognised plot_type = true
          <-> plot_type = "violin" \/ plot_type = "box") as Hrec.
  { unfold recognised. rewrite orb_true_iff, !String.eqb_eq. done. }
  split.
  - intros [s Hrun]. rewrite plot_categorical_vs_numeric_unfold in Hrun.
    unfold run in Hrun. apply subplots_ok in Hrun as (HR0 & HC0 & Hrun).
    destruct category_columns as [|x cats] eqn:Ecats; [done|].
    destruct numeric_columns as [|y nums] eqn:Enums; [done|].
    rewrite <- Ecats, <- Enums in *.
    destruct (decide (2 <= length category_columns
                      /\ 2 <= length numeric_columns)%nat)
      as [[HR HC]|Hirr].
    + destruct (recognised plot_type) eqn:Erec.
      * split; [by apply Hrec|]. split; [done|]. split; [done|].
        apply categorical_loops_outcome in Hrun as [_ Hacc]; [|done..].
        intros i i_col j_col Hi Hj.
        apply list_elem_of_lookup in Hj as [j Hj].
        rewrite <- Hreq. apply (Hacc i i_col j j_col); [|done..].
        apply lookup_lt_Some in Hi, Hj. nia.
      * exfalso.
        assert (categorical_cell seaborn_check df plot_type pal
                  (squeeze (length category_columns)
                     (length numeric_columns)) 0 x 0 y
                  (blank_grid (length category_columns)
                     (length numeric_columns) (new_figure (20, 15)%Q))
                = (Raise plot_type_error,
                   blank_grid (length category_columns)
                     (length numeric_columns) (new_figure (20, 15)%Q)))
          as He.
        { unfold blank_grid.
          rewrite (categorical_cell_run _ _ _ _ _
                     (length category_columns) (length numeric_columns))
            by (by apply squeeze_indexes_grid || lia).
          by rewrite Erec. }
        rewrite Ecats, Enums in Hrun at 1.
        unfold grid_loops in Hrun. cbn [for_enumerate] in Hrun.
        unfold bind at 1 2 in Hrun. by rewrite He in Hrun.
    + exfalso.
      destruct (categorical_cell_irregular seaborn_check df plot_type pal
                  (length category_columns) (length numeric_columns) 0 x 0 y
                  (blank_grid (length category_columns)
                     (length numeric_columns) (new_figure (20, 15)%Q)))
        as [e He]; [lia|].
      rewrite Ecats, Enums in Hrun at 1.
      unfold grid_loops in Hrun. cbn [for_enumerate] in Hrun.
      unfold bind at 1 2 in Hrun. by rewrite He in Hrun.
  - intros (Htype & HR & HC & Hacc).
    destruct (plot_categorical_vs_numeric_runs seaborn_check df plot_type pal
                category_columns numeric_columns) as [fig Hrun];
      [by apply Hrec|done|done| |by eexists].
    intros i i_col j_col Hi Hj. rewrite Hreq. by apply Hacc.
Qed.

(** *** [plot_distribution_specie] *)

Lemma df_filter_eq_idempotent (df sub : DataFrame) (name label : string) :
  df_filter_eq df name label = Ok sub ->
  df_filter_eq sub name label = Ok sub.
Proof.
  unfold df_filter_eq.
  destruct (index_of name (df_columns df)) as [p|] eqn:Hp; [|done].
  intros [= <-]. cbn [df_columns df_rows]. rewrite Hp. do 2 f_equal.
  induction (df_rows df) as [|r rows IH]; [done|].
  destruct (decide (cell_is label (row_cell p r) = true)) as [Hr|Hr].
  - rewrite !filter_cons_True by done. by rewrite IH.
  - by rewrite filter_cons_False by done.
Qed.

(** X20: Filtering the table by the species beforehand changes nothing: the
    renderer's own filter keeps every row of a table that holds this species
    only. *)
Theorem distribution_specie_prefiltered
    (seaborn_check : plot_request -> option string) (df sub : DataFrame)
    (numeric_columns category_columns : list string) (species : string)
    (penguin_color : option palette) (bins : Z) :
  df_filter_eq df "species" species = Ok sub ->
  run (plot_distribution_specie seaborn_check sub numeric_columns
         category_columns species penguin_color bins)
  = run (plot_distribution_specie seaborn_check df numeric_columns
           category_columns species penguin_color bins).
Proof.
  intros Hsub. rewrite !plot_distribution_specie_unfold. unfold run.
  unfold bind at 1 6.
  by rewrite (df_filter_eq_idempotent _ _ _ _ Hsub), Hsub.
Qed.

Lemma distribution_specie_prefiltered_witness :
  run (plot_distribution_specie accept_all
         {| df_columns := df_columns penguins;
            df_rows := filter (fun r => row_cell 0 r = Some "Gentoo")
                         (df_rows penguins) |}
         ["bill_length_mm"; "body_mass_g"] ["island"; "sex"] "Gentoo" None 20)
  = run (plot_distribution_specie accept_all penguins
           ["bill_length_mm"; "body_mass_g"] ["island"; "sex"] "Gentoo" None
           20).
Proof.
  apply (distribution_specie_prefiltered accept_all penguins). reflexivity.
Defined.

Section DistributionSpecieOutcome.
Variable seaborn_check : plot_request -> option string.
Variables (penguin_color : option palette) (bins : Z).
Variables (sub : DataFrame) (nums cats : list string).

Local Abbreviation specie_accepted :=
  (fun (_ : nat) (i_col : string) (_ : nat) (j_col : string) =>
     seaborn_check (specie_request penguin_color bins sub i_col j_col)
     = None).
Local Abbreviation specie_rejected :=
  (fun (_ : nat) (i_col : string) (_ : nat) (j_col : string) e =>
     exists msg,
       seaborn_check (specie_request penguin_color bins sub i_col j_col)
       = Some msg
       /\ e = ChartingError msg).

Lemma specie_loops_outcome (fig0 : Figure) (r : result unit)
    (s' : option Figure) :
  (2 <= length nums)%nat -> (2 <= length cats)%nat ->
  grid_loops nums cats
    (specie_cell seaborn_check penguin_color bins nums sub
       (squeeze (length nums) (length cats)))
    (blank_grid (length nums) (length cats) fig0) = (r, s') ->
  match r with
  | Ok _ =>
      drawn_upto nums cats
        (fun _ x j y => specie_panel penguin_color bins sub x j y)
        specie_accepted (length nums * length cats) s'
  | Raise e =>
      stopped_at nums cats
        (fun _ x j y => specie_panel penguin_color bins sub x j y)
        specie_accepted specie_rejected e s'
  end.
Proof.
  intros HR HC Hrun.
  eapply (grid_loops_outcome nums cats _ _ specie_accepted specie_rejected);
    [|apply rendered_start|exact Hrun].
  intros i x j y fig q t' Hx Hy _.
  rewrite (specie_cell_run _ _ _ _ _ _ (length nums) (length cats))
    by (by apply squeeze_indexes_grid || by eapply lookup_lt_Some || done).
  destruct (seaborn_check _) as [msg|]; intros [= <- <-]; [|done].
  split; [by exists msg|done].
Qed.

End DistributionSpecieOutcome.

(** X18: [plot_distribution_specie] returns normally exactly when the table
    has a "species" column, it is given at least two numeric columns and at
    least two category columns, and the charting layer accepts the histogram
    of every pair of them over the rows of the species. *)
Theorem distribution_specie_completes_iff
    (seaborn_check : plot_request -> option string) (df : DataFrame)
    (numeric_columns category_columns : list string) (species : string)
    (penguin_color : option palette) (bins : Z) :
  (exists s,
     run (plot_distribution_specie seaborn_check df numeric_columns
            category_columns species penguin_color bins) = (Ok tt, s))
  <-> exists sub,
        df_filter_eq df "species" species = Ok sub
        /\ (2 <= length numeric_columns)%nat
        /\ (2 <= length category_columns)%nat
        /\ forall i_col j_col,
             i_col ∈ numeric_columns -> j_col ∈ category_columns ->
             seaborn_check
               (HistPlot {| h_data := sub; h_x := i_col;
                            h_hue := Some j_col; h_bins := bins;
                            h_multiple := Some "layer";
                            h_palette := penguin_color; h_alpha := None;
                            h_color := None; h_kde := true |}) = None.
Proof.
  split.
  - intros [s Hrun]. rewrite plot_distribution_specie_unfold in Hrun.
    unfold run in Hrun. unfold bind at 1 in Hrun.
    destruct (df_filter_eq df "species" species) as [sub|e]; [|done].
    cbn [lift ret] in Hrun. exists sub. split; [done|].
    apply subplots_ok in Hrun as (HR0 & HC0 & Hrun).
    unfold bind at 1 in Hrun.
    destruct (grid_loops numeric_columns category_columns _ _)
      as [[[]|e] s1] eqn:Hloops; [|done].
    destruct (decide (2 <= length numeric_columns
                      /\ 2 <= length category_columns)%nat)
      as [[HR HC]|Hirr].
    + split; [done|]. split; [done|].
      apply specie_loops_outcome in Hloops as [_ Hacc]; [|done..].
      intros i_col j_col Hi Hj.
      apply list_elem_of_lookup in Hi as [i Hi].
      apply list_elem_of_lookup in Hj as [j Hj].
      apply (Hacc i i_col j j_col); [|done..].
      apply lookup_lt_Some in Hi, Hj. nia.
    + exfalso.
      destruct numeric_columns as [|x nums] eqn:Enums; [done|].
      destruct category_columns as [|y cats] eqn:Ecats; [done|].
      destruct (specie_cell_irregular seaborn_check penguin_color bins
                  (x :: nums) (length (x :: nums)) (length (y :: cats))
                  0 x 0 y) as [e He]; [lia|].
      unfold grid_loops in Hloops. cbn [for_enumerate] in Hloops.
      unfold bind at 1 2 in Hloops. by rewrite He in Hloops.
  - intros (sub & Hsub & HR & HC & Hacc).
    destruct (plot_distribution_specie_runs seaborn_check penguin_color bins
                df sub numeric_columns category_columns species Hsub HR HC
                Hacc) as (fig & Hrun & _).
    by eexists.
Qed.

(** X19: In a call of [plot_distribution_specie] that returns normally, the
    panels of the leftmost column carry the name of their numeric column as
    y-axis label, with a label pad of 60 and rotation 0; every other panel has
    an empty y-axis label; no panel has an x-axis label or a title; and the
    top of the panel area is set to 0.95. *)
Theorem distribution_specie_labels
    (seaborn_check : plot_request -> option string) (df : DataFrame)
    (numeric_columns category_columns : list string) (species : string)
    (penguin_color : option palette) (bins : Z) (fig : Figure) :
  run (plot_distribution_specie seaborn_check df numeric_columns
         category_columns species penguin_color bins) = (Ok tt, Some fig) ->
  fig_top fig = Some (19 # 20)%Q
  /\ forall i j ax, cell_at fig i j = Some ax ->
       exists i_col,
         numeric_columns !! i = Some i_col
         /\ ax_ylabel ax
            = (if decide (j = 0%nat)
               then {| label_text := i_col; label_pad := Some 60%Q;
                       label_rotation := Some 0%Q |}
               else no_label)
         /\ ax_xlabel ax = no_label
         /\ ax_title ax = "".
Proof.
  intros Hrun.
  apply plot_distribution_specie_rendering in Hrun
    as (sub & fig1 & _ & _ & _ & Hfig & ->).
  split; [done|]. intros i j ax Hax.
  destruct (grid_panel_at _ _ _ fig1 i j ax Hfig Hax)
    as (i_col & j_col & Hi & _ & ->).
  exists i_col. split; [done|]. by destruct j.
Qed.

Lemma distribution_specie_labels_witness :
  exists fig ax,
    run (plot_distribution_specie accept_all penguins
           ["bill_length_mm"; "body_mass_g"] ["island"; "sex"] "Adelie" None
           20) = (Ok tt, Some fig)
    /\ cell_at fig 1 0 = Some ax
    /\ ax_ylabel ax = {| label_text := "body_mass_g"; label_pad := Some 60%Q;
                         label_rotation := Some 0%Q |}.
Proof.
  eexists _, _. split; [vm_compute; reflexivity|]. split; [reflexivity|].
  destruct (distribution_specie_labels accept_all penguins
              ["bill_length_mm"; "body_mass_g"] ["island"; "sex"] "Adelie"
              None 20 _ ltac:(vm_compute; reflexivity)) as [_ Hcells].
  destruct (Hcells 1%nat 0%nat _ eq_refl) as (i_col & Hi & Hy & _).
  injection Hi as <-. exact Hy.
Defined.

(** X21: A table without a "species" column: [plot_distribution_specie] raises
    [KeyError] before any figure exists; with such a column every call ends,
    normally or not, with a figure. *)
Theorem distribution_specie_without_species_column
    (seaborn_check : plot_request -> option string) (df : DataFrame)
    (numeric_columns category_columns : list string) (species : string)
    (penguin_color : option palette) (bins : Z) :
  ("species" ∉ df_columns df ->
   run (plot_distribution_specie seaborn_check df numeric_columns
          category_columns species penguin_color bins)
   = (Raise (KeyError "species"), None))
  /\ ("species" ∈ df_columns df ->
      exists r fig,
        run (plot_distribution_specie seaborn_check df numeric_columns
               category_columns species penguin_color bins)
        = (r, Some fig)).
Proof.
  split.
  - intros Hnone. apply index_of_None in Hnone.
    unfold plot_distribution_specie, run, bind, df_filter_eq.
    by rewrite Hnone.
  - intros Hsome.
    assert (exists sub, df_filter_eq df "species" species = Ok sub)
      as [sub Hsub].
    { unfold df_filter_eq.
      destruct (index_of "species" (df_columns df)) eqn:Hp; [by eexists|].
      by apply index_of_None in Hp. }
    destruct (run (plot_distribution_specie seaborn_check df numeric_columns
                     category_columns species penguin_color bins))
      as [r s] eqn:Hrun.
    rewrite plot_distribution_specie_unfold in Hrun. unfold run in Hrun.
    unfold bind at 1 in Hrun. rewrite Hsub in Hrun. cbn [lift ret] in Hrun.
    destruct (decide (length numeric_columns = 0
                      \/ length category_columns = 0)%nat) as [Hzero|Hpos].
    { unfold bind, subplots in Hrun.
      destruct (length numeric_columns);
        [injection Hrun as <- <-; by eexists _, _|].
      destruct (length category_columns);
        [injection Hrun as <- <-; by eexists _, _|lia]. }
    rewrite subplots_run in Hrun by lia. unfold bind at 1 in Hrun.
    destruct (grid_loops numeric_columns category_columns _ _)
      as [q s1] eqn:Hloops.
    eapply (grid_render_any numeric_columns category_columns
              (specie_cell seaborn_check penguin_color bins numeric_columns
                 sub)
              (fun _ x j y => specie_panel penguin_color bins sub x j y))
      in Hloops.
    + destruct Hloops as (n & fig1 & -> & _).
      destruct q as [[]|e]; injection Hrun as <- <-; by eexists _, _.
    + intros axs i x j y fig1 q' t' Hidx Hx Hy.
      rewrite (specie_cell_run _ _ _ numeric_columns sub axs _ _ i x j y fig1
                 Hidx) by (done || by eapply lookup_lt_Some).
      destruct (seaborn_check _); by intros [= <- <-].
    + intros i x j y s0 Hirr.
      destruct (specie_cell_irregular seaborn_check penguin_color bins
                  numeric_columns _ _ i x j y Hirr) as [e He].
      by exists e.
Qed.

Lemma distribution_specie_without_species_column_witness :
  run (plot_distribution_specie accept_all
         {| df_columns := ["island"; "sex"];
            df_rows := [[Some "Dream"; Some "male"]] |}
         ["bill_length_mm"; "body_mass_g"] ["island"; "sex"] "Adelie" None
         20)
  = (Raise (KeyError "species"), None).
Proof.
  destruct (distribution_specie_without_species_column accept_all
              {| df_columns := ["island"; "sex"];
                 df_rows := [[Some "Dream"; Some "male"]] |}
              ["bill_length_mm"; "body_mass_g"] ["island"; "sex"] "Adelie"
              None 20) as [Hnone _].
  apply Hnone. cbn [df_columns]. rewrite !not_elem_of_cons.
  repeat split; try discriminate. apply not_elem_of_nil.
Defined.

(** ** Grids of one row or one column, and empty selectors *)

(** What [plt.subplots] returns for a grid with a single row or a single
    column: the panel itself, or a one-dimensional array. *)
Lemma squeeze_single (R C : nat) :
  R <> 0%nat -> C <> 0%nat -> (R = 1 \/ C = 1)%nat ->
  (R = 1%nat /\ C = 1%nat /\ squeeze R C = AxesObj 0 0)
  \/ ((2 <= R \/ 2 <= C)%nat
      /\ exists cells, squeeze R C = AxesArray1 ((0%nat, 0%nat) :: cells)).
Proof.
  intros HR HC Hone. unfold squeeze.
  destruct R as [|[|R]]; [done| |].
  - destruct C as [|[|C]]; [done|by left|]. right. split; [lia|].
    by eexists.
  - destruct C as [|[|C]]; [done| |lia]. right. split; [lia|]. by eexists.
Qed.

Lemma grid_loops_first (rows cols : list string)
    (cell : nat -> string -> nat -> string -> M unit) (x y : string)
    (rows' cols' : list string) (e : exn) (s s' : option Figure) :
  rows = x :: rows' -> cols = y :: cols' ->
  cell 0%nat x 0%nat y s = (Raise e, s') ->
  grid_loops rows cols cell s = (Raise e, s').
Proof.
  intros -> -> Hcell. unfold grid_loops. cbn [for_enumerate].
  unfold bind at 1 2. by rewrite Hcell.
Qed.

(** X17: [plot_distributions] and [plot_distribution_specie] on a grid with a
    single row or a single column: [axs[i]] is a panel already, and
    [axs[i][j]] raises [TypeError] at the first panel, before anything is
    drawn. *)
Theorem histogram_grids_single_row_or_column
    (seaborn_check : plot_request -> option string) (df : DataFrame)
    (rows cols : list string) (pal : option palette) (species : string)
    (bins : Z) :
  rows <> [] -> cols <> [] -> (length rows = 1 \/ length cols = 1)%nat ->
  run (plot_distributions seaborn_check df rows cols pal)
  = (Raise (TypeError "'Axes' object is not subscriptable"),
     blank_grid (length rows) (length cols) (new_figure (20, 15)%Q))
  /\ ("species" ∈ df_columns df ->
      run (plot_distribution_specie seaborn_check df rows cols species pal
             bins)
      = (Raise (TypeError "'Axes' object is not subscriptable"),
         blank_grid (length rows) (length cols) (new_figure (15, 13)%Q))).
Proof.
  intros Hrows Hcols Hone.
  destruct rows as [|x rows'] eqn:Erows; [done|].
  destruct cols as [|y cols'] eqn:Ecols; [done|].
  rewrite <- Erows, <- Ecols in *.
  assert (length rows <> 0 /\ length cols <> 0)%nat as [HR HC]
    by (rewrite Erows, Ecols; done).
  assert (forall (k : axs_value -> M unit) s,
            (let* row := lift (getitem (squeeze (length rows) (length cols))
                                 0) in
             let* ax := lift (getitem row 0) in k ax) s
            = (Raise not_subscriptable, s)) as Hindex.
  { intros k s. unfold bind.
    destruct (squeeze_single _ _ HR HC Hone)
      as [(_ & _ & ->) | (_ & cells & ->)]; done. }
  split.
  - rewrite plot_distributions_unfold. unfold run.
    rewrite subplots_run by done.
    apply (grid_loops_first _ _ _ x y rows' cols'); [done..|].
    unfold distributions_cell. apply Hindex.
  - intros Hspecies. rewrite plot_distribution_specie_unfold. unfold run.
    unfold bind at 1. unfold df_filter_eq.
    destruct (index_of "species" (df_columns df)) as [p|] eqn:Hp;
      [|by apply index_of_None in Hp].
    cbn [lift ret]. rewrite subplots_run by done. unfold bind at 1.
    erewrite (grid_loops_first _ _ _ x y rows' cols'); [done..|].
    unfold specie_cell. apply Hindex.
Qed.

Lemma histogram_grids_single_row_or_column_witness :
  run (plot_distributions accept_all penguins ["sex"]
         ["bill_length_mm"; "body_mass_g"] None)
  = (Raise (TypeError "'Axes' object is not subscriptable"),
     Some (with_grid [[blank_axes; blank_axes]] (new_figure (20, 15)%Q))).
Proof.
  apply (histogram_grids_single_row_or_column accept_all penguins ["sex"]
           ["bill_length_mm"; "body_mass_g"] None "Adelie" 20);
    [done|done|by left].
Defined.



(** The two refusals of [plt.subplots]. *)
Definition no_rows : exn :=
  ValueError "Number of rows must be a positive integer, not 0".

Definition no_columns : exn :=
  ValueError "Number of columns must be a positive integer, not 0".

(** X22: An empty selector in a single-row renderer: the call stops in
    [plt.subplots], which has created the figure but refuses a grid without
    columns.  The figure has no panel. *)
Theorem empty_selector_single_row
    (seaborn_check : plot_request -> option string) (df : DataFrame)
    (stats : StatsTable) (pal : option palette) (figsize : Q * Q)
    (alpha : Q) (bins : Z) (color : string) (kde : bool) :
  run (plot_category_count seaborn_check df [] pal figsize alpha)
  = (Raise no_columns, Some (new_figure figsize))
  /\ run (plot_category_proportions seaborn_check df [] pal figsize)
     = (Raise no_columns, Some (new_figure figsize))
  /\ (stats_columns stats = [] ->
      run (plot_histograms seaborn_check df stats pal figsize bins alpha
             color kde) = (Raise no_columns, Some (new_figure figsize))).
Proof.
  split; [done|]. split; [done|].
  intros Hcols. unfold plot_histograms. by rewrite Hcols.
Qed.

Lemma empty_selector_single_row_witness :
  run (plot_histograms accept_all penguins
         {| stats_columns := []; stats_index := ["mean"; "25%"; "75%"];
            stats_values := [[]; []; []] |}
         None (20, 5)%Q 50 (11 # 20) "#0f7175ff" true)
  = (Raise (ValueError "Number of columns must be a positive integer, not 0"),
     Some (new_figure (20, 5)%Q)).
Proof.
  destruct (empty_selector_single_row accept_all penguins
              {| stats_columns := []; stats_index := ["mean"; "25%"; "75%"];
                 stats_values := [[]; []; []] |}
              None (20, 5)%Q (3 # 5) 50 "#0f7175ff" true) as (_ & _ & Hhist).
  by apply Hhist.
Defined.

(** X23: An empty selector in a grid renderer: the call stops in
    [plt.subplots], which has created the figure but refuses a grid without
    rows or without columns; the rows are checked first.  The figure has no
    panel.  The plot type of [plot_categorical_vs_numeric] is not looked
    at. *)
Theorem empty_selector_grid
    (seaborn_check : plot_request -> option string) (df : DataFrame)
    (pal : option palette) (bins : Z) (plot_type species : string)
    (rows cols : list string) :
  rows = [] \/ cols = [] ->
  run (plot_distributions seaborn_check df rows cols pal)
  = (Raise (if decide (rows = []) then no_rows else no_columns),
     Some (new_figure (20, 15)%Q))
  /\ run (plot_categorical_vs_numeric seaborn_check df rows cols plot_type
            pal)
     = (Raise (if decide (rows = []) then no_rows else no_columns),
        Some (new_figure (20, 15)%Q))
  /\ ("species" ∈ df_columns df ->
      run (plot_distribution_specie seaborn_check df rows cols species pal
             bins)
      = (Raise (if decide (rows = []) then no_rows else no_columns),
         Some (new_figure (15, 13)%Q))).
Proof.
  intros Hempty.
  assert (forall (k : axs_value -> M unit) figsize' s,
            bind (subplots (length rows) (length cols) figsize') k s
            = (Raise (if decide (rows = []) then no_rows else no_columns),
               Some (new_figure figsize'))) as Hsub.
  { intros k figsize' s. unfold bind, subplots.
    destruct rows as [|x rows']; [done|].
    destruct Hempty as [?| ->]; [done|]. done. }
  split; [|split].
  - rewrite plot_distributions_unfold. apply Hsub.
  - rewrite plot_categorical_vs_numeric_unfold. apply Hsub.
  - intros Hspecies. rewrite plot_distribution_specie_unfold. unfold run.
    unfold bind at 1. unfold df_filter_eq.
    destruct (index_of "species" (df_columns df)) as [p|] eqn:Hp;
      [|by apply index_of_None in Hp].
    cbn [lift ret]. apply Hsub.
Qed.

Lemma empty_selector_grid_witness :
  run (plot_categorical_vs_numeric accept_all penguins ["island"] []
         "scatter" None)
  = (Raise (ValueError "Number of columns must be a positive integer, not 0"),
     Some (new_figure (20, 15)%Q))
  /\ run (plot_distributions accept_all penguins [] [] None)
     = (Raise (ValueError "Number of rows must be a positive integer, not 0"),
        Some (new_figure (20, 15)%Q)).
Proof.
  split.
  - by destruct (empty_selector_grid accept_all penguins None 20 "scatter"
                   "Adelie" ["island"] [] ltac:(by right)) as (_ & Hcat & _).
  - by destruct (empty_selector_grid accept_all penguins None 20 "scatter"
                   "Adelie" [] [] ltac:(by left)) as (Hdist & _).
Defined.

(** ** The percentages of [plot_category_proportions], once more *)

Lemma occurrences_bounds (label : string) (labels : list string) :
  label ∈ labels ->
  (1 <= occurrences label labels <= length labels)%nat.
Proof.
  intros Hin. unfold occurrences. split; [|apply length_filter].
  induction labels as [|other labels IH]; [by apply elem_of_nil in Hin|].
  destruct (decide (other = label)) as [Heq|Hne].
  - rewrite filter_cons_True by done. simpl. lia.
  - rewrite filter_cons_False by done. apply IH.
    apply elem_of_cons in Hin as [Heq|Hin]; [by subst|done].
Qed.

Lemma ratio_bounds (a n : nat) :
  (1 <= a <= n)%nat -> (0 < ratio a n * 100 /\ ratio a n * 100 <= 100)%Q.
Proof.
  intros [Ha Hn]. unfold ratio, Qdiv, Qmult, Qinv, Qlt, Qle, inject_Z.
  cbn [Qnum Qden].
  destruct (Z.of_nat n) as [|p|p] eqn:Hp; [lia| |lia].
  cbn [Qnum Qden Z.mul Pos.mul]. rewrite ?Z.mul_1_r, ?Pos.mul_1_l.
  split; [lia|].
  rewrite ?Pos.mul_1_r. cbn [Qnum Qden]. lia.
Qed.

(** Every percentage is positive and at most 100. *)
Lemma proportions_bounds (column : list cell) (label : string) (h : Q) :
  (label, h) ∈ proportions column -> (0 < h /\ h <= 100)%Q.
Proof.
  intros Hin. apply proportions_entry in Hin as [Hlabel ->].
  apply ratio_bounds. by apply occurrences_bounds.
Qed.

(** X6: In a call of [plot_category_proportions] that returns normally, every
    bar is higher than 0 and at most 100 high, so it lies within the y-axis
    range [0, 100]; its annotation, one unit above the bar top, lies between 1
    and 101, above the axis range when the bar is higher than 99. *)
Theorem proportion_bars_within_range
    (seaborn_check : plot_request -> option string) (df : DataFrame)
    (category_columns : list string) (color_palette : option palette)
    (figsize : Q * Q) (fig : Figure) (j : nat) (ax : Axes) :
  run (plot_category_proportions seaborn_check df category_columns
         color_palette figsize) = (Ok tt, Some fig) ->
  cell_at fig 0 j = Some ax ->
  Forall (fun p => 0 < patch_height p /\ patch_height p <= 100)%Q
    (ax_patches ax)
  /\ Forall (fun t => 1 < text_y t /\ text_y t <= 101)%Q (ax_texts ax)
  /\ (forall k p t,
        ax_patches ax !! k = Some p -> ax_texts ax !! k = Some t ->
        (99 < patch_height p)%Q -> (100 < text_y t)%Q).
Proof.
  intros Hrun Hax.
  apply plot_category_proportions_rendering in Hrun as [Hfig Hacc].
  destruct (row_panel_at _ _ _ _ _ _ Hfig Hax) as (_ & category & Hj & ->).
  destruct (Hacc j category Hj) as (column & Hcol & _).
  unfold proportions_panel_of. rewrite Hcol.
  destruct (proportion_panel_fields color_palette category column)
    as (_ & _ & Hbars & Htexts & _).
  rewrite Htexts, Hbars.
  assert (Forall (fun p => 0 < patch_height p /\ patch_height p <= 100)%Q
            (imap bar (proportions column))) as Hheights.
  { apply Forall_forall. intros p Hp.
    apply list_elem_of_lookup in Hp as [k Hk].
    rewrite list_lookup_imap in Hk.
    destruct (proportions column !! k) as [[label h]|] eqn:He; [|done].
    injection Hk as <-. cbn [patch_height bar snd].
    apply (proportions_bounds column label).
    by eapply list_elem_of_lookup_2. }
  split; [done|]. split.
  - apply Forall_fmap. eapply Forall_impl; [exact Hheights|].
    intros p [Hlo Hhi]. cbn [bar_annotation text_y compose]. split; lra.
  - intros k p t Hp Ht Hhigh. rewrite list_lookup_fmap, Hp in Ht.
    injection Ht as <-. cbn [bar_annotation text_y]. lra.
Qed.

Lemma proportion_bars_within_range_witness :
  exists fig ax,
    run (plot_category_proportions accept_all islands ["island"] None
           (10, 5)%Q) = (Ok tt, Some fig)
    /\ cell_at fig 0 0 = Some ax
    /\ Forall (fun p => 0 < patch_height p /\ patch_height p <= 100)%Q
         (ax_patches ax).
Proof.
  eexists _, _. split; [vm_compute; reflexivity|]. split; [reflexivity|].
  by destruct (proportion_bars_within_range accept_all islands ["island"]
                 None (10, 5)%Q _ 0 _ ltac:(vm_compute; reflexivity)
                 eq_refl) as [Hbars _].
Defined.

(** *** The order of the rows does not matter *)

Lemma occurrences_Permutation (label : string) (l k : list string) :
  l ≡ₚ k -> occurrences label l = occurrences label k.
Proof. intros Hperm. unfold occurrences. by rewrite Hperm. Qed.

Lemma distinct_Permutation (l k : list string) :
  l ≡ₚ k -> distinct l ≡ₚ distinct k.
Proof.
  intros Hperm. apply NoDup_Permutation; [apply distinct_NoDup..|].
  intros s. by rewrite !distinct_elem, Hperm.
Qed.

(** A series is its labels, each paired with its value. *)
Lemma series_of_labels {V} (f : string -> V) (s : list (string * V)) :
  (forall label v, (label, v) ∈ s -> v = f label) ->
  s = map (fun label => (label, f label)) (map fst s).
Proof.
  induction s as [|[label v] s IH]; intros Hval; [done|].
  cbn [map fst]. rewrite (Hval label v) by left. f_equal.
  apply IH. intros l w Hin. apply Hval. by right.
Qed.

Lemma proportions_row_order (column column' : list cell) :
  column ≡ₚ column' -> proportions column = proportions column'.
Proof.
  intros Hperm.
  assert (present column ≡ₚ present column') as Hpresent
    by (unfold present; by rewrite Hperm).
  assert (forall label, share column label = share column' label) as Hshare.
  { intros label. unfold share.
    by rewrite (occurrences_Permutation _ _ _ Hpresent), Hpresent. }
  rewrite (series_of_labels (share column) (proportions column))
    by (intros label v Hin; by apply proportions_entry in Hin as [_ ->]).
  rewrite (series_of_labels (share column') (proportions column'))
    by (intros label v Hin; by apply proportions_entry in Hin as [_ ->]).
  assert (map fst (proportions column) = map fst (proportions column'))
    as ->.
  { apply (StronglySorted_unique label_le).
    - apply StronglySorted_labels, proportions_sorted.
    - apply StronglySorted_labels, proportions_sorted.
    - rewrite !proportions_labels. by apply distinct_Permutation. }
  apply map_ext. intros label. by rewrite Hshare.
Qed.

Lemma bind_ext {A B} (m : M A) (k k' : A -> M B) (s : option Figure) :
  (forall a t, k a t = k' a t) -> bind m k s = bind m k' s.
Proof. intros Hk. unfold bind. by destruct (m s) as [[a|e] t]. Qed.

Lemma df_getitem_row_order (df df' : DataFrame) (name : string) :
  df_columns df = df_columns df' -> df_rows df ≡ₚ df_rows df' ->
  match df_getitem df name, df_getitem df' name with
  | Ok column, Ok column' => column ≡ₚ column'
  | Raise e, Raise e' => e = e'
  | _, _ => False
  end.
Proof.
  intros Hcols Hrows. unfold df_getitem. rewrite <- Hcols.
  destruct (index_of name (df_columns df)); [|done].
  by rewrite Hrows.
Qed.

(** X7: [plot_category_proportions] depends on the table only through the
    names of its columns and the rows as a collection: for two tables with the
    same columns whose rows are a rearrangement of each other, the two calls
    end in the same way with the same figure. *)
Theorem category_proportions_row_order
    (seaborn_check : plot_request -> option string) (df df' : DataFrame)
    (category_columns : list string) (color_palette : option palette)
    (figsize : Q * Q) :
  df_columns df = df_columns df' ->
  df_rows df ≡ₚ df_rows df' ->
  run (plot_category_proportions seaborn_check df category_columns
         color_palette figsize)
  = run (plot_category_proportions seaborn_check df' category_columns
           color_palette figsize).
Proof.
  intros Hcols Hrows. rewrite !plot_category_proportions_unfold. unfold run.
  apply bind_ext. intros axs s.
  apply for_enumerate_ext. intros i category t _. cbn [Nat.add].
  unfold proportions_cell.
  pose proof (df_getitem_row_order df df' category Hcols Hrows) as Hget.
  assert (forall K : list cell -> M unit,
            (forall c c', c ≡ₚ c' -> K c = K c') ->
            bind (lift (df_getitem df category)) K t
            = bind (lift (df_getitem df' category)) K t) as Hbind.
  { intros K HK. unfold bind.
    destruct (df_getitem df category) as [column|e],
      (df_getitem df' category) as [column'|e']; try done.
    - cbn [lift ret]. by rewrite (HK _ _ Hget).
    - by subst. }
  apply Hbind. intros c c' Hperm.
  by rewrite (proportions_row_order _ _ Hperm).
Qed.

Lemma category_proportions_row_order_witness :
  run (plot_category_proportions accept_all penguins ["island"; "sex"] None
         (10, 5)%Q)
  = run (plot_category_proportions accept_all
           {| df_columns := df_columns penguins;
              df_rows := reverse (df_rows penguins) |}
           ["island"; "sex"] None (10, 5)%Q).
Proof.
  apply (category_proportions_row_order accept_all penguins); [done|].
  cbn [df_rows]. by rewrite reverse_Permutation.
Defined.
